(** * DepRadar: the vulnerability correlation engine

    A shallow embedding of [src/services/cve.ts] (version comparator, range
    matcher, advisory catalog lookup) and [src/services/audit.ts] (the five
    ecosystem audit adapters and the aggregator), with the properties the
    specification states about them.

    Conventions of the embedding.
    - A JavaScript string is a sequence of UTF-16 code units.  It is modelled
      as a Rocq [string], one [ascii] per code unit, which covers the strings
      whose code units lie below 256.  In that range the white space of the
      regular expression class [\s] and of [parseInt] is
      U+0009..U+000D, U+0020 and U+00A0, and the line terminators are U+000A
      and U+000D.
    - The integers produced by [parseInt] are modelled as [Z].  This is exact
      for digit runs that denote integers below 2^53; beyond that JavaScript
      rounds to the nearest double.
    - A function that can throw returns an [option]; [None] is the exception. *)

From Stdlib Require Import ZArith QArith Ascii String List Bool Lia DecimalString.
From stdpp Require Import base option list strings gmap.

Local Open Scope Z_scope.
Local Set Warnings "-register-all".

(** ** Characters and strings *)

Module Str.

Definition code (c : ascii) : N := N_of_ascii c.

Definition is_digit (c : ascii) : bool :=
  ((48 <=? code c) && (code c <=? 57))%N.

(** [\s] and [StrWhiteSpaceChar], restricted to code units below 256. *)
Definition is_space (c : ascii) : bool :=
  (((9 <=? code c) && (code c <=? 13)) || (code c =? 32) || (code c =? 160))%N.

(** The characters the regular expression atom [.] refuses. *)
Definition is_line_terminator (c : ascii) : bool :=
  ((code c =? 10) || (code c =? 13))%N.

Definition digit_value (c : ascii) : Z := Z.of_N (code c) - 48.

Fixpoint drop_while (p : ascii -> bool) (s : string) : string :=
  match s with
  | EmptyString => EmptyString
  | String c s' => if p c then drop_while p s' else s
  end.

Fixpoint take_while (p : ascii -> bool) (s : string) : string :=
  match s with
  | EmptyString => EmptyString
  | String c s' => if p c then String c (take_while p s') else EmptyString
  end.

Fixpoint existsb (p : ascii -> bool) (s : string) : bool :=
  match s with
  | EmptyString => false
  | String c s' => p c || existsb p s'
  end.

Fixpoint rev_acc (s acc : string) : string :=
  match s with
  | EmptyString => acc
  | String c s' => rev_acc s' (String c acc)
  end.

Definition rev (s : string) : string := rev_acc s EmptyString.

(** [s.trim()] *)
Definition trim (s : string) : string :=
  rev (drop_while is_space (rev (drop_while is_space s))).

(** [s.split(sep)] for a one-character separator: always at least one piece. *)
Fixpoint split_char (sep : ascii) (s : string) : list string :=
  match s with
  | EmptyString => [EmptyString]
  | String c s' =>
      if Ascii.eqb c sep then EmptyString :: split_char sep s'
      else match split_char sep s' with
           | piece :: pieces => String c piece :: pieces
           | [] => [String c EmptyString]
           end
  end.

(** [s.split(/\s+/)]: the separators are the maximal runs of white space.
    [in_run] tells that the previous character belonged to a separator, so
    that a further white-space character opens no new piece. *)
Fixpoint split_spaces_from (in_run : bool) (s : string) : list string :=
  match s with
  | EmptyString => [EmptyString]
  | String c s' =>
      if is_space c then
        if in_run then split_spaces_from true s'
        else EmptyString :: split_spaces_from true s'
      else match split_spaces_from false s' with
           | piece :: pieces => String c piece :: pieces
           | [] => [String c EmptyString]
           end
  end.

Definition split_spaces (s : string) : list string := split_spaces_from false s.

(** The last character of a string and what precedes it. *)
Fixpoint unsnoc (s : string) : option (string * ascii) :=
  match s with
  | EmptyString => None
  | String c s' =>
      match unsnoc s' with
      | None => Some (EmptyString, c)
      | Some (init, last) => Some (String c init, last)
      end
  end.

End Str.

(** ** [cve.ts]: version comparison *)

(** [parseInt(s, 10)]: leading white space is skipped, one sign is accepted,
    then the longest run of decimal digits is read; no digit gives [NaN],
    here [None]. *)
Definition parseInt_digits (s : string) : option Z :=
  match Str.take_while Str.is_digit s with
  | EmptyString => None
  | ds => Some (fold_left (fun acc c => 10 * acc + Str.digit_value c)
                          (list_ascii_of_string ds) 0)
  end.

Definition parseInt (s : string) : option Z :=
  match Str.drop_while Str.is_space s with
  | String "-" rest => Z.opp <$> parseInt_digits rest
  | String "+" rest => parseInt_digits rest
  | rest => parseInt_digits rest
  end.

(** [v.replace(/^[^0-9]*/, "").split(".").map(n => parseInt(n, 10) || 0)];
    [NaN || 0] and [0 || 0] are both [0]. *)
Definition parseVersion (v : string) : list Z :=
  map (fun n => default 0 (parseInt n))
      (Str.split_char "." (Str.drop_while (fun c => negb (Str.is_digit c)) v)).

(** The [for] loop of [compareVersions]: [i] is the loop counter and [steps]
    the number of iterations left before [i] reaches
    [Math.max(pa.length, pb.length)].  [pa[i] || 0] reads [0] past the end. *)
Fixpoint compareVersions_loop (pa pb : list Z) (i steps : nat) : Z :=
  match steps with
  | O => 0
  | S steps' =>
      let va := nth i pa 0 in
      let vb := nth i pb 0 in
      if negb (va =? vb) then va - vb
      else compareVersions_loop pa pb (S i) steps'
  end.

Definition compareVersions (a b : string) : Z :=
  let pa := parseVersion a in
  let pb := parseVersion b in
  compareVersions_loop pa pb 0 (Nat.max (length pa) (length pb)).

(** ** [cve.ts]: the range matcher *)

Definition is_op_char (c : ascii) : bool :=
  (Ascii.eqb c ">" || Ascii.eqb c "<" || Ascii.eqb c "=" || Ascii.eqb c "!")%bool.

(** [part.match(/^([><=!]+)(.+)$/)], giving the two groups.  The first group
    is greedy but must leave at least one character to the second; the second
    cannot hold a line terminator, since [$] only matches at the end. *)
Definition match_constraint (part : string) : option (string * string) :=
  let op := Str.take_while is_op_char part in
  let target := Str.drop_while is_op_char part in
  match op, target with
  | EmptyString, _ => None
  | _, String _ _ =>
      if Str.existsb Str.is_line_terminator target then None
      else Some (op, target)
  | _, EmptyString =>
      match Str.unsnoc op with
      | Some (String c op', last) =>
          if Str.is_line_terminator last then None
          else Some (String c op', String last EmptyString)
      | _ => None
      end
  end.

(** The [switch (op)] of [isInRange]: [true] when the constraint lets the
    loop go on, [false] when it makes [isInRange] return [false].  An operator
    outside the five cases falls through the [switch]. *)
Definition constraint_holds (op : string) (cmp : Z) : bool :=
  if String.eqb op ">=" then negb (cmp <? 0)
  else if String.eqb op ">" then negb (cmp <=? 0)
  else if String.eqb op "<=" then negb (cmp >? 0)
  else if String.eqb op "<" then negb (cmp >=? 0)
  else if String.eqb op "=" || String.eqb op "==" then negb (negb (cmp =? 0))
  else true.

Fixpoint isInRange_loop (version : string) (parts : list string) : bool :=
  match parts with
  | [] => true
  | part :: parts' =>
      match match_constraint part with
      | None => isInRange_loop version parts'
      | Some (op, target) =>
          let cmp := compareVersions version target in
          if constraint_holds op cmp then isInRange_loop version parts'
          else false
      end
  end.

Definition isInRange (version range : string) : bool :=
  isInRange_loop version (Str.split_spaces range).

(** ** [cve.ts]: the advisory catalog *)

Module Cve.

Inductive Severity := critical | high | moderate | low.

Record CveAdvisory := {
  id : string;
  package : string;
  severity : Severity;
  title : string;
  affectedVersions : string;
  patchedVersion : string;
  url : string;
  date : string
}.

Record CveMatch := {
  advisory : CveAdvisory;
  installedVersion : string;
  isAffected : bool
}.

Record CveCheckResult := {
  project : string;
  affected : list CveMatch;
  scannedPackages : nat
}.

Definition CVE_DATABASE : list CveAdvisory :=
  [
    {| id := "CVE-2026-22775";
       package := "devalue";
       severity := high;
       title := "DoS via memory/CPU exhaustion in devalue.parse";
       affectedVersions := ">=5.1.0 <5.6.2";
       patchedVersion := "5.6.2";
       url := "https://github.com/sveltejs/devalue/security/advisories/GHSA-g2pg-6438-jwpf";
       date := "2026-01-15" |};
    {| id := "CVE-2026-22774";
       package := "devalue";
       severity := high;
       title := "DoS via memory exhaustion in devalue.parse";
       affectedVersions := ">=5.3.0 <5.6.2";
       patchedVersion := "5.6.2";
       url := "https://github.com/sveltejs/devalue/security/advisories/GHSA-vw5p-8cq8-m7mv";
       date := "2026-01-15" |};
    {| id := "CVE-2026-22803";
       package := "@sveltejs/kit";
       severity := high;
       title := "Memory amplification DoS in Remote Functions binary form deserializer";
       affectedVersions := ">=2.49.0 <2.49.5";
       patchedVersion := "2.49.5";
       url := "https://github.com/sveltejs/kit/security/advisories/GHSA-j2f3-wq62-6q46";
       date := "2026-01-15" |};
    {| id := "CVE-2025-67647";
       package := "@sveltejs/kit";
       severity := critical;
       title := "DoS and SSRF via prerendering";
       affectedVersions := ">=2.19.0 <2.49.5";
       patchedVersion := "2.49.5";
       url := "https://github.com/sveltejs/kit/security/advisories/GHSA-j62c-4x62-9r35";
       date := "2026-01-15" |};
    {| id := "CVE-2025-67647";
       package := "@sveltejs/adapter-node";
       severity := high;
       title := "DoS and SSRF when using prerendering without ORIGIN env var";
       affectedVersions := "<5.5.1";
       patchedVersion := "5.5.1";
       url := "https://github.com/sveltejs/kit/security/advisories/GHSA-j62c-4x62-9r35";
       date := "2026-01-15" |};
    {| id := "CVE-2025-15265";
       package := "svelte";
       severity := moderate;
       title := "XSS via hydratable with unsanitized user-controlled keys";
       affectedVersions := ">=5.46.0 <5.46.4";
       patchedVersion := "5.46.4";
       url := "https://github.com/sveltejs/svelte/security/advisories/GHSA-6738-r8g5-qwp3";
       date := "2026-01-15" |};
    {| id := "CVE-2025-29927";
       package := "next";
       severity := critical;
       title := "Authorization bypass via x-middleware-subrequest header";
       affectedVersions := ">=12.0.0 <14.2.25";
       patchedVersion := "14.2.25";
       url := "https://github.com/vercel/next.js/security/advisories/GHSA-f82v-jh2m-4xrg";
       date := "2025-03-21" |};
    {| id := "CVE-2024-56332";
       package := "next";
       severity := high;
       title := "DoS via image optimization";
       affectedVersions := ">=10.0.0 <14.2.21";
       patchedVersion := "14.2.21";
       url := "https://github.com/vercel/next.js/security/advisories/GHSA-gp8f-8m3g-qvj9";
       date := "2024-12-17" |};
    {| id := "CVE-2024-29041";
       package := "express";
       severity := moderate;
       title := "Open redirect in express.response.redirect";
       affectedVersions := "<4.19.2";
       patchedVersion := "4.19.2";
       url := "https://github.com/expressjs/express/security/advisories/GHSA-rv95-896h-c2vc";
       date := "2024-03-25" |};
    {| id := "CVE-2025-30208";
       package := "vite";
       severity := high;
       title := "Arbitrary file access via special URL characters";
       affectedVersions := ">=6.0.0 <6.0.12";
       patchedVersion := "6.0.12";
       url := "https://github.com/vitejs/vite/security/advisories/GHSA-x574-m823-4c42";
       date := "2025-03-24" |};
    {| id := "CVE-2025-27152";
       package := "axios";
       severity := high;
       title := "SSRF and credential leakage via absolute URL override";
       affectedVersions := ">=1.0.0 <1.8.2";
       patchedVersion := "1.8.2";
       url := "https://github.com/axios/axios/security/advisories/GHSA-jr45-m27q-7655";
       date := "2025-03-07" |}
  ].

(** The body of the [for (const advisory of CVE_DATABASE)] loop, with the
    array [affected] threaded through.  [installed[advisory.package]] is
    [undefined] for a missing key (no package of the catalog bears the name
    of a property that objects inherit); [!version] holds for [undefined] and
    for the empty string. *)
Fixpoint checkProjectCves_loop (installed : gmap string string)
    (advisories : list CveAdvisory) (affected : list CveMatch) : list CveMatch :=
  match advisories with
  | [] => affected
  | advisory :: advisories' =>
      match installed !! package advisory with
      | None => checkProjectCves_loop installed advisories' affected
      | Some version =>
          if String.eqb version "" then
            checkProjectCves_loop installed advisories' affected
          else
            let isAffected := isInRange version (affectedVersions advisory) in
            if isAffected then
              checkProjectCves_loop installed advisories'
                (affected ++ [{| advisory := advisory;
                                 installedVersion := version;
                                 isAffected := true |}])
            else checkProjectCves_loop installed advisories' affected
      end
  end.

Section Lookup.

(** [getInstalledVersions] reads [package.json] and [node_modules] from the
    file system; what it returns is taken as given, with its declared type
    [Record<string, string>]. *)
Variable getInstalledVersions : string -> gmap string string.

Definition checkProjectCves (projectPath projectName : string) : CveCheckResult :=
  let installed := getInstalledVersions projectPath in
  {| project := projectName;
     affected := checkProjectCves_loop installed CVE_DATABASE [];
     scannedPackages := size installed |}.

(** [projects.map(...).filter(r => r.affected.length > 0)] *)
Definition checkAllProjectCves (projects : list (string * string)) : list CveCheckResult :=
  List.filter (fun r => (0 <? length (affected r))%nat)
    (map (fun p => checkProjectCves (snd p) (fst p)) projects).

End Lookup.

Definition getCveDatabase : list CveAdvisory := CVE_DATABASE.

End Cve.

(** ** [audit.ts]: JavaScript values *)

Module Js.

(** Numbers: the finite doubles are rationals, so a finite number is kept as
    a [Q]; comparisons with the constants of the code are then exact. *)
Inductive number := NaN | PosInf | NegInf | Fin (q : Q).

(** The values that [JSON.parse] and the adapters produce.  [VBuiltin] stands
    for a method found on a prototype (a function object). *)
Inductive value :=
  | VUndefined
  | VNull
  | VBool (b : bool)
  | VNumber (n : number)
  | VString (s : string)
  | VArray (items : list value)
  | VObject (props : list (string * value))
  | VBuiltin (name : string).

Definition of_nat (n : nat) : number := Fin (inject_Z (Z.of_nat n)).

(** [ToBoolean] *)
Definition truthy (v : value) : bool :=
  match v with
  | VUndefined | VNull => false
  | VBool b => b
  | VNumber NaN => false
  | VNumber (Fin q) => negb (Qeq_bool q 0)
  | VNumber _ => true
  | VString s => negb (String.eqb s "")
  | VArray _ | VObject _ | VBuiltin _ => true
  end.

Definition nullish (v : value) : bool :=
  match v with VUndefined | VNull => true | _ => false end.

(** [a || b] *)
Definition or_else (a b : value) : value := if truthy a then a else b.

(** [typeof v === "object"]: also [null] and arrays. *)
Definition typeof_object (v : value) : bool :=
  match v with VNull | VArray _ | VObject _ => true | _ => false end.

(** [Array.isArray(v) ? v : []], as the list of elements. *)
Definition array_or_empty (v : value) : list value :=
  match v with VArray items => items | _ => [] end.

(** An object lists its own properties in enumeration order, each name once. *)
Fixpoint lookup_prop (k : string) (props : list (string * value)) : value :=
  match props with
  | [] => VUndefined
  | (k', v) :: props' => if String.eqb k k' then v else lookup_prop k props'
  end.

(** [v.k] for a property name [k] that is not an array index.  Reading a
    property of [undefined] or [null] throws.  Of the names the adapters read,
    the prototypes only define [length] (arrays and strings, as an own
    property) and [link] (strings). *)
Definition get (v : value) (k : string) : option value :=
  match v with
  | VUndefined | VNull => None
  | VObject props => Some (lookup_prop k props)
  | VArray items =>
      Some (if String.eqb k "length" then VNumber (of_nat (length items))
            else VUndefined)
  | VString s =>
      Some (if String.eqb k "length" then VNumber (of_nat (String.length s))
            else if String.eqb k "link" then VBuiltin "String.prototype.link"
            else VUndefined)
  | VBool _ | VNumber _ | VBuiltin _ => Some VUndefined
  end.

(** [v?.k] *)
Definition opt_get (v : value) (k : string) : value :=
  default VUndefined (get v k).

(** [v?.[0]] *)
Definition opt_first (v : value) : value :=
  match v with
  | VArray items => nth 0 items VUndefined
  | VString (String c _) => VString (String c EmptyString)
  | VObject props => lookup_prop "0" props
  | _ => VUndefined
  end.

Definition index_name (i : nat) : string :=
  NilZero.string_of_uint (Nat.to_uint i).

Fixpoint indexed {A} (i : nat) (l : list A) : list (string * A) :=
  match l with
  | [] => []
  | x :: l' => (index_name i, x) :: indexed (S i) l'
  end.

Fixpoint chars (s : string) : list value :=
  match s with
  | EmptyString => []
  | String c s' => VString (String c EmptyString) :: chars s'
  end.

(** [Object.entries(v)]; it throws on [undefined] and [null]. *)
Definition entries (v : value) : option (list (string * value)) :=
  match v with
  | VUndefined | VNull => None
  | VObject props => Some props
  | VArray items => Some (indexed 0 items)
  | VString s => Some (indexed 0 (chars s))
  | VBool _ | VNumber _ | VBuiltin _ => Some []
  end.

(** [n >= q] and [n > q] for a rational constant [q]; [NaN] compares false. *)
Definition number_ge (n : number) (q : Q) : bool :=
  match n with
  | Fin x => Qle_bool q x
  | PosInf => true
  | NaN | NegInf => false
  end.

Definition number_gt (n : number) (q : Q) : bool :=
  match n with
  | Fin x => Qle_bool q x && negb (Qeq_bool q x)
  | PosInf => true
  | NaN | NegInf => false
  end.

(** What the adapters take from the JavaScript runtime and from the machine:
    the file system, the subprocesses, and the library functions that are not
    re-implemented here. *)
Record ExecOptions := {
  cwd : option string;
  timeout : option Z
}.

(** [execSync] either returns the captured standard output or throws an error
    that may carry [stdout] and [stderr]. *)
Inductive ExecResult :=
  | Returned (stdout : string)
  | Threw (stdout stderr : option string).

Record Runtime := {
  existsSync : string -> bool;
  join : string -> string -> string;
  execSync : string -> ExecOptions -> ExecResult;
  (** [None] when [JSON.parse] throws a [SyntaxError] *)
  JSON_parse : string -> option value;
  (** [ToString] of numbers, arrays, objects and functions *)
  ToString : value -> string;
  parseFloat : string -> number;
  (** [StringToNumber] *)
  StringToNumber : string -> number
}.

Section Coercions.

Variable rt : Runtime.

Definition to_string (v : value) : string :=
  match v with
  | VString s => s
  | VUndefined => "undefined"
  | VNull => "null"
  | VBool true => "true"
  | VBool false => "false"
  | VNumber _ | VArray _ | VObject _ | VBuiltin _ => ToString rt v
  end.

Definition to_number (v : value) : number :=
  match v with
  | VUndefined => NaN
  | VNull => Fin 0
  | VBool true => Fin 1
  | VBool false => Fin 0
  | VNumber n => n
  | VString s => StringToNumber rt s
  | VArray _ | VObject _ | VBuiltin _ => StringToNumber rt (ToString rt v)
  end.

(** [v > 0] *)
Definition gt_zero (v : value) : bool := number_gt (to_number v) 0.

End Coercions.

End Js.

(** ** [audit.ts]: the ecosystem adapters *)

Module Audit.
Import Js.

(** The fields hold whatever the upstream tool printed, so they are [value]s:
    the interface types of the source are not checked at run time. *)
Record VulnerabilityInfo := {
  package : value;
  severity : value;
  title : value;
  url : value;
  fixVersion : value;
  currentVersion : value
}.

Record AuditResult := {
  project : string;
  language : string;
  vulnerabilities : list VulnerabilityInfo;
  totalVulnerabilities : value;
  critical : value;
  high : value;
  moderate : value;
  low : value;
  auditCommand : string;
  error : option string
}.

Module Project.
Record t := { name : string; path : string; language : string }.
End Project.

Definition zero : value := VNumber (of_nat 0).

(** [vulns.length] *)
Definition count (vulns : list VulnerabilityInfo) : value :=
  VNumber (of_nat (length vulns)).

(** [v.severity === s] *)
Definition has_severity (s : string) (v : VulnerabilityInfo) : bool :=
  match severity v with
  | VString s' => String.eqb s' s
  | _ => false
  end.

(** [vulns.filter(v => v.severity === s).length] *)
Definition count_severity (s : string) (vulns : list VulnerabilityInfo) : value :=
  count (List.filter (has_severity s) vulns).

Definition emptyResult (project language auditCommand : string)
    (error : option string) : AuditResult :=
  {| project := project; language := language; vulnerabilities := [];
     totalVulnerabilities := zero;
     critical := zero; high := zero; moderate := zero; low := zero;
     auditCommand := auditCommand; error := error |}.

(** [e.stdout] and [e.stderr] count when present and not empty. *)
Definition present (o : option string) : option string :=
  match o with
  | Some (String c s) => Some (String c s)
  | _ => None
  end.

(** [Array.prototype.map] and the like applied to [v]: only an array has
    them, anything else throws a [TypeError]. *)
Definition as_array (v : value) : option (list value) :=
  match v with VArray items => Some items | _ => None end.

Section Adapters.

Variable rt : Runtime.

(** [cmd]: the trimmed standard output, also when the command exits non-zero;
    failing that the trimmed standard error; failing that [null]. *)
Definition cmd (command cwd : string) (timeout : Z) : option string :=
  match execSync rt command {| cwd := Some cwd; timeout := Some timeout |} with
  | Returned stdout => Some (Str.trim stdout)
  | Threw stdout stderr =>
      match present stdout with
      | Some out => Some (Str.trim out)
      | None =>
          match present stderr with
          | Some err => Some (Str.trim err)
          | None => None
          end
      end
  end.

Definition cmdExists (name : string) : bool :=
  match execSync rt ("which " +:+ name) {| cwd := None; timeout := None |} with
  | Returned _ => true
  | Threw _ _ => false
  end.

(** *** node *)

Definition detect_pm (projectPath : string) : string :=
  if existsSync rt (join rt projectPath "pnpm-lock.yaml") then "pnpm"
  else if existsSync rt (join rt projectPath "yarn.lock") then "yarn"
  else if existsSync rt (join rt projectPath "bun.lockb") then "bun"
  else "npm".

Definition node_auditCmd (pm : string) : string :=
  if String.eqb pm "pnpm" then "pnpm audit --json"
  else if String.eqb pm "yarn" then "yarn audit --json"
  else "npm audit --json".

(** [via.find((v) => typeof v === "object" && v.title)]; [v.title] throws
    when [v] is [null]. *)
Fixpoint find_advisory (via : list value) : option value :=
  match via with
  | [] => Some VUndefined
  | v :: via' =>
      if typeof_object v then
        t ← get v "title";
        if truthy t then Some v else find_advisory via'
      else find_advisory via'
  end.

(** One turn of the loop over [Object.entries(data.vulnerabilities)]: the
    record that is pushed. *)
Definition node_vulnerability (entry : string * value) : option VulnerabilityInfo :=
  let '(pkg, info) := entry in
  info_via ← get info "via";
  let via := array_or_empty info_via in
  advisory ← find_advisory via;
  info_severity ← get info "severity";
  fixAvailable ← get info "fixAvailable";
  info_range ← get info "range";
  Some {| package := VString pkg;
          severity := or_else info_severity (VString "moderate");
          title := or_else (opt_get advisory "title")
                     (VString ("Vulnerability in " +:+ pkg));
          url := or_else (opt_get advisory "url") (VString "");
          fixVersion :=
            if typeof_object fixAvailable
            then or_else (opt_get fixAvailable "version") VNull
            else if truthy fixAvailable then VString "available" else VNull;
          currentVersion := or_else info_range VNull |}.

(** [data.metadata?.vulnerabilities || {}] *)
Definition node_meta (data : value) : value :=
  or_else (opt_get (opt_get data "metadata") "vulnerabilities") (VObject []).

(** The body of the [try] block for [npm] and [pnpm]; [None] is an exception,
    which the [catch] turns into the parse-failure result. *)
Definition auditNode_parse (projectName auditCmd raw : string) : option AuditResult :=
  data ← JSON_parse rt raw;
  data_vulnerabilities ← get data "vulnerabilities";
  vulns ← (if truthy data_vulnerabilities
           then es ← entries data_vulnerabilities; mapM node_vulnerability es
           else Some []);
  let meta := node_meta data in
  Some {| project := projectName;
          language := "node";
          vulnerabilities := vulns;
          totalVulnerabilities := or_else (opt_get meta "total") (count vulns);
          critical := or_else (opt_get meta "critical") (count_severity "critical" vulns);
          high := or_else (opt_get meta "high") (count_severity "high" vulns);
          moderate := or_else (opt_get meta "moderate") (count_severity "moderate" vulns);
          low := or_else (opt_get meta "low") (count_severity "low" vulns);
          auditCommand := auditCmd;
          error := None |}.

Definition auditNode (projectPath projectName : string) : AuditResult :=
  let pm := detect_pm projectPath in
  let auditCmd := node_auditCmd pm in
  match cmd auditCmd projectPath 60000 with
  | None | Some EmptyString =>
      emptyResult projectName "node" auditCmd
        (Some "Audit command failed or timed out.")
  | Some raw =>
      if String.eqb pm "npm" || String.eqb pm "pnpm" then
        match auditNode_parse projectName auditCmd raw with
        | Some result => result
        | None =>
            emptyResult projectName "node" auditCmd
              (Some "Failed to parse audit output.")
        end
      else emptyResult projectName "node" auditCmd None
  end.

(** *** rust *)

Definition mapRustSeverity (cvss : value) : string :=
  if negb (truthy cvss) then "moderate"
  else
    let score := match cvss with
                 | VNumber n => n
                 | _ => parseFloat rt (to_string rt cvss)
                 end in
    if number_ge score 9 then "critical"
    else if number_ge score 7 then "high"
    else if number_ge score 4 then "moderate"
    else "low".

Definition rust_vulnerability (v : value) : option VulnerabilityInfo :=
  advisory ← get v "advisory";
  versions ← get v "versions";
  v_package ← get v "package";
  let patched := opt_get versions "patched" in
  Some {| package := or_else (opt_get advisory "package") (VString "unknown");
          severity := VString (mapRustSeverity (opt_get advisory "cvss"));
          title := or_else (opt_get advisory "title") (VString "Unknown vulnerability");
          url := or_else (opt_get advisory "url") (VString "");
          fixVersion := or_else (opt_first patched) VNull;
          currentVersion := or_else (opt_get v_package "version") VNull |}.

Definition auditRust_parse (projectName raw : string) : option AuditResult :=
  data ← JSON_parse rt raw;
  data_vulnerabilities ← get data "vulnerabilities";
  list ← as_array (or_else (opt_get data_vulnerabilities "list") (VArray []));
  vulns ← mapM rust_vulnerability list;
  Some {| project := projectName;
          language := "rust";
          vulnerabilities := vulns;
          totalVulnerabilities := count vulns;
          critical := count_severity "critical" vulns;
          high := count_severity "high" vulns;
          moderate := count_severity "moderate" vulns;
          low := count_severity "low" vulns;
          auditCommand := "cargo audit --json";
          error := None |}.

Definition auditRust (projectPath projectName : string) : AuditResult :=
  if negb (cmdExists "cargo-audit") && negb (cmdExists "cargo") then
    emptyResult projectName "rust" "cargo audit"
      (Some "cargo-audit not installed. Run: cargo install cargo-audit")
  else
    match cmd "cargo audit --json" projectPath 60000 with
    | None | Some EmptyString =>
        emptyResult projectName "rust" "cargo audit --json"
          (Some "Audit command failed.")
    | Some raw =>
        match auditRust_parse projectName raw with
        | Some result => result
        | None =>
            emptyResult projectName "rust" "cargo audit --json"
              (Some "Failed to parse audit output.")
        end
    end.

(** *** python *)

(** [items.flatMap(f)], and the nested loops that push, where [f] may throw. *)
Definition flatMapM {A B} (f : A -> option (list B)) (l : list A) : option (list B) :=
  ls ← mapM f l;
  Some (concat ls).

(** [items.filter(p)] where the callback [p] may throw. *)
Fixpoint filterM {A} (p : A -> option bool) (l : list A) : option (list A) :=
  match l with
  | [] => Some []
  | x :: l' =>
      keep ← p x;
      kept ← filterM p l';
      Some (if (keep : bool) then x :: kept else kept)
  end.

(** [d.vulns && d.vulns.length > 0] *)
Definition python_keep (d : value) : option bool :=
  d_vulns ← get d "vulns";
  if truthy d_vulns then
    len ← get d_vulns "length";
    Some (gt_zero rt len)
  else Some false.

Definition python_vulnerability (d v : value) : option VulnerabilityInfo :=
  fix_versions ← get v "fix_versions";
  v_id ← get v "id";
  aliases ← get v "aliases";
  d_name ← get d "name";
  d_version ← get d "version";
  Some {| package := d_name;
          severity := VString (if truthy (opt_get fix_versions "length")
                               then "high" else "moderate");
          title := or_else v_id (VString "Vulnerability");
          url := VString
                   (if truthy (opt_first aliases)
                    then "https://nvd.nist.gov/vuln/detail/"
                         +:+ to_string rt (opt_first aliases)
                    else "");
          fixVersion := or_else (opt_first fix_versions) VNull;
          currentVersion := or_else d_version VNull |}.

(** [d.vulns.map(v => ...)] *)
Definition python_entry (d : value) : option (list VulnerabilityInfo) :=
  d_vulns ← get d "vulns";
  vs ← as_array d_vulns;
  mapM (python_vulnerability d) vs.

Definition auditPython_parse (projectName auditCmd raw : string) : option AuditResult :=
  data ← JSON_parse rt raw;
  deps ← match data with
          | VArray _ => Some data
          | _ => dependencies ← get data "dependencies";
                 Some (or_else dependencies (VArray []))
          end;
  ds ← as_array deps;
  kept ← filterM python_keep ds;
  vulns ← flatMapM python_entry kept;
  Some {| project := projectName;
          language := "python";
          vulnerabilities := vulns;
          totalVulnerabilities := count vulns;
          critical := count_severity "critical" vulns;
          high := count_severity "high" vulns;
          moderate := count_severity "moderate" vulns;
          low := count_severity "low" vulns;
          auditCommand := auditCmd;
          error := None |}.

Definition auditPython (projectPath projectName : string) : AuditResult :=
  if negb (cmdExists "pip-audit") && negb (cmdExists "pip3") then
    emptyResult projectName "python" "pip-audit"
      (Some "pip-audit not installed. Run: pip install pip-audit")
  else
    let auditTool := if cmdExists "pip-audit" then "pip-audit" else "pip3" in
    let auditCmd := if String.eqb auditTool "pip-audit"
                    then "pip-audit --format=json -r requirements.txt"
                    else "pip3 audit --format=json" in
    match cmd auditCmd projectPath 60000 with
    | None | Some EmptyString => emptyResult projectName "python" auditCmd None
    | Some raw =>
        match auditPython_parse projectName auditCmd raw with
        | Some result => result
        | None =>
            emptyResult projectName "python" auditCmd
              (Some "Failed to parse audit output.")
        end
    end.

(** *** php *)

Definition php_vulnerability (pkg : string) (adv : value) : option VulnerabilityInfo :=
  adv_title ← get adv "title";
  advisoryId ← get adv "advisoryId";
  link ← get adv "link";
  affectedVersions ← get adv "affectedVersions";
  Some {| package := VString pkg;
          severity := VString "high";
          title := or_else (or_else adv_title advisoryId) (VString "Vulnerability");
          url := or_else link (VString "");
          fixVersion := VNull;
          currentVersion := or_else affectedVersions VNull |}.

(** The inner loop, over [Array.isArray(advisories) ? advisories : []]. *)
Definition php_entry (entry : string * value) : option (list VulnerabilityInfo) :=
  let '(pkg, advisories) := entry in
  mapM (php_vulnerability pkg) (array_or_empty advisories).

Definition auditPhp_parse (projectName raw : string) : option AuditResult :=
  data ← JSON_parse rt raw;
  advisories ← get data "advisories";
  es ← entries (or_else advisories (VObject []));
  vulns ← flatMapM php_entry es;
  Some {| project := projectName;
          language := "php";
          vulnerabilities := vulns;
          totalVulnerabilities := count vulns;
          critical := zero; high := count vulns; moderate := zero; low := zero;
          auditCommand := "composer audit --format=json";
          error := None |}.

Definition auditPhp (projectPath projectName : string) : AuditResult :=
  if negb (cmdExists "composer") then
    emptyResult projectName "php" "composer audit" (Some "Composer not installed.")
  else
    match cmd "composer audit --format=json" projectPath 60000 with
    | None | Some EmptyString =>
        emptyResult projectName "php" "composer audit --format=json" None
    | Some raw =>
        match auditPhp_parse projectName raw with
        | Some result => result
        | None => emptyResult projectName "php" "composer audit" (Some "Failed to parse.")
        end
    end.

(** *** go *)

(** What one line of the output contributes: the inner [try] pushes one
    record, or nothing when the line does not parse, when reading it throws,
    or when it has no [vulnerability]. *)
Definition go_line (line : string) : list VulnerabilityInfo :=
  let pushed :=
    entry ← JSON_parse rt line;
    v ← get entry "vulnerability";
    if truthy v then
      let module0 := opt_first (opt_get v "modules") in
      Some [ {| package := or_else (opt_get module0 "module") (VString "unknown");
                severity := VString "high";
                title := or_else (opt_get v "id") (VString "Vulnerability");
                url := VString ("https://pkg.go.dev/vuln/"
                                +:+ to_string rt (opt_get v "id"));
                fixVersion := or_else (opt_get module0 "fixed_version") VNull;
                currentVersion := or_else (opt_get module0 "found_version") VNull |} ]
    else Some [] in
  default [] pushed.

(** [raw.split("\n").filter(Boolean)] *)
Definition go_lines (raw : string) : list string :=
  List.filter (fun line => negb (String.eqb line ""))
    (Str.split_char "010"%char raw).

(** Nothing in the outer [try] can throw, so its [catch] is never taken. *)
Definition auditGo (projectPath projectName : string) : AuditResult :=
  if negb (cmdExists "govulncheck") then
    emptyResult projectName "go" "govulncheck"
      (Some "govulncheck not installed. Run: go install golang.org/x/vuln/cmd/govulncheck@latest")
  else
    match cmd "govulncheck -json ./..." projectPath 60000 with
    | None | Some EmptyString =>
        emptyResult projectName "go" "govulncheck -json ./..." None
    | Some raw =>
        let vulns := concat (map go_line (go_lines raw)) in
        {| project := projectName;
           language := "go";
           vulnerabilities := vulns;
           totalVulnerabilities := count vulns;
           critical := zero; high := count vulns; moderate := zero; low := zero;
           auditCommand := "govulncheck -json ./...";
           error := None |}
    end.

(** *** The aggregator *)

Definition auditProject (projectPath projectName language : string) : AuditResult :=
  if String.eqb language "node" then auditNode projectPath projectName
  else if String.eqb language "rust" then auditRust projectPath projectName
  else if String.eqb language "python" then auditPython projectPath projectName
  else if String.eqb language "php" then auditPhp projectPath projectName
  else if String.eqb language "go" then auditGo projectPath projectName
  else emptyResult projectName language "N/A"
         (Some ("No audit tool available for " +:+ language +:+ ".")).

(** The callback of the final [filter]:
    [r.totalVulnerabilities > 0 || r.error]. *)
Definition keeps (r : AuditResult) : bool :=
  gt_zero rt (totalVulnerabilities r)
  || match error r with
     | Some e => negb (String.eqb e "")
     | None => false
     end.

Definition auditAllProjects (projects : list Project.t) : list AuditResult :=
  List.filter keeps
    (map (fun p => auditProject (Project.path p) (Project.name p) (Project.language p))
         projects).

End Adapters.

End Audit.

(** ** [cve.ts]: the statistics of the catalog *)

Module CveStats.
Import Cve.

Record Stats := {
  total : nat;
  packages : list string;
  lastUpdate : string
}.

(** [new Set(items)], as the list of its elements in insertion order: an
    element that is already in the set is not added again. *)
Fixpoint Set_add_all (elements items : list string) : list string :=
  match items with
  | [] => elements
  | item :: items' =>
      Set_add_all (if existsb (String.eqb item) elements then elements
                   else elements ++ [item])
                  items'
  end.

Definition new_Set (items : list string) : list string := Set_add_all [] items.

(** [items.sort()] on strings: the default order compares code units.  The
    sorted array does not depend on the algorithm, since strings that compare
    equal are the same string; this is an insertion sort. *)
Fixpoint sort_insert (item : string) (sorted : list string) : list string :=
  match sorted with
  | [] => [item]
  | item' :: sorted' =>
      if String.leb item item' then item :: sorted
      else item' :: sort_insert item sorted'
  end.

Fixpoint sort (items : list string) : list string :=
  match items with
  | [] => []
  | item :: items' => sort_insert item (sort items')
  end.

(** The body of [getCveDatabaseStats], for a catalog.
    [dates[dates.length - 1] || "unknown"] is "unknown" for an empty array
    and for an empty last date. *)
Definition stats_of (catalog : list CveAdvisory) : Stats :=
  let packages := new_Set (map package catalog) in
  let dates := sort (map date catalog) in
  {| total := length catalog;
     packages := packages;
     lastUpdate := match last dates with
                   | Some (String c d) => String c d
                   | _ => "unknown"
                   end |}.

Definition getCveDatabaseStats : Stats := stats_of CVE_DATABASE.

End CveStats.

(** ** [cve.ts]: reading the installed versions *)

Module CveFs.
Import Js.

(** What [getInstalledVersions] takes from the file system besides
    [existsSync]: [readFileSync(path, "utf-8")], which throws when the file
    cannot be read, and [path.join] of four segments. *)
Record FileSystem := {
  readFileSync : string -> option string;
  join4 : string -> string -> string -> string -> string
}.

(** [props[k] = v] on an object literal under construction: the value of an
    existing property is replaced in place, a new property goes last. *)
Fixpoint define_prop (k : string) (v : value) (props : list (string * value))
    : list (string * value) :=
  match props with
  | [] => [(k, v)]
  | (k', v') :: props' =>
      if String.eqb k k' then (k, v) :: props'
      else (k', v') :: define_prop k v props'
  end.

(** [{ ...target, ...source }]: the own properties of [source] are copied
    over those of [target]; spreading [undefined], [null], a number or a
    boolean copies nothing, and nothing throws. *)
Definition spread (target : list (string * value)) (source : value)
    : list (string * value) :=
  fold_left (fun props kv => define_prop (fst kv) (snd kv) props)
            (default [] (entries source)) target.

Definition is_range_char (c : ascii) : bool :=
  (Ascii.eqb c "^" || Ascii.eqb c "~" || Ascii.eqb c ">"
   || Ascii.eqb c "=" || Ascii.eqb c "<")%bool.

Section Reading.

Variable rt : Runtime.
Variable fs : FileSystem.

(** [String(specifier).replace(/^[\^~>=<]+/, "")] *)
Definition strip_specifier (specifier : value) : string :=
  Str.drop_while is_range_char (to_string rt specifier).

(** The value that one turn of the loop assigns to [versions[name]]: the
    [version] field of the manifest under [node_modules] when that file
    exists, can be read and parsed and is not [null]; the stripped specifier
    otherwise. *)
Definition resolve_version (projectPath name : string) (specifier : value) : value :=
  let nmPkgPath := join4 fs projectPath "node_modules" name "package.json" in
  if existsSync rt nmPkgPath then
    match (text ← readFileSync fs nmPkgPath;
           nmPkg ← JSON_parse rt text;
           get nmPkg "version") with
    | Some version => version
    | None => VString (strip_specifier specifier)
    end
  else VString (strip_specifier specifier).

(** [versions[name] = v].  The result of [getInstalledVersions] is modelled
    by its own properties.  An assignment to the name [__proto__] creates
    none: it goes to the setter that objects inherit. *)
Definition assign (versions : gmap string value) (name : string) (v : value)
    : gmap string value :=
  if String.eqb name "__proto__" then versions else <[ name := v ]> versions.

(** The [try] block up to the loop: [None] when reading or parsing
    [package.json] throws, or when it holds [null]. *)
Definition read_allDeps (pkgPath : string) : option (list (string * value)) :=
  text ← readFileSync fs pkgPath;
  pkg ← JSON_parse rt text;
  dependencies ← get pkg "dependencies";
  devDependencies ← get pkg "devDependencies";
  Some (spread (spread [] dependencies) devDependencies).

(** The loop visits the properties of [allDeps]; each name is assigned once,
    so the order of the visits does not show in the result. *)
Definition getInstalledVersions (projectPath : string) : gmap string value :=
  let pkgPath := join rt projectPath "package.json" in
  if existsSync rt pkgPath then
    match read_allDeps pkgPath with
    | Some allDeps =>
        fold_left (fun versions kv =>
                     assign versions (fst kv)
                       (resolve_version projectPath (fst kv) (snd kv)))
                  allDeps ∅
    | None => ∅
    end
  else ∅.

End Reading.

End CveFs.

(** ** [formatter.ts]: how [formatAudit] selects and orders

    Of [formatAudit], which renders the report as text, this models the
    parts that decide what is shown: the two filters, the test for the
    all-clear message, the order of the findings of a project and the rows
    that are kept. *)

Module Formatter.
Import Js Audit.

(** [v === 0] *)
Definition strict_zero (v : value) : bool :=
  match v with
  | VNumber (Fin q) => Qeq_bool q 0
  | _ => false
  end.

(** The properties that every object inherits: reading one of them from
    [order] gives a function, or for [__proto__] the prototype. *)
Definition inherited_names : list string :=
  [ "constructor"; "__defineGetter__"; "__defineSetter__"; "hasOwnProperty";
    "__lookupGetter__"; "__lookupSetter__"; "isPrototypeOf";
    "propertyIsEnumerable"; "toString"; "valueOf"; "__proto__";
    "toLocaleString" ].

(** Stable insertion sort by a key: what [sort] returns for a comparator
    [(a, b) => key(a) - key(b)] whose keys are numbers. *)
Fixpoint insert_by {A} (key : A -> Z) (x : A) (sorted : list A) : list A :=
  match sorted with
  | [] => [x]
  | y :: sorted' =>
      if key x <=? key y then x :: sorted
      else y :: insert_by key x sorted'
  end.

Fixpoint sort_by {A} (key : A -> Z) (items : list A) : list A :=
  match items with
  | [] => []
  | x :: items' => insert_by key x (sort_by key items')
  end.

Section Selecting.

Variable rt : Runtime.

(** [results.filter(r => r.totalVulnerabilities > 0)] *)
Definition withVulns (results : list AuditResult) : list AuditResult :=
  List.filter (fun r => gt_zero rt (totalVulnerabilities r)) results.

(** [results.filter(r => r.error && r.totalVulnerabilities === 0)] *)
Definition withErrors (results : list AuditResult) : list AuditResult :=
  List.filter (fun r => match error r with
                        | Some e => negb (String.eqb e "")
                        | None => false
                        end
                        && strict_zero (totalVulnerabilities r))
              results.

(** [withVulns.length === 0 && withErrors.length === 0]: the test that
    makes [formatAudit] return the all-clear message. *)
Definition all_clear (results : list AuditResult) : bool :=
  (length (withVulns results) =? 0)%nat && (length (withErrors results) =? 0)%nat.

(** [order[v.severity] || 4] with
    [order = { critical: 0, high: 1, moderate: 2, low: 3, info: 4 }].
    The property name is the severity as a string.  [0 || 4] is [4].  For a
    name that objects inherit the value is not a number and the comparator
    returns [NaN]: that is [None]. *)
Definition severity_rank (v : VulnerabilityInfo) : option Z :=
  let key := to_string rt (severity v) in
  if String.eqb key "critical" then Some 4
  else if String.eqb key "high" then Some 1
  else if String.eqb key "moderate" then Some 2
  else if String.eqb key "low" then Some 3
  else if String.eqb key "info" then Some 4
  else if existsb (String.eqb key) inherited_names then None
  else Some 4.

(** [[...r.vulnerabilities].sort((a, b) => rank(a) - rank(b))].  [sort] is
    stable, and an array of at most one element is returned as it is.  When
    a rank is [NaN] in a longer array the comparator is not consistent and
    the standard leaves the order to the implementation: [None]. *)
Definition sorted (vulns : list VulnerabilityInfo) : option (list VulnerabilityInfo) :=
  if (length vulns <=? 1)%nat
     || forallb (fun v => match severity_rank v with Some _ => true | None => false end)
                vulns
  then Some (sort_by (fun v => default 4 (severity_rank v)) vulns)
  else None.

(** [sorted.slice(0, 20)]: the rows of the table. *)
Definition rows (vulns : list VulnerabilityInfo) : option (list VulnerabilityInfo) :=
  take 20 <$> sorted vulns.

End Selecting.

End Formatter.

(** * Vocabulary of the properties

    The predicates in which the properties are stated, and the concrete
    inputs on which they are exercised. *)

(** The three values a comparator is said to return. *)
Definition in_sign_set (z : Z) : Prop := z = -1 \/ z = 0 \/ z = 1.

(** What one token of the expression demands of [version]: nothing when it
    does not parse, the comparison otherwise. *)
Definition part_allows (version part : string) : bool :=
  match match_constraint part with
  | None => true
  | Some (op, target) => constraint_holds op (compareVersions version target)
  end.

Module CveSpec.
Import Cve.

(** The match an advisory yields against the installed versions, if any. *)
Definition match_of (installed : gmap string string) (adv : CveAdvisory) : option CveMatch :=
  match installed !! package adv with
  | Some version =>
      if String.eqb version "" then None
      else if isInRange version (affectedVersions adv)
           then Some {| advisory := adv; installedVersion := version; isAffected := true |}
           else None
  | None => None
  end.

Definition express_advisory : CveAdvisory :=
  {| id := "CVE-2024-29041";
     package := "express";
     severity := moderate;
     title := "Open redirect in express.response.redirect";
     affectedVersions := "<4.19.2";
     patchedVersion := "4.19.2";
     url := "https://github.com/expressjs/express/security/advisories/GHSA-rv95-896h-c2vc";
     date := "2024-03-25" |}.

(** A project that declares [express] with the empty specifier and has not
    installed it. *)
Definition installed_empty_express : gmap string string := {[ "express" := "" ]}.

End CveSpec.

Module AuditSpec.
Import Js Audit.

(** A machine on which no tool is installed and the project directory holds
    no file: every command fails in the shell, which writes to the standard
    error only. *)
Definition rt_no_tools : Runtime :=
  {| existsSync := fun _ => false;
     join := fun dir file => dir +:+ "/" +:+ file;
     execSync := fun _ _ => Threw (Some "") (Some "sh: 1: command not found");
     JSON_parse := fun _ => None;
     ToString := fun _ => "";
     parseFloat := fun _ => NaN;
     StringToNumber := fun _ => NaN |}.

(** A machine on which every tool is installed and every command succeeds
    without printing anything. *)
Definition rt_silent : Runtime :=
  {| existsSync := fun _ => false;
     join := fun dir file => dir +:+ "/" +:+ file;
     execSync := fun _ _ => Returned "";
     JSON_parse := fun _ => None;
     ToString := fun _ => "";
     parseFloat := fun _ => NaN;
     StringToNumber := fun _ => NaN |}.

(** The report of an audit that found one package of high severity, with the
    summary that upstream prints next to it. *)
Definition lodash_report : value :=
  VObject
    [ ("vulnerabilities",
       VObject [ ("lodash",
                  VObject [ ("severity", VString "high");
                            ("via", VArray [ VObject [ ("title", VString "Prototype Pollution");
                                                       ("url", VString "https://github.com/advisories/GHSA-p6mc-m468-83gw") ] ]);
                            ("range", VString "<4.17.19");
                            ("fixAvailable", VBool true) ]) ]);
      ("metadata",
       VObject [ ("vulnerabilities",
                  VObject [ ("info", VNumber (of_nat 0));
                            ("low", VNumber (of_nat 0));
                            ("moderate", VNumber (of_nat 0));
                            ("high", VNumber (of_nat 1));
                            ("critical", VNumber (of_nat 2));
                            ("total", VNumber (of_nat 3)) ]) ]) ].

(** A machine whose audit command exits non-zero after printing
    [lodash_report]; the project directory holds the files listed in [files].
    Here and below a text between angle brackets stands for the JSON text of
    a report, and [JSON_parse] gives the value it denotes. *)
Definition rt_reporting (files : list string) : Runtime :=
  {| existsSync := fun f => bool_decide (f ∈ files);
     join := fun dir file => dir +:+ "/" +:+ file;
     execSync := fun _ _ => Threw (Some "<audit report>") (Some "");
     JSON_parse := fun _ => Some lodash_report;
     ToString := fun _ => "";
     parseFloat := fun _ => NaN;
     StringToNumber := fun _ => NaN |}.

(** Two reports: one critical finding from [npm], none from [cargo]. *)
Definition minimist_report : value :=
  VObject
    [ ("vulnerabilities",
       VObject [ ("minimist",
                  VObject [ ("severity", VString "critical");
                            ("via", VArray [ VObject [ ("title", VString "Prototype Pollution in minimist");
                                                       ("url", VString "https://github.com/advisories/GHSA-xvch-5gv4-984h") ] ]);
                            ("range", VString "<0.2.4");
                            ("fixAvailable", VBool true) ]) ]);
      ("metadata",
       VObject [ ("vulnerabilities",
                  VObject [ ("info", VNumber (of_nat 0));
                            ("low", VNumber (of_nat 0));
                            ("moderate", VNumber (of_nat 0));
                            ("high", VNumber (of_nat 0));
                            ("critical", VNumber (of_nat 1));
                            ("total", VNumber (of_nat 1)) ]) ]) ].

Definition cargo_clean_report : value :=
  VObject [ ("vulnerabilities",
             VObject [ ("found", VBool false);
                       ("count", VNumber (of_nat 0));
                       ("list", VArray []) ]) ].

(** A machine with all tools, on which [npm audit] exits non-zero with
    [minimist_report] and [cargo audit] succeeds with [cargo_clean_report]. *)
Definition rt_two_projects : Runtime :=
  {| existsSync := fun _ => false;
     join := fun dir file => dir +:+ "/" +:+ file;
     execSync := fun command _ =>
       if String.eqb command "npm audit --json"
       then Threw (Some "<npm report>") (Some "")
       else if String.eqb command "cargo audit --json"
       then Returned "<cargo report>"
       else Returned "/usr/bin/tool";
     JSON_parse := fun text =>
       if String.eqb text "<npm report>" then Some minimist_report
       else if String.eqb text "<cargo report>" then Some cargo_clean_report
       else None;
     ToString := fun _ => "";
     parseFloat := fun _ => NaN;
     StringToNumber := fun _ => NaN |}.

Definition project_a : Project.t :=
  {| Project.name := "a"; Project.path := "/srv/a"; Project.language := "node" |}.

Definition project_b : Project.t :=
  {| Project.name := "b"; Project.path := "/srv/b"; Project.language := "rust" |}.

(** A machine with all tools, whose commands all print [out]; [parse] is
    what [JSON.parse] makes of a text. *)
Definition rt_printing (out : string) (parse : string -> option value) : Runtime :=
  {| existsSync := fun _ => false;
     join := fun dir file => dir +:+ "/" +:+ file;
     execSync := fun _ _ => Returned out;
     JSON_parse := parse;
     ToString := fun _ => "";
     parseFloat := fun _ => NaN;
     StringToNumber := fun _ => NaN |}.

(** A [pip-audit] report: one dependency with two findings, of which one has
    a fix, and one dependency without findings. *)
Definition pip_report : value :=
  VArray
    [ VObject [ ("name", VString "flask");
                ("version", VString "0.5");
                ("vulns",
                 VArray [ VObject [ ("id", VString "PYSEC-2019-179");
                                    ("fix_versions", VArray [VString "1.0"]);
                                    ("aliases", VArray [VString "CVE-2019-1010083"]) ];
                          VObject [ ("id", VString "PYSEC-2018-66");
                                    ("fix_versions", VArray []);
                                    ("aliases", VArray []) ] ]) ];
      VObject [ ("name", VString "jinja2");
                ("version", VString "3.1.2");
                ("vulns", VArray []) ] ].

(** A [composer audit] report: two advisories for one package. *)
Definition composer_report : value :=
  VObject
    [ ("advisories",
       VObject [ ("symfony/http-kernel",
                  VArray [ VObject [ ("title", VString "Cache poisoning");
                                     ("link", VString "https://symfony.com/cve-2022-24894");
                                     ("affectedVersions", VString ">=2.0.0,<4.4.50") ];
                           VObject [ ("advisoryId", VString "PKSA-n8zw-9q3c-1ghr") ] ]) ]) ].

Definition newline : string := String "010"%char EmptyString.

(** The output of [govulncheck]: a configuration line, a line that is not
    JSON, and a finding. *)
Definition govulncheck_output : string :=
  "<config>" +:+ newline +:+ "govulncheck: loading packages" +:+ newline +:+ "<finding>".

Definition govulncheck_parse (line : string) : option value :=
  if String.eqb line "<config>"
  then Some (VObject [ ("config", VObject [ ("scanner_name", VString "govulncheck") ]) ])
  else if String.eqb line "<finding>"
  then Some (VObject
               [ ("vulnerability",
                  VObject [ ("id", VString "GO-2023-1571");
                            ("modules",
                             VArray [ VObject [ ("module", VString "golang.org/x/net");
                                                ("found_version", VString "v0.5.0");
                                                ("fixed_version", VString "v0.7.0") ] ]) ]) ])
  else None.

(** The command has printed nothing that [cmd] could return. *)
Definition no_output (raw : option string) : Prop := raw = None \/ raw = Some "".

(** [auditCmd] of the python adapter *)
Definition python_auditCmd (rt : Runtime) : string :=
  if cmdExists rt "pip-audit" then "pip-audit --format=json -r requirements.txt"
  else "pip3 audit --format=json".

(** The four severity levels that have a count field. *)
Inductive Level := Critical | High | Moderate | Low.

Definition level_name (l : Level) : string :=
  match l with
  | Critical => "critical"
  | High => "high"
  | Moderate => "moderate"
  | Low => "low"
  end.

(** The count field of a result for a severity level. *)
Definition level_count (l : Level) (r : AuditResult) : value :=
  match l with
  | Critical => critical r
  | High => high r
  | Moderate => moderate r
  | Low => low r
  end.

(** The invariant of the data model: every count field is the number of
    entries of that severity in the list of the same result. *)
Definition counts_match (r : AuditResult) : Prop :=
  forall l, level_count l r = count_severity (level_name l) (vulnerabilities r).

(** A result whose counts are those of its list and whose error, if any, is
    a message. *)
Definition plain (r : AuditResult) : Prop :=
  counts_match r /\
  error r <> Some "" /\
  totalVulnerabilities r = count (vulnerabilities r).

(** A result worth reporting, in the words of the specification: at least
    one finding in its list, or an error. *)
Definition reportable (r : AuditResult) : Prop :=
  vulnerabilities r <> [] \/ error r <> None.

(** A clean result: no finding and no error. *)
Definition clean (r : AuditResult) : Prop :=
  vulnerabilities r = [] /\ error r = None.

(** A number above zero; [NaN] is above nothing. *)
Definition positive (n : number) : Prop :=
  match n with
  | Fin q => (0 < q)%Q
  | PosInf => True
  | NaN | NegInf => False
  end.

(** A result that counts findings or has an error: its
    [totalVulnerabilities], read as a number, is above zero, or its error is
    not null. *)
Definition counted (rt : Runtime) (r : AuditResult) : Prop :=
  positive (to_number rt (totalVulnerabilities r)) \/ error r <> None.

#[export] Instance positive_dec n : Decision (positive n).
Proof.
  destruct n as [| | |q]; cbn [positive]; try apply _.
  destruct (Qlt_le_dec 0 q) as [Hlt|Hle]; [left; exact Hlt|].
  right. intros Hlt. exact (Qle_not_lt _ _ Hle Hlt).
Defined.

#[export] Instance counted_dec rt r : Decision (counted rt r).
Proof. unfold counted. apply _. Defined.

(** What upstream prints in its summary [metadata.vulnerabilities] under a
    name: one of the severities, or [total]. *)
Definition upstream_summary (data : value) (k : string) : value :=
  opt_get (opt_get (opt_get data "metadata") "vulnerabilities") k.

(** A report whose summary counts three findings although it lists none. *)
Definition summary_only_report : value :=
  VObject
    [ ("metadata",
       VObject [ ("vulnerabilities",
                  VObject [ ("info", VNumber (of_nat 0));
                            ("low", VNumber (of_nat 0));
                            ("moderate", VNumber (of_nat 0));
                            ("high", VNumber (of_nat 3));
                            ("critical", VNumber (of_nat 0));
                            ("total", VNumber (of_nat 3)) ]) ]) ].

(** A report that lists one finding next to a summary whose total is not a
    count. *)
Definition negative_total_report : value :=
  VObject
    [ ("vulnerabilities",
       VObject [ ("lodash",
                  VObject [ ("severity", VString "high");
                            ("via", VArray [ VObject [ ("title", VString "Prototype Pollution") ] ]);
                            ("range", VString "<4.17.19");
                            ("fixAvailable", VBool true) ]) ]);
      ("metadata",
       VObject [ ("vulnerabilities",
                  VObject [ ("total", VNumber (Fin (inject_Z (-1)))) ]) ]) ].

(** What [npm audit --json] prints in a directory without a lockfile: a
    report of the error, as JSON. *)
Definition npm_error_report : value :=
  VObject
    [ ("error",
       VObject [ ("code", VString "ENOLOCK");
                 ("summary", VString "This command requires an existing lockfile.") ]) ].

(** What the other tools write to the standard error when the manifest they
    need is missing. *)
Definition complaint (command : string) : string :=
  if String.eqb command "cargo audit --json"
  then "error: not found: Couldn't load Cargo.lock"
  else if String.eqb command "composer audit --format=json"
  then "Composer could not find a composer.json file in /srv/app"
  else if String.eqb command "pip-audit --format=json -r requirements.txt"
  then "ERROR: Could not open requirements file: requirements.txt"
  else "no manifest found".

(** The manifest and lock files of the five ecosystems. *)
Definition manifest_files : list string :=
  [ "package.json"; "package-lock.json"; "pnpm-lock.yaml"; "yarn.lock"; "bun.lockb";
    "Cargo.toml"; "Cargo.lock";
    "requirements.txt"; "pyproject.toml";
    "composer.json"; "composer.lock";
    "go.mod"; "go.sum" ].

(** The project directory holds none of them. *)
Definition no_manifest (rt : Runtime) (projectPath : string) : bool :=
  forallb (fun file => negb (existsSync rt (join rt projectPath file))) manifest_files.

(** A machine on which every tool is installed, and a project directory
    "/srv/app" that exists and is empty.  Each audit command exits non-zero;
    [npm] prints its error report, the other tools complain in plain text on
    the standard error. *)
Definition rt_no_manifest : Runtime :=
  {| existsSync := fun file => String.eqb file "/srv/app";
     join := fun dir file => dir +:+ "/" +:+ file;
     execSync := fun command _ =>
       if String.prefix "which " command then Returned "/usr/bin/tool"
       else if String.eqb command "npm audit --json"
       then Threw (Some "<npm error report>") (Some "npm error code ENOLOCK")
       else Threw (Some "") (Some (complaint command));
     JSON_parse := fun text =>
       if String.eqb text "<npm error report>" then Some npm_error_report else None;
     ToString := fun _ => "";
     parseFloat := fun _ => NaN;
     StringToNumber := fun _ => NaN |}.

(** The per-project results, before the final [filter]. *)
Definition results_of (rt : Runtime) (projects : list Project.t) : list AuditResult :=
  map (fun p => auditProject rt (Project.path p) (Project.name p) (Project.language p))
      projects.

End AuditSpec.

(** ** Vocabulary of the further properties *)

Module RangeSpec.

(** A version as the catalog writes it after an operator: not empty, not
    starting with an operator character, free of white space. *)
Definition target_ok (t : string) : bool :=
  match t with
  | EmptyString => false
  | String c _ => negb (is_op_char c) && negb (Str.existsb Str.is_space t)
  end.

(** A text made of operator characters only, such as [">="] or ["!="]. *)
Definition operator_text (op : string) : bool :=
  match op with
  | EmptyString => false
  | String _ _ => negb (Str.existsb (fun c => negb (is_op_char c)) op)
  end.

(** The operators that have a [case] in the [switch] of [isInRange]. *)
Definition recognised (op : string) : bool :=
  String.eqb op ">=" || String.eqb op ">" || String.eqb op "<="
  || String.eqb op "<" || String.eqb op "=" || String.eqb op "==".

(** The pieces of a split that are not empty. *)
Definition nonempty_parts (parts : list string) : list string :=
  List.filter (fun part => negb (String.eqb part "")) parts.

End RangeSpec.

Module AdapterSpec.
Import Js Audit AuditSpec.

(** The severity of an entry is one of the four levels that are counted. *)
Definition level_severity (v : VulnerabilityInfo) : Prop :=
  exists l : Level, severity v = VString (level_name l).

(** A result is an [emptyResult] with a message for an error (or with none),
    or a parsed report, which has no error. *)
Definition shaped (projectName language : string) (r : AuditResult) : Prop :=
  project r = projectName /\ Audit.language r = language /\
  ((exists auditCommand error, r = emptyResult projectName language auditCommand error)
   \/ error r = None).

(** A CVSS vector as [cargo audit] prints it. *)
Definition cvss_vector : value :=
  VString "CVSS:3.1/AV:N/AC:L/PR:N/UI:N/S:U/C:H/I:H/A:H".

End AdapterSpec.

Module StatsSpec.

(** Every element is below all those that follow it. *)
Fixpoint ascending (items : list string) : Prop :=
  match items with
  | [] => True
  | item :: items' =>
      (forall x, In x items' -> String.leb item x = true) /\ ascending items'
  end.

(** Each element once, at the place where it first appears. *)
Fixpoint first_occurrences (items : list string) : list string :=
  match items with
  | [] => []
  | item :: items' =>
      item :: List.filter (fun x => negb (String.eqb x item)) (first_occurrences items')
  end.

End StatsSpec.

Module FsSpec.
Import Js CveFs.





(** A project that declares three dependencies and has installed none. *)
Definition manifest : value :=
  VObject [ ("name", VString "app");
            ("dependencies",
             VObject [ ("express", VString "^4.17.1");
                       ("lodash", VString "~4.17.20") ]);
            ("devDependencies", VObject [ ("vite", VString ">=6.0.5") ]) ].

Definition rt_manifest : Runtime :=
  {| existsSync := fun file => String.eqb file "/srv/app/package.json";
     join := fun dir file => dir +:+ "/" +:+ file;
     execSync := fun _ _ => Threw None None;
     JSON_parse := fun text =>
       if String.eqb text "<package.json>" then Some manifest else None;
     ToString := fun _ => "";
     parseFloat := fun _ => NaN;
     StringToNumber := fun _ => NaN |}.

Definition fs_manifest : FileSystem :=
  {| readFileSync := fun file =>
       if String.eqb file "/srv/app/package.json" then Some "<package.json>"
       else None;
     join4 := fun a b c d => a +:+ "/" +:+ b +:+ "/" +:+ c +:+ "/" +:+ d |}.


End FsSpec.

Module FormatterSpec.
Import Js Audit Formatter.

(** The keys never decrease along the list. *)
Fixpoint nondecreasing {A} (key : A -> Z) (items : list A) : Prop :=
  match items with
  | [] => True
  | x :: items' => (forall y, In y items' -> key x <= key y) /\ nondecreasing key items'
  end.

(** A finding of severity "high", "moderate" or "low". *)
Definition lesser (v : VulnerabilityInfo) : bool :=
  match severity v with
  | VString s => String.eqb s "high" || String.eqb s "moderate" || String.eqb s "low"
  | _ => false
  end.

Definition finding (package_name severity_name : string) : VulnerabilityInfo :=
  {| package := VString package_name; severity := VString severity_name;
     title := VString "Vulnerability"; url := VString "";
     fixVersion := VNull; currentVersion := VNull |}.

(** One critical finding followed by twenty of high severity. *)
Definition crowded : list VulnerabilityInfo :=
  finding "openssl" "critical" :: replicate 20 (finding "lodash" "high").

End FormatterSpec.

Module ReportSpec.
Import Js Audit AuditSpec.

(** A report in the older layout, which [pnpm audit --json] prints: the
    findings under [advisories], a summary without [total], and no
    [vulnerabilities] field. *)
Definition pnpm_report : value :=
  VObject
    [ ("advisories",
       VObject [ ("1179",
                  VObject [ ("module_name", VString "minimist");
                            ("severity", VString "critical");
                            ("title", VString "Prototype Pollution in minimist") ]) ]);
      ("metadata",
       VObject [ ("vulnerabilities",
                  VObject [ ("info", VNumber (of_nat 0));
                            ("low", VNumber (of_nat 0));
                            ("moderate", VNumber (of_nat 0));
                            ("high", VNumber (of_nat 0));
                            ("critical", VNumber (of_nat 1)) ]);
                 ("dependencies", VNumber (of_nat 120)) ]) ].

Definition rt_pnpm : Runtime :=
  {| existsSync := fun file => String.eqb file "/srv/app/pnpm-lock.yaml";
     join := fun dir file => dir +:+ "/" +:+ file;
     execSync := fun _ _ => Threw (Some "<audit report>") (Some "");
     JSON_parse := fun _ => Some pnpm_report;
     ToString := fun _ => "";
     parseFloat := fun _ => NaN;
     StringToNumber := fun _ => NaN |}.

Definition project_pnpm : Project.t :=
  {| Project.name := "app"; Project.path := "/srv/app"; Project.language := "node" |}.

(** A machine whose [JSON.parse] reads "<array>" as [pip_report] and
    "<object>" as the same list under [dependencies]. *)
Definition rt_pip_shapes : Runtime :=
  {| existsSync := fun _ => false;
     join := fun dir file => dir +:+ "/" +:+ file;
     execSync := fun _ _ => Returned "";
     JSON_parse := fun text =>
       if String.eqb text "<array>" then Some pip_report
       else if String.eqb text "<object>"
       then Some (VObject [ ("dependencies", pip_report) ])
       else None;
     ToString := fun _ => "";
     parseFloat := fun _ => NaN;
     StringToNumber := fun _ => NaN |}.

End ReportSpec.

(** * Properties *)

(** ** The version comparator *)

Example parseVersion_prefix : parseVersion "v5.10.x" = [5; 10; 0].
Proof. reflexivity. Qed.

Example parseVersion_empty : parseVersion "" = [0].
Proof. reflexivity. Qed.

Example parseVersion_lenient : parseVersion "^1.-2. 3.x.4rc1" = [1; -2; 3; 0; 4].
Proof. reflexivity. Qed.

Example split_spaces_runs :
  Str.split_spaces " >=5.1.0   <5.6.2 " = [""; ">=5.1.0"; "<5.6.2"; ""].
Proof. reflexivity. Qed.

Example match_constraint_operator : match_constraint ">=5.1.0" = Some (">=", "5.1.0").
Proof. reflexivity. Qed.

(** The operator gives its last character back when nothing follows it. *)
Example match_constraint_backtrack : match_constraint ">=" = Some (">", "=").
Proof. reflexivity. Qed.

Example match_constraint_none : match_constraint "5.1.0" = None.
Proof. reflexivity. Qed.

(** An operator outside the [switch] constrains nothing. *)
Example isInRange_unknown_operator : isInRange "1.0.0" "!=1.0.0" = true.
Proof. reflexivity. Qed.

Lemma compareVersions_loop_equal pa pb steps : forall i,
  (forall j, nth j pa 0 = nth j pb 0) ->
  compareVersions_loop pa pb i steps = 0.
Proof.
  induction steps as [|steps IH]; intros i Heq; simpl; [reflexivity|].
  rewrite Heq, Z.eqb_refl. simpl. now apply IH.
Qed.

(** What the loop returns: [0] when the components agree on the whole range
    it visits, and otherwise the difference at the first index where they
    do not. *)
Lemma compareVersions_loop_spec pa pb steps : forall i,
  (compareVersions_loop pa pb i steps = 0 /\
   forall j, (i <= j < i + steps)%nat -> nth j pa 0 = nth j pb 0) \/
  (exists k, (i <= k < i + steps)%nat /\
     (forall j, (i <= j < k)%nat -> nth j pa 0 = nth j pb 0) /\
     nth k pa 0 <> nth k pb 0 /\
     compareVersions_loop pa pb i steps = nth k pa 0 - nth k pb 0).
Proof.
  induction steps as [|steps IH]; intros i; simpl.
  - left. split; [reflexivity|]. intros j Hj. lia.
  - destruct (Z.eqb_spec (nth i pa 0) (nth i pb 0)) as [Heq|Hne]; simpl.
    + destruct (IH (S i)) as [[H0 Hall]|(k & Hk & Hbefore & Hdiff & Hres)].
      * left. split; [exact H0|]. intros j Hj.
        destruct (Nat.eq_dec j i) as [->|Hji]; [exact Heq|]. apply Hall. lia.
      * right. exists k. split; [lia|]. split; [|split; assumption].
        intros j Hj.
        destruct (Nat.eq_dec j i) as [->|Hji]; [exact Heq|]. apply Hbefore. lia.
    + right. exists i. split; [lia|]. split; [intros j Hj; lia|].
      split; [exact Hne|reflexivity].
Qed.

(** C4, as stated, fails: [compareVersions("3.0", "1.0")] is [2], which is
    not one of -1, 0 and 1. *)
Lemma compareVersions_not_sign_valued :
  compareVersions "3.0" "1.0" = 2 /\ ~ in_sign_set (compareVersions "3.0" "1.0").
Proof.
  split; [reflexivity|].
  change (compareVersions "3.0" "1.0") with 2.
  unfold in_sign_set. lia.
Qed.

(** C4, amended: [compareVersions(a, b)] is [0] when the components of [a]
    and [b] agree at every position (a missing one counting as zero), and
    otherwise the difference [va - vb] of the components at the first
    position where they differ; it is an integer whose sign orders the two
    versions, not a value confined to -1, 0 and 1. *)
Theorem compareVersions_first_difference (a b : string) :
  let pa := parseVersion a in
  let pb := parseVersion b in
  (compareVersions a b = 0 /\ forall i, nth i pa 0 = nth i pb 0) \/
  (exists k, (forall j, (j < k)%nat -> nth j pa 0 = nth j pb 0) /\
     nth k pa 0 <> nth k pb 0 /\
     compareVersions a b = nth k pa 0 - nth k pb 0 /\
     compareVersions a b <> 0).
Proof.
  intros pa pb. unfold compareVersions. fold pa pb.
  destruct (compareVersions_loop_spec pa pb (Nat.max (length pa) (length pb)) 0)
    as [[H0 Hall]|(k & Hk & Hbefore & Hdiff & Hres)].
  - left. split; [exact H0|]. intros i.
    destruct (Nat.lt_ge_cases i (Nat.max (length pa) (length pb))) as [Hlt|Hge].
    + apply Hall. lia.
    + rewrite !nth_overflow by lia. reflexivity.
  - right. exists k. split; [intros j Hj; apply Hbefore; lia|].
    split; [exact Hdiff|]. split; [exact Hres|]. rewrite Hres. lia.
Qed.

(** C5: when the numeric components of [a] and [b] are equal position by
    position, a missing trailing component counting as zero,
    [compareVersions(a, b)] is [0]; so [compareVersions("5.1", "5.1.0")]
    is [0]. *)
Theorem compareVersions_equal_components :
  (forall a b : string,
     (forall i, nth i (parseVersion a) 0 = nth i (parseVersion b) 0) ->
     compareVersions a b = 0) /\
  compareVersions "5.1" "5.1.0" = 0.
Proof.
  split; [|reflexivity].
  intros a b Heq. unfold compareVersions.
  now apply compareVersions_loop_equal.
Qed.

Lemma compareVersions_equal_components_witness :
  (forall i, nth i (parseVersion "5.1") 0 = nth i (parseVersion "5.1.0") 0) /\
  compareVersions "5.1" "5.1.0" = 0.
Proof.
  assert (H : forall i, nth i (parseVersion "5.1") 0 = nth i (parseVersion "5.1.0") 0).
  { intros i. change (parseVersion "5.1") with [5; 1].
    change (parseVersion "5.1.0") with [5; 1; 0].
    do 3 (destruct i as [|i]; [reflexivity|]). destruct i; reflexivity. }
  split; [exact H|].
  exact (proj1 compareVersions_equal_components "5.1" "5.1.0" H).
Defined.

(** ** The range matcher *)

Lemma isInRange_loop_forallb version parts :
  isInRange_loop version parts = forallb (part_allows version) parts.
Proof.
  induction parts as [|part parts IH]; simpl; [reflexivity|].
  unfold part_allows at 1.
  destruct (match_constraint part) as [[op target]|]; simpl; [|exact IH].
  destruct (constraint_holds op (compareVersions version target)); simpl;
    [exact IH|reflexivity].
Qed.


(** C3: with the expression [">=5.1.0 <5.6.2"], [isInRange] accepts "5.6.1"
    and rejects "5.6.2".  The constraints of an expression are AND-ed:
    [isInRange] is the conjunction over the white-space separated tokens; and
    a [<] bound holds exactly when the comparison is negative, so the bound
    itself is excluded. *)
Theorem isInRange_conjunction_exclusive_upper :
  isInRange "5.6.1" ">=5.1.0 <5.6.2" = true /\
  isInRange "5.6.2" ">=5.1.0 <5.6.2" = false /\
  (forall version range,
     isInRange version range
     = forallb (part_allows version) (Str.split_spaces range)) /\
  (forall cmp, constraint_holds "<" cmp = true <-> cmp < 0).
Proof.
  split; [reflexivity|]. split; [reflexivity|]. split.
  - intros version range. apply isInRange_loop_forallb.
  - intros cmp. unfold constraint_holds. simpl.
    destruct (Z.geb_spec cmp 0); simpl; split; intros; try lia; try discriminate; reflexivity.
Qed.



(** ** The catalog lookup *)

Module CveFacts.
Import Cve CveSpec.

Lemma checkProjectCves_loop_omap installed advisories : forall affected,
  checkProjectCves_loop installed advisories affected
  = affected ++ omap (match_of installed) advisories.
Proof.
  induction advisories as [|adv advisories IH]; intros affected; simpl.
  - now rewrite app_nil_r.
  - unfold match_of at 1.
    destruct (installed !! package adv) as [version|]; [|apply IH].
    destruct (String.eqb version ""); [apply IH|].
    destruct (isInRange version (affectedVersions adv)); [|apply IH].
    rewrite IH, <- app_assoc. reflexivity.
Qed.

(** C2, as stated, fails: the package [express] is present in the map, its
    version is not absent, and [isInRange] holds of it for the advisory, yet
    no match is emitted, because the empty version string is falsy. *)
Lemma checkProjectCves_skips_empty_version :
  In express_advisory CVE_DATABASE /\
  installed_empty_express !! package express_advisory = Some "" /\
  isInRange "" (affectedVersions express_advisory) = true /\
  affected (checkProjectCves (fun _ => installed_empty_express) "/srv/app" "app") = [].
Proof.
  split; [|split; [|split]].
  - unfold CVE_DATABASE. do 8 right. left. reflexivity.
  - vm_compute. reflexivity.
  - vm_compute. reflexivity.
  - vm_compute. reflexivity.
Qed.

(** C2, amended: for every installed-version map and every advisory of the
    catalog, the lookup emits the match pairing the advisory with the
    installed version exactly when the advisory's package is in the map with
    a version that is not the empty string and [isInRange] holds of that
    version and the advisory's range; it emits nothing else, and the matches
    come in catalog order. *)
Theorem checkProjectCves_affected_iff
    (getInstalledVersions : string -> gmap string string)
    (projectPath projectName : string) :
  let installed := getInstalledVersions projectPath in
  let result := checkProjectCves getInstalledVersions projectPath projectName in
  (forall m : CveMatch,
     In m (affected result) <->
     exists adv version,
       In adv CVE_DATABASE /\
       installed !! package adv = Some version /\
       version <> "" /\
       isInRange version (affectedVersions adv) = true /\
       m = {| advisory := adv; installedVersion := version; isAffected := true |}) /\
  affected result = omap (match_of installed) CVE_DATABASE.
Proof.
  intros installed result.
  assert (Haff : affected result = omap (match_of installed) CVE_DATABASE).
  { exact (checkProjectCves_loop_omap installed CVE_DATABASE []). }
  split; [|exact Haff].
  intros m. rewrite Haff, <- list_elem_of_In, list_elem_of_omap. split.
  - intros (adv & Hadv & Hm). exists adv. unfold match_of in Hm.
    destruct (installed !! package adv) as [version|] eqn:Hlook; [|discriminate].
    exists version. destruct (String.eqb_spec version "") as [|Hne]; [discriminate|].
    destruct (isInRange version (affectedVersions adv)) eqn:Hrange; [|discriminate].
    injection Hm as <-. rewrite <- list_elem_of_In. auto.
  - intros (adv & version & Hadv & Hlook & Hne & Hrange & ->).
    exists adv. split; [now apply list_elem_of_In|].
    unfold match_of. rewrite Hlook, Hrange.
    destruct (String.eqb_spec version ""); [contradiction|reflexivity].
Qed.

(** [checkAllProjectCves] keeps, in input order, the projects with at least
    one match. *)
Lemma checkAllProjectCves_affected getInstalledVersions projects r :
  In r (checkAllProjectCves getInstalledVersions projects) <->
  In r (map (fun p => checkProjectCves getInstalledVersions (snd p) (fst p)) projects)
  /\ affected r <> [].
Proof.
  unfold checkAllProjectCves. rewrite filter_In.
  destruct (affected r) as [|m ms]; cbn [length]; split.
  - intros [_ Hlen]. discriminate.
  - intros [_ Hne]. contradiction.
  - intros [Hin _]. split; [exact Hin|discriminate].
  - intros [Hin _]. split; [exact Hin|reflexivity].
Qed.

End CveFacts.

(** ** The adapters *)

Module AuditFacts.
Import Js Audit AuditSpec.

Section Yarn.

Variable rt : Runtime.

(** *** The node adapter under yarn *)

(** C10: for a node project that has [yarn.lock] and no [pnpm-lock.yaml],
    whenever the audit command (here [yarn audit --json]) produces output, the
    adapter returns the empty result with a null error: the output is not
    parsed, whatever it reports. *)
Theorem auditNode_yarn_output_unread (projectPath projectName raw : string) :
  existsSync rt (join rt projectPath "pnpm-lock.yaml") = false ->
  existsSync rt (join rt projectPath "yarn.lock") = true ->
  cmd rt "yarn audit --json" projectPath 60000 = Some raw ->
  raw <> "" ->
  auditNode rt projectPath projectName
  = emptyResult projectName "node" "yarn audit --json" None
  /\ vulnerabilities (auditNode rt projectPath projectName) = []
  /\ error (auditNode rt projectPath projectName) = None.
Proof.
  intros Hpnpm Hyarn Hcmd Hraw.
  assert (Hres : auditNode rt projectPath projectName
                 = emptyResult projectName "node" "yarn audit --json" None).
  { unfold auditNode, detect_pm. rewrite Hpnpm, Hyarn.
    change (node_auditCmd "yarn") with "yarn audit --json".
    rewrite Hcmd. destruct raw as [|c raw']; [contradiction|reflexivity]. }
  rewrite Hres. auto.
Qed.

End Yarn.

Lemma auditNode_yarn_output_unread_witness :
  auditNode (rt_reporting ["/srv/app/yarn.lock"]) "/srv/app" "app"
  = emptyResult "app" "node" "yarn audit --json" None.
Proof.
  refine (proj1 (auditNode_yarn_output_unread
                   (rt_reporting ["/srv/app/yarn.lock"]) "/srv/app" "app"
                   "<audit report>" _ _ _ _)).
  - vm_compute. reflexivity.
  - vm_compute. reflexivity.
  - vm_compute. reflexivity.
  - discriminate.
Defined.

(** *** Projects without a manifest *)

(** C9, as stated, fails: the adapters never look for a manifest.  On a
    machine with every tool installed, in a directory without any file, the
    tools complain in plain text; the rust, python and php adapters take the
    complaint for the report and return the parse-failure result. *)
Lemma no_manifest_parse_failure :
  no_manifest rt_no_manifest "/srv/app" = true /\
  cmdExists rt_no_manifest "cargo-audit" = true /\
  cmdExists rt_no_manifest "pip-audit" = true /\
  cmdExists rt_no_manifest "composer" = true /\
  auditProject rt_no_manifest "/srv/app" "app" "rust"
    = emptyResult "app" "rust" "cargo audit --json"
        (Some "Failed to parse audit output.") /\
  auditProject rt_no_manifest "/srv/app" "app" "python"
    = emptyResult "app" "python" "pip-audit --format=json -r requirements.txt"
        (Some "Failed to parse audit output.") /\
  auditProject rt_no_manifest "/srv/app" "app" "php"
    = emptyResult "app" "php" "composer audit" (Some "Failed to parse.").
Proof. repeat split; vm_compute; reflexivity. Qed.

Lemma no_lockfile_npm rt projectPath :
  no_manifest rt projectPath = true -> detect_pm rt projectPath = "npm".
Proof.
  intros Hfiles. unfold no_manifest in Hfiles. rewrite forallb_forall in Hfiles.
  assert (Hfile : forall file, In file manifest_files ->
                               existsSync rt (join rt projectPath file) = false).
  { intros file Hin. now apply negb_true_iff, Hfiles. }
  unfold detect_pm.
  rewrite (Hfile "pnpm-lock.yaml") by (cbn; tauto).
  rewrite (Hfile "yarn.lock") by (cbn; tauto).
  now rewrite (Hfile "bun.lockb") by (cbn; tauto).
Qed.

Lemma go_lines_unparsed rt lines :
  (forall line, In line lines -> JSON_parse rt line = None) ->
  concat (map (go_line rt) lines) = [].
Proof.
  induction lines as [|line lines IH]; intros Hlines; cbn [map concat]; [reflexivity|].
  rewrite IH by (intros l Hl; apply Hlines; now right).
  unfold go_line. rewrite (Hlines line) by now left. reflexivity.
Qed.

(** C9, amended: what the adapters return in a project directory that holds
    no manifest or lock file, with the tool installed.  When the audit
    command prints nothing, the python, php and go adapters return the result
    with an empty list, zero counts and a null error, and the node and rust
    adapters the error result "Audit command failed".  When it prints a text
    that is not JSON, the node, rust, python and php adapters return the
    parse-failure result, and the go adapter, none of whose lines parses,
    the result with a null error.  When [npm] prints a JSON report without
    findings and without a summary, the node adapter returns the result with
    a null error.  In all these cases the list is empty and the counts are
    zero. *)
Theorem adapters_without_manifest (rt : Runtime) (projectPath projectName : string) :
  no_manifest rt projectPath = true ->
  let npm := cmd rt "npm audit --json" projectPath 60000 in
  let cargo := cmd rt "cargo audit --json" projectPath 60000 in
  let pip := cmd rt (python_auditCmd rt) projectPath 60000 in
  let composer := cmd rt "composer audit --format=json" projectPath 60000 in
  let govulncheck := cmd rt "govulncheck -json ./..." projectPath 60000 in
  ((no_output npm ->
    auditNode rt projectPath projectName
    = emptyResult projectName "node" "npm audit --json"
        (Some "Audit command failed or timed out.")) /\
   (forall raw, npm = Some raw -> raw <> "" -> JSON_parse rt raw = None ->
    auditNode rt projectPath projectName
    = emptyResult projectName "node" "npm audit --json"
        (Some "Failed to parse audit output.")) /\
   (forall raw data listed,
      npm = Some raw -> raw <> "" -> JSON_parse rt raw = Some data ->
      get data "vulnerabilities" = Some listed -> truthy listed = false ->
      truthy (opt_get (opt_get data "metadata") "vulnerabilities") = false ->
    auditNode rt projectPath projectName
    = emptyResult projectName "node" "npm audit --json" None)) /\
  (cmdExists rt "cargo-audit" = true \/ cmdExists rt "cargo" = true ->
   (no_output cargo ->
    auditRust rt projectPath projectName
    = emptyResult projectName "rust" "cargo audit --json" (Some "Audit command failed.")) /\
   (forall raw, cargo = Some raw -> raw <> "" -> JSON_parse rt raw = None ->
    auditRust rt projectPath projectName
    = emptyResult projectName "rust" "cargo audit --json"
        (Some "Failed to parse audit output."))) /\
  (cmdExists rt "pip-audit" = true \/ cmdExists rt "pip3" = true ->
   (no_output pip ->
    auditPython rt projectPath projectName
    = emptyResult projectName "python" (python_auditCmd rt) None) /\
   (forall raw, pip = Some raw -> raw <> "" -> JSON_parse rt raw = None ->
    auditPython rt projectPath projectName
    = emptyResult projectName "python" (python_auditCmd rt)
        (Some "Failed to parse audit output."))) /\
  (cmdExists rt "composer" = true ->
   (no_output composer ->
    auditPhp rt projectPath projectName
    = emptyResult projectName "php" "composer audit --format=json" None) /\
   (forall raw, composer = Some raw -> raw <> "" -> JSON_parse rt raw = None ->
    auditPhp rt projectPath projectName
    = emptyResult projectName "php" "composer audit" (Some "Failed to parse."))) /\
  (cmdExists rt "govulncheck" = true ->
   (no_output govulncheck ->
    auditGo rt projectPath projectName
    = emptyResult projectName "go" "govulncheck -json ./..." None) /\
   (forall raw, govulncheck = Some raw -> raw <> "" ->
      (forall line, In line (go_lines raw) -> JSON_parse rt line = None) ->
    auditGo rt projectPath projectName
    = emptyResult projectName "go" "govulncheck -json ./..." None)).
Proof.
  intros Hfiles npm cargo pip composer govulncheck.
  subst npm cargo pip composer govulncheck.
  split; [|split; [|split; [|split]]].
  - pose proof (no_lockfile_npm rt projectPath Hfiles) as Hpm.
    unfold auditNode. rewrite Hpm.
    change (node_auditCmd "npm") with "npm audit --json".
    change (String.eqb "npm" "npm" || String.eqb "npm" "pnpm") with true.
    cbv iota. split; [|split].
    + intros [-> | ->]; reflexivity.
    + intros raw -> Hraw Hparse. destruct raw as [|c raw]; [contradiction|].
      unfold auditNode_parse. rewrite Hparse. reflexivity.
    + intros raw data listed -> Hraw Hparse Hlisted Hempty Hsummary.
      destruct raw as [|c raw]; [contradiction|].
      unfold auditNode_parse. rewrite Hparse. cbn [mbind option_bind].
      rewrite Hlisted. cbn [mbind option_bind]. rewrite Hempty.
      cbn [mbind option_bind].
      assert (Hmeta : node_meta data = VObject [])
        by (unfold node_meta, or_else; now rewrite Hsummary).
      rewrite Hmeta. reflexivity.
  - intros Htool.
    assert (Hmissing : negb (cmdExists rt "cargo-audit") && negb (cmdExists rt "cargo") = false).
    { destruct Htool as [-> | ->]; [reflexivity|]. apply andb_false_r. }
    unfold auditRust. rewrite Hmissing. split.
    + intros [-> | ->]; reflexivity.
    + intros raw -> Hraw Hparse. destruct raw as [|c raw]; [contradiction|].
      unfold auditRust_parse. rewrite Hparse. reflexivity.
  - intros Htool.
    assert (Hmissing : negb (cmdExists rt "pip-audit") && negb (cmdExists rt "pip3") = false).
    { destruct Htool as [-> | ->]; [reflexivity|]. apply andb_false_r. }
    assert (Hcmd : (if String.eqb (if cmdExists rt "pip-audit" then "pip-audit" else "pip3")
                                  "pip-audit"
                    then "pip-audit --format=json -r requirements.txt"
                    else "pip3 audit --format=json") = python_auditCmd rt).
    { unfold python_auditCmd. destruct (cmdExists rt "pip-audit"); reflexivity. }
    unfold auditPython. rewrite Hmissing. cbv zeta. rewrite Hcmd. split.
    + intros [-> | ->]; reflexivity.
    + intros raw -> Hraw Hparse. destruct raw as [|c raw]; [contradiction|].
      unfold auditPython_parse. rewrite Hparse. reflexivity.
  - intros Htool. unfold auditPhp. rewrite Htool. cbn [negb]. split.
    + intros [-> | ->]; reflexivity.
    + intros raw -> Hraw Hparse. destruct raw as [|c raw]; [contradiction|].
      unfold auditPhp_parse. rewrite Hparse. reflexivity.
  - intros Htool. unfold auditGo. rewrite Htool. cbn [negb]. split.
    + intros [-> | ->]; reflexivity.
    + intros raw -> Hraw Hlines. destruct raw as [|c raw]; [contradiction|].
      rewrite (go_lines_unparsed rt _ Hlines). reflexivity.
Qed.

Lemma adapters_without_manifest_witness :
  auditNode rt_no_manifest "/srv/app" "app"
  = emptyResult "app" "node" "npm audit --json" None /\
  auditRust rt_no_manifest "/srv/app" "app"
  = emptyResult "app" "rust" "cargo audit --json" (Some "Failed to parse audit output.") /\
  auditGo rt_no_manifest "/srv/app" "app"
  = emptyResult "app" "go" "govulncheck -json ./..." None /\
  auditPhp rt_silent "/srv/app" "app"
  = emptyResult "app" "php" "composer audit --format=json" None.
Proof.
  destruct (adapters_without_manifest rt_no_manifest "/srv/app" "app"
              ltac:(vm_compute; reflexivity))
    as ((_ & _ & Hnode) & Hrust & _ & _ & Hgo).
  destruct (adapters_without_manifest rt_silent "/srv/app" "app"
              ltac:(vm_compute; reflexivity))
    as (_ & _ & _ & Hphp & _).
  split; [|split; [|split]].
  - apply (Hnode "<npm error report>" npm_error_report VUndefined).
    + vm_compute. reflexivity.
    + discriminate.
    + vm_compute. reflexivity.
    + vm_compute. reflexivity.
    + vm_compute. reflexivity.
    + vm_compute. reflexivity.
  - apply (proj2 (Hrust ltac:(left; vm_compute; reflexivity))
             "error: not found: Couldn't load Cargo.lock").
    + vm_compute. reflexivity.
    + discriminate.
    + vm_compute. reflexivity.
  - apply (proj2 (Hgo ltac:(vm_compute; reflexivity)) "no manifest found").
    + vm_compute. reflexivity.
    + discriminate.
    + intros line Hline. vm_compute in Hline.
      destruct Hline as [<-|[]]. vm_compute. reflexivity.
  - apply (proj1 (Hphp ltac:(vm_compute; reflexivity))).
    right. vm_compute. reflexivity.
Defined.

(** *** The rust severity mapping *)

(** C8 holds of every score but zero: a numeric score of [0] is below 4, so
    the claim sends it to "low", but [!cvss] takes it for a missing score and
    the code answers "moderate". *)
Theorem mapRustSeverity_zero_score (rt : Runtime) :
  mapRustSeverity rt (VNumber (Fin 0)) = "moderate".
Proof. reflexivity. Qed.

(** The same score written as a string takes the other path and gets the
    answer the claim gives. *)
Lemma mapRustSeverity_zero_string (rt : Runtime) :
  parseFloat rt "0" = Fin 0 -> mapRustSeverity rt (VString "0") = "low".
Proof. intros Hparse. unfold mapRustSeverity. simpl. now rewrite Hparse. Qed.

(** Away from zero the thresholds are those of the specification, and a
    missing score gives "moderate". *)
Lemma mapRustSeverity_thresholds (rt : Runtime) (q : Q) :
  (~ q == 0 ->
   (9 <= q -> mapRustSeverity rt (VNumber (Fin q)) = "critical") /\
   (7 <= q -> q < 9 -> mapRustSeverity rt (VNumber (Fin q)) = "high") /\
   (4 <= q -> q < 7 -> mapRustSeverity rt (VNumber (Fin q)) = "moderate") /\
   (q < 4 -> mapRustSeverity rt (VNumber (Fin q)) = "low"))%Q.
Proof.
  intros Hnz. unfold mapRustSeverity, truthy, number_ge.
  assert (Hq : Qeq_bool q 0 = false).
  { destruct (Qeq_bool q 0) eqn:E; [|reflexivity].
    apply Qeq_bool_iff in E. contradiction. }
  rewrite Hq. cbn [negb].
  assert (Hle : forall c, (c <= q)%Q -> Qle_bool c q = true).
  { intros c Hc. now apply Qle_bool_iff. }
  assert (Hnle : forall c, (q < c)%Q -> Qle_bool c q = false).
  { intros c Hlt. destruct (Qle_bool c q) eqn:E; [|reflexivity].
    apply Qle_bool_iff in E. exfalso. exact (Qlt_not_le _ _ Hlt E). }
  assert (H47 : (4 < 7)%Q) by reflexivity.
  assert (H79 : (7 < 9)%Q) by reflexivity.
  repeat split.
  - intros H9. now rewrite (Hle _ H9).
  - intros H7 H9. now rewrite (Hnle _ H9), (Hle _ H7).
  - intros H4 H7.
    now rewrite (Hnle _ (Qlt_trans _ _ _ H7 H79)), (Hnle _ H7), (Hle _ H4).
  - intros H4. pose proof (Qlt_trans _ _ _ H4 H47) as H7.
    now rewrite (Hnle _ (Qlt_trans _ _ _ H7 H79)), (Hnle _ H7), (Hnle _ H4).
Qed.

Lemma mapRustSeverity_missing (rt : Runtime) :
  mapRustSeverity rt VUndefined = "moderate" /\ mapRustSeverity rt VNull = "moderate".
Proof. split; reflexivity. Qed.

(** *** Severity counts *)

(** Takes a successful sequence of binds apart. *)
Ltac open_binds H :=
  repeat (let x := fresh "x" in
          let Hx := fresh "Hx" in
          apply bind_Some in H as (x & Hx & H)).

Lemma counts_match_emptyResult project language auditCommand error :
  counts_match (emptyResult project language auditCommand error).
Proof. intros []; reflexivity. Qed.

Lemma filter_all_high s vulns :
  Forall (fun v => severity v = VString "high") vulns ->
  List.filter (has_severity s) vulns = if String.eqb "high" s then vulns else [].
Proof.
  intros Hall. destruct (String.eqb "high" s) eqn:Hs;
    induction Hall as [|v vulns Hv _ IH]; cbn [List.filter]; try reflexivity;
    unfold has_severity at 1; rewrite Hv, Hs, IH; reflexivity.
Qed.

(** A result whose entries are all of severity "high" and whose fields are
    those the php and go adapters write satisfies the invariant. *)
Lemma counts_match_all_high project language vulns auditCommand error :
  Forall (fun v => severity v = VString "high") vulns ->
  counts_match
    {| project := project; language := language; vulnerabilities := vulns;
       totalVulnerabilities := count vulns;
       critical := zero; high := count vulns; moderate := zero; low := zero;
       auditCommand := auditCommand; error := error |}.
Proof.
  intros Hall l. unfold count_severity. cbn [vulnerabilities].
  rewrite (filter_all_high _ _ Hall). destruct l; reflexivity.
Qed.

Lemma mapM_Forall {A B} (f : A -> option B) (P : B -> Prop) l ys :
  (forall x y, f x = Some y -> P y) ->
  mapM f l = Some ys -> Forall P ys.
Proof.
  intros Hf Hmap. apply mapM_Some_1 in Hmap.
  induction Hmap as [|x y l ys Hxy _ IH]; constructor; eauto.
Qed.

Lemma flatMapM_Forall {A B} (f : A -> option (list B)) (P : B -> Prop) l zs :
  (forall x ys, f x = Some ys -> Forall P ys) ->
  flatMapM f l = Some zs -> Forall P zs.
Proof.
  intros Hf Hflat. unfold flatMapM in Hflat. open_binds Hflat.
  injection Hflat as <-.
  pose proof (mapM_Forall f (Forall P) l _ Hf Hx) as Hall.
  clear Hx. induction Hall as [|ys yss Hys _ IH]; simpl; [constructor|].
  apply Forall_app. split; assumption.
Qed.

Section Counts.

Variable rt : Runtime.

Lemma auditNode_parse_Some projectName auditCmd raw r :
  auditNode_parse rt projectName auditCmd raw = Some r ->
  exists data vulns,
    JSON_parse rt raw = Some data /\
    r = {| project := projectName;
           language := "node";
           vulnerabilities := vulns;
           totalVulnerabilities := or_else (opt_get (node_meta data) "total") (count vulns);
           critical := or_else (opt_get (node_meta data) "critical") (count_severity "critical" vulns);
           high := or_else (opt_get (node_meta data) "high") (count_severity "high" vulns);
           moderate := or_else (opt_get (node_meta data) "moderate") (count_severity "moderate" vulns);
           low := or_else (opt_get (node_meta data) "low") (count_severity "low" vulns);
           auditCommand := auditCmd;
           error := None |}.
Proof.
  intros H. unfold auditNode_parse in H. open_binds H.
  injection H as <-. eauto.
Qed.

Lemma auditRust_parse_Some projectName raw r :
  auditRust_parse rt projectName raw = Some r -> counts_match r /\ error r = None
    /\ totalVulnerabilities r = count (vulnerabilities r).
Proof.
  intros H. unfold auditRust_parse in H. open_binds H.
  injection H as <-. split; [intros []; reflexivity|split; reflexivity].
Qed.

Lemma auditPython_parse_Some projectName auditCmd raw r :
  auditPython_parse rt projectName auditCmd raw = Some r -> counts_match r /\ error r = None
    /\ totalVulnerabilities r = count (vulnerabilities r).
Proof.
  intros H. unfold auditPython_parse in H. open_binds H.
  injection H as <-. split; [intros []; reflexivity|split; reflexivity].
Qed.

Lemma php_vulnerability_high pkg adv v :
  php_vulnerability pkg adv = Some v -> severity v = VString "high".
Proof.
  intros H. unfold php_vulnerability in H. open_binds H.
  injection H as <-. reflexivity.
Qed.

Lemma auditPhp_parse_Some projectName raw r :
  auditPhp_parse rt projectName raw = Some r -> counts_match r /\ error r = None
    /\ totalVulnerabilities r = count (vulnerabilities r).
Proof.
  intros H. unfold auditPhp_parse in H. open_binds H.
  injection H as <-. split; [|split; reflexivity].
  apply counts_match_all_high.
  eapply flatMapM_Forall; [|eassumption].
  intros [pkg advisories] ys Hys. unfold php_entry in Hys.
  eapply mapM_Forall; [|exact Hys].
  intros adv v. apply php_vulnerability_high.
Qed.

Lemma go_line_high line :
  Forall (fun v => severity v = VString "high") (go_line rt line).
Proof.
  unfold go_line.
  destruct (JSON_parse rt line) as [entry|]; simpl; [|constructor].
  destruct (get entry "vulnerability") as [v|]; simpl; [|constructor].
  destruct (truthy v); simpl; [|constructor].
  constructor; [reflexivity|constructor].
Qed.

Lemma go_lines_high lines :
  Forall (fun v => severity v = VString "high") (concat (map (go_line rt) lines)).
Proof.
  induction lines as [|line lines IH]; simpl; [constructor|].
  apply Forall_app. split; [apply go_line_high|exact IH].
Qed.

Lemma plain_emptyResult project language auditCommand error :
  error <> Some "" -> plain (emptyResult project language auditCommand error).
Proof.
  intros He. split; [apply counts_match_emptyResult|]. split; [exact He|reflexivity].
Qed.

Lemma plain_parsed r :
  counts_match r /\ error r = None /\ totalVulnerabilities r = count (vulnerabilities r) ->
  plain r.
Proof.
  intros (Hc & He & Ht). split; [exact Hc|]. split; [|exact Ht].
  rewrite He. discriminate.
Qed.

Create HintDb adapters.
Local Hint Resolve plain_emptyResult plain_parsed : adapters.
Local Hint Extern 1 (_ <> Some EmptyString) => discriminate : adapters.

Lemma auditRust_plain projectPath projectName :
  plain (auditRust rt projectPath projectName).
Proof.
  unfold auditRust.
  destruct (negb (cmdExists rt "cargo-audit") && negb (cmdExists rt "cargo"));
    [auto with adapters|].
  destruct (cmd rt "cargo audit --json" projectPath 60000) as [[|c raw]|];
    [auto with adapters| |auto with adapters].
  destruct (auditRust_parse rt projectName (String c raw)) as [r|] eqn:Hparse;
    [|auto with adapters].
  apply plain_parsed. eapply auditRust_parse_Some. exact Hparse.
Qed.

Lemma auditPython_plain projectPath projectName :
  plain (auditPython rt projectPath projectName).
Proof.
  unfold auditPython.
  destruct (negb (cmdExists rt "pip-audit") && negb (cmdExists rt "pip3"));
    [auto with adapters|].
  set (auditCmd := if String.eqb _ _ then _ else _).
  destruct (cmd rt auditCmd projectPath 60000) as [[|c raw]|];
    [auto with adapters| |auto with adapters].
  destruct (auditPython_parse rt projectName auditCmd (String c raw)) as [r|] eqn:Hparse;
    [|auto with adapters].
  apply plain_parsed. eapply auditPython_parse_Some. exact Hparse.
Qed.

Lemma auditPhp_plain projectPath projectName :
  plain (auditPhp rt projectPath projectName).
Proof.
  unfold auditPhp.
  destruct (negb (cmdExists rt "composer")); [auto with adapters|].
  destruct (cmd rt "composer audit --format=json" projectPath 60000) as [[|c raw]|];
    [auto with adapters| |auto with adapters].
  destruct (auditPhp_parse rt projectName (String c raw)) as [r|] eqn:Hparse;
    [|auto with adapters].
  apply plain_parsed. eapply auditPhp_parse_Some. exact Hparse.
Qed.

Lemma auditGo_plain projectPath projectName :
  plain (auditGo rt projectPath projectName).
Proof.
  unfold auditGo.
  destruct (negb (cmdExists rt "govulncheck")); [auto with adapters|].
  destruct (cmd rt "govulncheck -json ./..." projectPath 60000) as [[|c raw]|];
    [auto with adapters| |auto with adapters].
  apply plain_parsed. split; [|split; reflexivity].
  apply counts_match_all_high, go_lines_high.
Qed.

(** The node adapter: a plain result, or the parsed report with the counts
    that prefer the upstream summary. *)
Lemma auditNode_cases projectPath projectName :
  let auditCmd := node_auditCmd (detect_pm rt projectPath) in
  plain (auditNode rt projectPath projectName) \/
  exists raw data vulns,
    cmd rt auditCmd projectPath 60000 = Some raw /\
    JSON_parse rt raw = Some data /\
    auditNode rt projectPath projectName =
      {| project := projectName;
         language := "node";
         vulnerabilities := vulns;
         totalVulnerabilities := or_else (opt_get (node_meta data) "total") (count vulns);
         critical := or_else (opt_get (node_meta data) "critical") (count_severity "critical" vulns);
         high := or_else (opt_get (node_meta data) "high") (count_severity "high" vulns);
         moderate := or_else (opt_get (node_meta data) "moderate") (count_severity "moderate" vulns);
         low := or_else (opt_get (node_meta data) "low") (count_severity "low" vulns);
         auditCommand := auditCmd;
         error := None |}.
Proof.
  intros auditCmd. unfold auditNode. fold auditCmd.
  destruct (cmd rt auditCmd projectPath 60000) as [[|c raw]|] eqn:Hcmd;
    [left; auto with adapters| |left; auto with adapters].
  destruct (String.eqb (detect_pm rt projectPath) "npm"
            || String.eqb (detect_pm rt projectPath) "pnpm");
    [|left; auto with adapters].
  destruct (auditNode_parse rt projectName auditCmd (String c raw)) as [r|] eqn:Hparse;
    [|left; auto with adapters].
  right. apply auditNode_parse_Some in Hparse as (data & vulns & Hdata & ->).
  exists (String c raw), data, vulns. auto.
Qed.

Lemma auditProject_cases projectPath projectName language :
  plain (auditProject rt projectPath projectName language) \/
  (language = "node" /\
   auditProject rt projectPath projectName language
   = auditNode rt projectPath projectName).
Proof.
  unfold auditProject.
  destruct (String.eqb_spec language "node") as [->|_]; [right; auto|].
  left.
  destruct (String.eqb language "rust"); [apply auditRust_plain|].
  destruct (String.eqb language "python"); [apply auditPython_plain|].
  destruct (String.eqb language "php"); [apply auditPhp_plain|].
  destruct (String.eqb language "go"); [apply auditGo_plain|].
  apply plain_emptyResult. discriminate.
Qed.

Lemma auditProject_error_message projectPath projectName language :
  error (auditProject rt projectPath projectName language) <> Some "".
Proof.
  destruct (auditProject_cases projectPath projectName language)
    as [(_ & He & _)|(_ & ->)]; [exact He|].
  destruct (auditNode_cases projectPath projectName)
    as [(_ & He & _)|(raw & data & vulns & _ & _ & ->)]; [exact He|discriminate].
Qed.

End Counts.

(** C1, as stated, fails for the node adapter: upstream prints a summary of
    two critical findings next to a list that holds none, and the result
    carries the summary. *)
Lemma auditNode_counts_from_summary :
  critical (auditProject (rt_reporting []) "/srv/app" "app" "node")
    = VNumber (of_nat 2) /\
  count_severity "critical"
    (vulnerabilities (auditProject (rt_reporting []) "/srv/app" "app" "node"))
    = VNumber (of_nat 0) /\
  ~ counts_match (auditProject (rt_reporting []) "/srv/app" "app" "node").
Proof.
  assert (Hcrit : critical (auditProject (rt_reporting []) "/srv/app" "app" "node")
                  = VNumber (of_nat 2)) by (vm_compute; reflexivity).
  assert (Hlist : count_severity "critical"
                    (vulnerabilities (auditProject (rt_reporting []) "/srv/app" "app" "node"))
                  = VNumber (of_nat 0)) by (vm_compute; reflexivity).
  split; [exact Hcrit|]. split; [exact Hlist|].
  intros Hmatch. specialize (Hmatch Critical). cbn [level_count level_name] in Hmatch.
  rewrite Hcrit, Hlist in Hmatch. discriminate.
Qed.

(** The summary that the node adapter reads is the one upstream prints. *)
Lemma node_meta_summary data k :
  String.eqb k "length" = false -> String.eqb k "link" = false ->
  opt_get (node_meta data) k = upstream_summary data k.
Proof.
  intros Hlength Hlink. unfold node_meta, upstream_summary, or_else.
  destruct (opt_get (opt_get data "metadata") "vulnerabilities")
    as [| |b|[| | |q]|s|items|props|name]; try reflexivity.
  - destruct b; reflexivity.
  - cbn [truthy]. destruct (Qeq_bool q 0); reflexivity.
  - cbn [truthy]. destruct (String.eqb s ""); cbn [negb]; [|reflexivity].
    unfold opt_get, get. now rewrite Hlength, Hlink.
Qed.

(** Under [yarn] and [bun] the node adapter returns an [emptyResult]. *)
Lemma auditNode_unparsed rt projectPath projectName :
  detect_pm rt projectPath = "yarn" \/ detect_pm rt projectPath = "bun" ->
  exists error,
    auditNode rt projectPath projectName
    = emptyResult projectName "node" (node_auditCmd (detect_pm rt projectPath)) error.
Proof.
  intros Hpm. unfold auditNode.
  destruct (cmd rt (node_auditCmd (detect_pm rt projectPath)) projectPath 60000)
    as [[|c raw]|]; [eauto|destruct Hpm as [-> | ->]; eauto|eauto].
Qed.

(** Under [npm] and [pnpm] a result without an error is the parsed report. *)
Lemma auditNode_parsed rt projectPath projectName raw data :
  detect_pm rt projectPath = "npm" \/ detect_pm rt projectPath = "pnpm" ->
  cmd rt (node_auditCmd (detect_pm rt projectPath)) projectPath 60000 = Some raw ->
  JSON_parse rt raw = Some data ->
  error (auditNode rt projectPath projectName) = None ->
  exists vulns,
    auditNode rt projectPath projectName =
      {| project := projectName;
         language := "node";
         vulnerabilities := vulns;
         totalVulnerabilities := or_else (upstream_summary data "total") (count vulns);
         critical := or_else (upstream_summary data "critical")
                       (count_severity "critical" vulns);
         high := or_else (upstream_summary data "high") (count_severity "high" vulns);
         moderate := or_else (upstream_summary data "moderate")
                       (count_severity "moderate" vulns);
         low := or_else (upstream_summary data "low") (count_severity "low" vulns);
         auditCommand := node_auditCmd (detect_pm rt projectPath);
         error := None |}.
Proof.
  intros Hpm Hcmd Hdata. unfold auditNode. rewrite Hcmd.
  destruct raw as [|c raw]; [discriminate|].
  assert (Hparsing : String.eqb (detect_pm rt projectPath) "npm"
                     || String.eqb (detect_pm rt projectPath) "pnpm" = true)
    by (destruct Hpm as [-> | ->]; reflexivity).
  rewrite Hparsing.
  destruct (auditNode_parse rt projectName _ (String c raw)) as [r|] eqn:Hparse;
    [|discriminate].
  intros _. apply auditNode_parse_Some in Hparse as (data' & vulns & Hdata' & ->).
  rewrite Hdata in Hdata'. injection Hdata' as <-.
  exists vulns. now rewrite !node_meta_summary.
Qed.

Lemma auditProject_node rt projectPath projectName :
  auditProject rt projectPath projectName "node" = auditNode rt projectPath projectName.
Proof. reflexivity. Qed.

(** C1, amended: in every result of the rust, python, php and go adapters
    (and of the path for an unsupported ecosystem) each of the four severity
    counts is the number of entries of that severity in the list of the same
    result.  So it is in a result of the node adapter that has an error or
    that was obtained under [yarn] or [bun].  In a report that the node
    adapter has parsed (under [npm] or [pnpm], without error) a count is
    the value that the upstream summary [metadata.vulnerabilities] holds for
    the severity when that value is truthy, and the number of entries of the
    list otherwise. *)
Theorem severity_counts_list_or_summary
    (rt : Runtime) (projectPath projectName language : string) :
  let r := auditProject rt projectPath projectName language in
  let pm := detect_pm rt projectPath in
  (language <> "node" -> counts_match r) /\
  (language = "node" ->
   (error r <> None \/ pm = "yarn" \/ pm = "bun" -> counts_match r) /\
   (forall raw data,
      pm = "npm" \/ pm = "pnpm" ->
      cmd rt (node_auditCmd pm) projectPath 60000 = Some raw ->
      JSON_parse rt raw = Some data ->
      error r = None ->
      forall l,
        (truthy (upstream_summary data (level_name l)) = true ->
         level_count l r = upstream_summary data (level_name l)) /\
        (truthy (upstream_summary data (level_name l)) = false ->
         level_count l r = count_severity (level_name l) (vulnerabilities r)))).
Proof.
  intros r pm. subst r pm. split.
  - intros Hlang.
    destruct (auditProject_cases rt projectPath projectName language)
      as [(Hcounts & _)|(Hnode & _)]; [exact Hcounts|contradiction].
  - intros ->. rewrite auditProject_node. split.
    + intros [Herr|Hpm].
      * destruct (auditNode_cases rt projectPath projectName)
          as [(Hcounts & _)|(raw & data & vulns & _ & _ & Hres)]; [exact Hcounts|].
        rewrite Hres in Herr. contradiction.
      * destruct (auditNode_unparsed rt projectPath projectName Hpm) as (e & ->).
        apply counts_match_emptyResult.
    + intros raw data Hpm Hcmd Hdata Herr l.
      destruct (auditNode_parsed rt projectPath projectName raw data Hpm Hcmd Hdata Herr)
        as (vulns & ->).
      split; intros Hsummary;
        destruct l; cbn [level_count level_name critical high moderate low
                         vulnerabilities] in *;
        unfold or_else; rewrite Hsummary; reflexivity.
Qed.

Lemma severity_counts_list_or_summary_witness :
  critical (auditProject (rt_reporting []) "/srv/app" "app" "node") = VNumber (of_nat 2) /\
  counts_match (auditProject rt_two_projects "/srv/b" "b" "rust").
Proof.
  split.
  - destruct (severity_counts_list_or_summary (rt_reporting []) "/srv/app" "app" "node")
      as (_ & Hnode).
    destruct (proj2 (Hnode eq_refl) "<audit report>" lodash_report
                ltac:(left; vm_compute; reflexivity)
                ltac:(vm_compute; reflexivity)
                ltac:(vm_compute; reflexivity)
                ltac:(vm_compute; reflexivity) Critical) as (Hsummary & _).
    exact (Hsummary ltac:(vm_compute; reflexivity)).
  - apply (proj1 (severity_counts_list_or_summary rt_two_projects "/srv/b" "b" "rust")).
    discriminate.
Defined.

(** *** The aggregator *)

Lemma number_gt_positive n : number_gt n 0 = true <-> positive n.
Proof.
  destruct n as [| | |q]; cbn [number_gt positive];
    [split; [discriminate|tauto]|tauto|split; [discriminate|tauto]|].
  rewrite andb_true_iff, negb_true_iff, Qle_bool_iff. split.
  - intros [Hle Hne]. apply Qle_lteq in Hle as [Hlt|Heq]; [exact Hlt|].
    apply Qeq_bool_iff in Heq. congruence.
  - intros Hlt. split; [now apply Qlt_le_weak|].
    destruct (Qeq_bool 0 q) eqn:Heq; [|reflexivity].
    apply Qeq_bool_iff in Heq. exfalso. exact (Qlt_not_eq _ _ Hlt Heq).
Qed.

(** The filter keeps the results that count findings or have an error. *)
Lemma keeps_counted rt r :
  error r <> Some "" -> keeps rt r = bool_decide (counted rt r).
Proof.
  intros He. unfold keeps.
  destruct (bool_decide_reflect (counted rt r)) as [[Hpos|Herr]|Hnot].
  - apply number_gt_positive in Hpos. unfold gt_zero. now rewrite Hpos.
  - destruct (error r) as [e|]; [|contradiction].
    destruct (String.eqb_spec e "") as [->|_]; [contradiction|apply orb_true_r].
  - unfold counted in Hnot.
    destruct (gt_zero rt (totalVulnerabilities r)) eqn:Hgt.
    + exfalso. apply Hnot. left. now apply number_gt_positive.
    + destruct (error r) as [e|]; [exfalso; apply Hnot; right; discriminate|reflexivity].
Qed.

(** The length of a list is above zero when the list is not empty. *)
Lemma positive_count rt (vulns : list VulnerabilityInfo) :
  positive (to_number rt (count vulns)) <-> vulns <> [].
Proof.
  rewrite <- number_gt_positive.
  destruct vulns as [|v vulns]; [split; [discriminate|congruence]|].
  split; [discriminate|reflexivity].
Qed.

(** In a plain result the findings that count are the entries of the list. *)
Lemma counted_plain rt r : plain r -> (counted rt r <-> reportable r).
Proof.
  intros (_ & _ & Htotal). unfold counted, reportable.
  now rewrite Htotal, positive_count.
Qed.

Lemma emptyResult_not_counted rt project language auditCommand :
  ~ counted rt (emptyResult project language auditCommand None).
Proof.
  intros [Hpos|Herr]; [|now apply Herr].
  vm_compute in Hpos. discriminate.
Qed.

(** C7, as stated, fails for the node adapter, which takes the number of
    findings from the upstream summary.  A report that lists nothing next to
    a summary of three findings gives a clean result that is kept, and a
    report that lists a finding next to a total of -1 gives a result with a
    finding that is dropped. *)
Lemma auditAllProjects_total_not_list :
  let rt_summary := rt_printing "<audit report>" (fun _ => Some summary_only_report) in
  let rt_negative := rt_printing "<audit report>" (fun _ => Some negative_total_report) in
  (clean (auditProject rt_summary "/srv/a" "a" "node") /\
   auditAllProjects rt_summary [project_a] = [auditProject rt_summary "/srv/a" "a" "node"]) /\
  (reportable (auditProject rt_negative "/srv/a" "a" "node") /\
   error (auditProject rt_negative "/srv/a" "a" "node") = None /\
   auditAllProjects rt_negative [project_a] = []).
Proof.
  intros rt_summary rt_negative. subst rt_summary rt_negative. split; split.
  - split; vm_compute; reflexivity.
  - vm_compute. reflexivity.
  - left. vm_compute. discriminate.
  - split; vm_compute; reflexivity.
Qed.

(** C7, amended: [auditAllProjects] returns, in input order, exactly the
    per-project results whose [totalVulnerabilities] is above zero or whose
    error is not null.  For every ecosystem but node these are the results
    with at least one finding in the list or a non-null error, and a clean
    result is absent.  A node result with an error is kept; one obtained
    under [yarn] or [bun] without error is clean and absent; a parsed report
    is kept by the total of the upstream summary when that is truthy, and by
    its list otherwise. *)
Theorem auditAllProjects_kept_by_total (rt : Runtime) (projects : list Project.t) :
  let kept := auditAllProjects rt projects in
  kept = List.filter (fun r => bool_decide (counted rt r)) (results_of rt projects) /\
  (forall p, In p projects -> Project.language p <> "node" ->
     let r := auditProject rt (Project.path p) (Project.name p) (Project.language p) in
     totalVulnerabilities r = count (vulnerabilities r) /\
     (In r kept <-> reportable r) /\
     (clean r -> ~ In r kept)) /\
  (forall p, In p projects -> Project.language p = "node" ->
     let r := auditProject rt (Project.path p) (Project.name p) (Project.language p) in
     let pm := detect_pm rt (Project.path p) in
     (error r <> None -> In r kept) /\
     (error r = None -> pm = "yarn" \/ pm = "bun" -> clean r /\ ~ In r kept) /\
     (forall raw data,
        pm = "npm" \/ pm = "pnpm" ->
        cmd rt (node_auditCmd pm) (Project.path p) 60000 = Some raw ->
        JSON_parse rt raw = Some data ->
        error r = None ->
        (truthy (upstream_summary data "total") = true ->
         totalVulnerabilities r = upstream_summary data "total" /\
         (In r kept <-> positive (to_number rt (upstream_summary data "total")))) /\
        (truthy (upstream_summary data "total") = false ->
         totalVulnerabilities r = count (vulnerabilities r) /\
         (In r kept <-> vulnerabilities r <> [])))).
Proof.
  intros kept.
  assert (Heq : kept = List.filter (fun r => bool_decide (counted rt r))
                         (results_of rt projects)).
  { subst kept. unfold auditAllProjects. fold (results_of rt projects).
    apply List.filter_ext_in. intros r Hr. apply keeps_counted.
    unfold results_of in Hr. apply in_map_iff in Hr as (p & <- & _).
    apply auditProject_error_message. }
  assert (Hin : forall p, In p projects ->
            let r := auditProject rt (Project.path p) (Project.name p)
                       (Project.language p) in
            In r kept <-> counted rt r).
  { intros p Hp r. rewrite Heq, filter_In, bool_decide_eq_true.
    split; [tauto|]. intros Hc. split; [|exact Hc].
    unfold results_of. apply in_map_iff. eauto. }
  split; [exact Heq|]. split.
  - intros p Hp Hlang r. specialize (Hin p Hp). fold r in Hin.
    assert (Hplain : plain r).
    { destruct (auditProject_cases rt (Project.path p) (Project.name p)
                  (Project.language p)) as [Hplain|[Hnode _]];
        [exact Hplain|contradiction]. }
    pose proof (counted_plain rt r Hplain) as Hcounted.
    split; [apply Hplain|]. split; [now rewrite Hin|].
    intros [Hnone Herr]. rewrite Hin, Hcounted. intros [Hsome|Hsome]; contradiction.
  - intros p Hp Hlang r pm. specialize (Hin p Hp). fold r in Hin.
    assert (Hr : r = auditNode rt (Project.path p) (Project.name p)).
    { subst r. rewrite Hlang. apply auditProject_node. }
    split; [|split].
    + intros Herr. apply Hin. now right.
    + intros Herr Hpm. subst pm.
      destruct (auditNode_unparsed rt (Project.path p) (Project.name p) Hpm)
        as (e & Hres).
      rewrite <- Hr in Hres. rewrite Hin. rewrite Hres in Herr |- *.
      cbn [error emptyResult] in Herr. subst e.
      split; [split; reflexivity|apply emptyResult_not_counted].
    + intros raw data Hpm Hcmd Hdata Herr. subst pm. rewrite Hr in Herr.
      destruct (auditNode_parsed rt (Project.path p) (Project.name p) raw data
                  Hpm Hcmd Hdata Herr) as (vulns & Hres).
      rewrite <- Hr in Hres. rewrite Hin. rewrite Hres.
      unfold counted. cbn [totalVulnerabilities vulnerabilities error].
      unfold or_else.
      split; intros Hsummary; rewrite Hsummary; (split; [reflexivity|]).
      * split; [intros [Hpos|Hsome]; [exact Hpos|contradiction]|now left].
      * rewrite positive_count.
        split; [intros [Hpos|Hsome]; [exact Hpos|contradiction]|now left].
Qed.

Lemma auditAllProjects_kept_by_total_witness :
  ~ In (auditProject rt_two_projects "/srv/b" "b" "rust")
       (auditAllProjects rt_two_projects [project_a; project_b]) /\
  In (auditProject rt_two_projects "/srv/a" "a" "node")
     (auditAllProjects rt_two_projects [project_a; project_b]).
Proof.
  destruct (auditAllProjects_kept_by_total rt_two_projects [project_a; project_b])
    as (_ & Hother & Hnode).
  split.
  - apply (proj2 (proj2 (Hother project_b ltac:(right; left; reflexivity)
                           ltac:(discriminate)))).
    split; vm_compute; reflexivity.
  - destruct (proj2 (proj2 (Hnode project_a ltac:(left; reflexivity) eq_refl))
                "<npm report>" minimist_report
                ltac:(left; vm_compute; reflexivity)
                ltac:(vm_compute; reflexivity)
                ltac:(vm_compute; reflexivity)
                ltac:(vm_compute; reflexivity)) as (Htotal & _).
    apply (proj2 (Htotal ltac:(vm_compute; reflexivity))).
    vm_compute. reflexivity.
Defined.

(** The end-to-end case of the specification: of the projects "a" (node, one
    critical finding) and "b" (rust, none), only the result for "a" comes
    back, with a critical count of one. *)
Example auditAllProjects_two_projects :
  auditAllProjects rt_two_projects [project_a; project_b]
    = [auditProject rt_two_projects "/srv/a" "a" "node"] /\
  project (auditProject rt_two_projects "/srv/a" "a" "node") = "a" /\
  critical (auditProject rt_two_projects "/srv/a" "a" "node") = VNumber (of_nat 1).
Proof. repeat split; vm_compute; reflexivity. Qed.

(** *** The adapters on sample reports *)

Example auditPython_sample :
  let r := auditPython (rt_printing "<report>" (fun _ => Some pip_report)) "/srv/app" "app" in
  map severity (vulnerabilities r) = [VString "high"; VString "moderate"] /\
  map package (vulnerabilities r) = [VString "flask"; VString "flask"] /\
  map url (vulnerabilities r)
    = [VString "https://nvd.nist.gov/vuln/detail/CVE-2019-1010083"; VString ""] /\
  totalVulnerabilities r = count (vulnerabilities r) /\
  high r = VNumber (of_nat 1) /\ moderate r = VNumber (of_nat 1) /\
  error r = None.
Proof. repeat split; vm_compute; reflexivity. Qed.

(** The two shapes of the python report give the same result. *)
Example auditPython_shapes :
  auditPython (rt_printing "<report>"
                 (fun _ => Some (VObject [("dependencies", pip_report)])))
              "/srv/app" "app"
  = auditPython (rt_printing "<report>" (fun _ => Some pip_report)) "/srv/app" "app".
Proof. vm_compute. reflexivity. Qed.

Example auditPhp_sample :
  let r := auditPhp (rt_printing "<report>" (fun _ => Some composer_report)) "/srv/app" "app" in
  map severity (vulnerabilities r) = [VString "high"; VString "high"] /\
  map title (vulnerabilities r)
    = [VString "Cache poisoning"; VString "PKSA-n8zw-9q3c-1ghr"] /\
  high r = VNumber (of_nat 2) /\ critical r = VNumber (of_nat 0) /\
  error r = None.
Proof. repeat split; vm_compute; reflexivity. Qed.

(** A line that is not JSON is skipped and the scan goes on. *)
Example auditGo_sample :
  let r := auditGo (rt_printing govulncheck_output govulncheck_parse) "/srv/app" "app" in
  map package (vulnerabilities r) = [VString "golang.org/x/net"] /\
  map url (vulnerabilities r) = [VString "https://pkg.go.dev/vuln/GO-2023-1571"] /\
  high r = VNumber (of_nat 1) /\
  error r = None.
Proof. repeat split; vm_compute; reflexivity. Qed.

(** Output that is not JSON gives the parse-failure result. *)
Example auditRust_parse_failure :
  auditRust (rt_printing "error: not found: Couldn't load Cargo.lock" (fun _ => None))
            "/srv/app" "app"
  = emptyResult "app" "rust" "cargo audit --json" (Some "Failed to parse audit output.").
Proof. vm_compute. reflexivity. Qed.

(** An ecosystem without an adapter. *)
Example auditProject_unsupported :
  auditProject rt_silent "/srv/app" "app" "ruby"
  = emptyResult "app" "ruby" "N/A" (Some "No audit tool available for ruby.").
Proof. vm_compute. reflexivity. Qed.

End AuditFacts.

(** * Further properties *)

(** ** The order that [compareVersions] defines *)

Module OrderFacts.

Lemma loop_antisym pa pb steps : forall i,
  compareVersions_loop pb pa i steps = - compareVersions_loop pa pb i steps.
Proof.
  induction steps as [|steps IH]; intros i; simpl; [reflexivity|].
  rewrite (Z.eqb_sym (nth i pb 0)).
  destruct (nth i pa 0 =? nth i pb 0); simpl; [apply IH|lia].
Qed.

(** The loop only reads the components, a missing one as zero. *)
Lemma loop_ext pa pa' pb pb' steps : forall i,
  (forall j, nth j pa 0 = nth j pa' 0) ->
  (forall j, nth j pb 0 = nth j pb' 0) ->
  compareVersions_loop pa pb i steps = compareVersions_loop pa' pb' i steps.
Proof.
  induction steps as [|steps IH]; intros i Ha Hb; simpl; [reflexivity|].
  rewrite (Ha i), (Hb i).
  destruct (nth i pa' 0 =? nth i pb' 0); simpl; [now apply IH|reflexivity].
Qed.

(** A turn of the loop past the end of both arrays changes nothing. *)
Lemma loop_one_more pa pb steps : forall i,
  (length pa <= i + steps)%nat -> (length pb <= i + steps)%nat ->
  compareVersions_loop pa pb i (S steps) = compareVersions_loop pa pb i steps.
Proof.
  induction steps as [|steps IH]; intros i Ha Hb.
  - simpl. rewrite !nth_overflow by lia. reflexivity.
  - change (compareVersions_loop pa pb i (S (S steps)))
      with (if negb (nth i pa 0 =? nth i pb 0) then nth i pa 0 - nth i pb 0
            else compareVersions_loop pa pb (S i) (S steps)).
    rewrite (IH (S i)) by lia. reflexivity.
Qed.

Lemma loop_more pa pb extra : forall steps,
  (length pa <= steps)%nat -> (length pb <= steps)%nat ->
  compareVersions_loop pa pb 0 (steps + extra) = compareVersions_loop pa pb 0 steps.
Proof.
  induction extra as [|extra IH]; intros steps Ha Hb.
  - now rewrite Nat.add_0_r.
  - rewrite Nat.add_succ_r, loop_one_more by lia. now apply IH.
Qed.

(** [compareVersions] as the loop run for any number of turns that covers
    both arrays. *)
Lemma compareVersions_steps a b steps :
  (length (parseVersion a) <= steps)%nat ->
  (length (parseVersion b) <= steps)%nat ->
  compareVersions a b
  = compareVersions_loop (parseVersion a) (parseVersion b) 0 steps.
Proof.
  intros Ha Hb. unfold compareVersions.
  set (pa := parseVersion a) in *. set (pb := parseVersion b) in *.
  replace steps
    with (Nat.max (length pa) (length pb) + (steps - Nat.max (length pa) (length pb)))%nat
    by lia.
  rewrite loop_more by lia. reflexivity.
Qed.

Lemma loop_trans pa pb pc steps : forall i,
  compareVersions_loop pa pb i steps <= 0 ->
  compareVersions_loop pb pc i steps <= 0 ->
  compareVersions_loop pa pc i steps <= 0 /\
  (compareVersions_loop pa pb i steps < 0 \/ compareVersions_loop pb pc i steps < 0 ->
   compareVersions_loop pa pc i steps < 0).
Proof.
  induction steps as [|steps IH]; intros i; simpl; [lia|].
  destruct (Z.eqb_spec (nth i pa 0) (nth i pb 0)) as [Hab|Hab];
    destruct (Z.eqb_spec (nth i pb 0) (nth i pc 0)) as [Hbc|Hbc];
    destruct (Z.eqb_spec (nth i pa 0) (nth i pc 0)) as [Hac|Hac];
    simpl; try lia.
  apply IH.
Qed.

(** X1: swapping the arguments of [compareVersions] negates the result, so
    the two orders of comparison never disagree. *)
Theorem compareVersions_antisym (a b : string) :
  compareVersions b a = - compareVersions a b.
Proof.
  unfold compareVersions. rewrite Nat.max_comm. apply loop_antisym.
Qed.

(** X2: the sign of [compareVersions] is transitive: from [a <= b] and
    [b <= c] follows [a <= c], strictly when one of the two is strict. *)
Theorem compareVersions_trans (a b c : string) :
  compareVersions a b <= 0 ->
  compareVersions b c <= 0 ->
  compareVersions a c <= 0 /\
  (compareVersions a b < 0 \/ compareVersions b c < 0 -> compareVersions a c < 0).
Proof.
  set (steps := Nat.max (length (parseVersion a))
                  (Nat.max (length (parseVersion b)) (length (parseVersion c)))).
  rewrite (compareVersions_steps a b steps), (compareVersions_steps b c steps),
    (compareVersions_steps a c steps) by (unfold steps; lia).
  apply loop_trans.
Qed.

Lemma compareVersions_trans_witness :
  compareVersions "1.9" "1.10" < 0 /\
  compareVersions "1.10" "2" < 0 /\
  compareVersions "1.9" "2" < 0.
Proof.
  assert (H1 : compareVersions "1.9" "1.10" < 0) by (vm_compute; reflexivity).
  assert (H2 : compareVersions "1.10" "2" < 0) by (vm_compute; reflexivity).
  split; [exact H1|]. split; [exact H2|].
  apply (compareVersions_trans "1.9" "1.10" "2"); [lia|lia|left; exact H1].
Defined.

Lemma compareVersions_ext (a a' b : string) :
  (forall i, nth i (parseVersion a) 0 = nth i (parseVersion a') 0) ->
  compareVersions a b = compareVersions a' b /\
  compareVersions b a = compareVersions b a'.
Proof.
  intros Heq.
  set (steps := Nat.max (length (parseVersion a))
                  (Nat.max (length (parseVersion a')) (length (parseVersion b)))).
  rewrite (compareVersions_steps a b steps), (compareVersions_steps a' b steps),
    (compareVersions_steps b a steps), (compareVersions_steps b a' steps)
    by (unfold steps; lia).
  split; apply loop_ext; auto.
Qed.

(** X3: [compareVersions] only depends on the numeric components, a missing
    one counting as zero: two strings with the same components compare alike
    against every other version, on either side. *)
Theorem compareVersions_components (a a' b : string) :
  (forall i, nth i (parseVersion a) 0 = nth i (parseVersion a') 0) ->
  compareVersions a b = compareVersions a' b /\
  compareVersions b a = compareVersions b a'.
Proof. apply compareVersions_ext. Qed.

Lemma compareVersions_components_witness :
  compareVersions "5.1" "5.0.9" = compareVersions "v5.1.0.0" "5.0.9".
Proof.
  refine (proj1 (compareVersions_components "5.1" "v5.1.0.0" "5.0.9" _)).
  intros i. change (parseVersion "5.1") with [5; 1].
  change (parseVersion "v5.1.0.0") with [5; 1; 0; 0].
  do 4 (destruct i as [|i]; [reflexivity|]). destruct i; reflexivity.
Defined.

(** *** Prefixes and trailing zeros *)

Lemma drop_while_append p s t :
  Str.existsb (fun c => negb (p c)) s = false ->
  Str.drop_while p (s +:+ t) = Str.drop_while p t.
Proof.
  induction s as [|c s IH]; simpl; [reflexivity|].
  intros H. apply orb_false_iff in H as [Hc Hs].
  apply negb_false_iff in Hc. rewrite Hc. now apply IH.
Qed.

Lemma drop_while_append_stop p s t :
  Str.existsb (fun c => negb (p c)) s = true ->
  Str.drop_while p (s +:+ t) = Str.drop_while p s +:+ t.
Proof.
  induction s as [|c s IH]; simpl; [discriminate|].
  destruct (p c); simpl; [exact IH|reflexivity].
Qed.

Lemma split_char_cons sep s : exists piece pieces, Str.split_char sep s = piece :: pieces.
Proof.
  destruct s as [|c s]; simpl; [eauto|].
  destruct (Ascii.eqb c sep); [eauto|].
  destruct (Str.split_char sep s); eauto.
Qed.

Lemma split_char_append sep s t :
  Str.split_char sep (s +:+ String sep t)
  = Str.split_char sep s ++ Str.split_char sep t.
Proof.
  induction s as [|c s IH]; simpl.
  - now rewrite Ascii.eqb_refl.
  - destruct (Ascii.eqb c sep); [now rewrite IH|].
    rewrite IH. destruct (split_char_cons sep s) as (piece & pieces & ->).
    reflexivity.
Qed.

Lemma parseVersion_skips_prefix prefix v :
  Str.existsb Str.is_digit prefix = false ->
  parseVersion (prefix +:+ v) = parseVersion v.
Proof.
  intros Hprefix. unfold parseVersion. rewrite drop_while_append; [reflexivity|].
  rewrite <- Hprefix. clear Hprefix.
  induction prefix as [|c prefix IH]; simpl; [reflexivity|].
  now rewrite negb_involutive, IH.
Qed.

(** X4: characters before the first digit are ignored: a prefix without a
    digit, such as "v", "^" or "~", changes no comparison. *)
Theorem compareVersions_prefix (prefix a b : string) :
  Str.existsb Str.is_digit prefix = false ->
  compareVersions (prefix +:+ a) b = compareVersions a b /\
  compareVersions b (prefix +:+ a) = compareVersions b a.
Proof.
  intros Hprefix. unfold compareVersions.
  now rewrite (parseVersion_skips_prefix prefix a Hprefix).
Qed.

Lemma compareVersions_prefix_witness :
  compareVersions ("^" +:+ "4.17.1") "4.19.2" = compareVersions "4.17.1" "4.19.2".
Proof.
  refine (proj1 (compareVersions_prefix "^" "4.17.1" "4.19.2" _)).
  vm_compute. reflexivity.
Defined.

Lemma parseVersion_trailing_zero a i :
  nth i (parseVersion (a +:+ ".0")) 0 = nth i (parseVersion a) 0.
Proof.
  unfold parseVersion.
  destruct (Str.existsb (fun c => negb (negb (Str.is_digit c))) a) eqn:Hdigit.
  - rewrite drop_while_append_stop by exact Hdigit.
    rewrite split_char_append, map_app.
    change (map (fun n => default 0 (parseInt n)) (Str.split_char "." "0")) with [0].
    set (pa := map _ _).
    destruct (Nat.lt_ge_cases i (length pa)) as [Hlt|Hge].
    + now rewrite app_nth1.
    + rewrite app_nth2, (nth_overflow pa) by lia.
      destruct (i - length pa)%nat as [|[|k]]; reflexivity.
  - rewrite drop_while_append by exact Hdigit.
    assert (Hempty : Str.drop_while (fun c => negb (Str.is_digit c)) a = "").
    { clear -Hdigit. induction a as [|c a IH]; simpl in *; [reflexivity|].
      apply orb_false_iff in Hdigit as [Hc Ha].
      apply negb_false_iff in Hc. rewrite Hc. now apply IH. }
    rewrite Hempty. reflexivity.
Qed.

(** X5: a trailing ".0" changes no comparison: [compareVersions] gives the
    same result for [a] and for [a] followed by ".0", on either side. *)
Theorem compareVersions_trailing_zero (a b : string) :
  compareVersions (a +:+ ".0") b = compareVersions a b /\
  compareVersions b (a +:+ ".0") = compareVersions b a.
Proof.
  apply compareVersions_ext. intros i. apply parseVersion_trailing_zero.
Qed.

End OrderFacts.

(** ** Range expressions *)

Module RangeFacts.
Import RangeSpec.

Lemma line_terminator_is_space c :
  Str.is_line_terminator c = true -> Str.is_space c = true.
Proof.
  unfold Str.is_line_terminator, Str.is_space. intros H.
  apply orb_true_iff in H as [H|H]; apply N.eqb_eq in H; rewrite H; reflexivity.
Qed.

Lemma no_space_no_line_terminator s :
  Str.existsb Str.is_space s = false ->
  Str.existsb Str.is_line_terminator s = false.
Proof.
  induction s as [|c s IH]; simpl; [reflexivity|].
  intros H. apply orb_false_iff in H as [Hc Hs]. rewrite (IH Hs), orb_false_r.
  destruct (Str.is_line_terminator c) eqn:Hlt; [|reflexivity].
  apply line_terminator_is_space in Hlt. congruence.
Qed.

Lemma split_spaces_from_cons in_run s :
  exists piece pieces, Str.split_spaces_from in_run s = piece :: pieces.
Proof.
  destruct s as [|c s]; simpl; [eauto|].
  destruct (Str.is_space c).
  - destruct in_run; [|eauto].
    clear c. revert s. fix IH 1. intros [|c s]; simpl; [eauto|].
    destruct (Str.is_space c); [apply IH|].
    destruct (Str.split_spaces_from false s); eauto.
  - destruct (Str.split_spaces_from false s); eauto.
Qed.

(** A text without white space is a single piece. *)
Lemma split_spaces_from_single in_run s :
  Str.existsb Str.is_space s = false ->
  Str.split_spaces_from in_run s = [s].
Proof.
  revert in_run. induction s as [|c s IH]; intros in_run; simpl; [reflexivity|].
  intros H. apply orb_false_iff in H as [Hc Hs].
  rewrite Hc, (IH false Hs). reflexivity.
Qed.

Lemma take_while_operator op t :
  Str.existsb (fun c => negb (is_op_char c)) op = false ->
  target_ok t = true ->
  Str.take_while is_op_char (op +:+ t) = op /\
  Str.drop_while is_op_char (op +:+ t) = t.
Proof.
  intros Hop Ht. induction op as [|c op IH]; simpl in *.
  - destruct t as [|c t]; [discriminate|]. simpl in Ht.
    apply andb_true_iff in Ht as [Hc _]. apply negb_true_iff in Hc.
    simpl. rewrite Hc. auto.
  - apply orb_false_iff in Hop as [Hc Hop]. apply negb_false_iff in Hc.
    rewrite Hc. destruct (IH Hop) as [-> ->]. auto.
Qed.

Lemma match_constraint_splits op t :
  operator_text op = true -> target_ok t = true ->
  match_constraint (op +:+ t) = Some (op, t).
Proof.
  intros Hop Ht. unfold match_constraint.
  destruct op as [|c op]; [discriminate|].
  unfold operator_text in Hop. apply negb_true_iff in Hop.
  destruct (take_while_operator (String c op) t Hop Ht) as [-> ->].
  destruct t as [|d t]; [discriminate|].
  simpl in Ht. apply andb_true_iff in Ht as [_ Hspace].
  apply negb_true_iff in Hspace.
  change (Str.is_space d || Str.existsb Str.is_space t)
    with (Str.existsb Str.is_space (String d t)) in Hspace.
  now rewrite (no_space_no_line_terminator _ Hspace).
Qed.

Lemma operator_no_space op :
  operator_text op = true -> Str.existsb Str.is_space op = false.
Proof.
  destruct op as [|c0 op0]; [discriminate|].
  unfold operator_text. intros H. apply negb_true_iff in H.
  revert H. generalize (String c0 op0) as s. clear.
  induction s as [|c s IH]; simpl; [reflexivity|].
  intros H. apply orb_false_iff in H as [Hc Hs]. rewrite (IH Hs), orb_false_r.
  apply negb_false_iff in Hc. unfold is_op_char in Hc.
  repeat (apply orb_true_iff in Hc as [Hc|Hc]);
    apply Ascii.eqb_eq in Hc; subst c; reflexivity.
Qed.

Lemma existsb_append p s t :
  Str.existsb p (s +:+ t) = Str.existsb p s || Str.existsb p t.
Proof.
  induction s as [|c s IH]; simpl; [reflexivity|].
  now rewrite IH, orb_assoc.
Qed.

(** One well-formed constraint is the whole expression. *)
Lemma isInRange_single version op t :
  operator_text op = true -> target_ok t = true ->
  isInRange version (op +:+ t) = constraint_holds op (compareVersions version t).
Proof.
  intros Hop Ht. unfold isInRange, Str.split_spaces.
  rewrite split_spaces_from_single.
  - simpl. rewrite (match_constraint_splits op t Hop Ht).
    now destruct (constraint_holds op (compareVersions version t)).
  - rewrite existsb_append, (operator_no_space op Hop).
    destruct t as [|d t]; [discriminate|]. simpl in Ht.
    apply andb_true_iff in Ht as [_ Hspace]. apply negb_true_iff in Hspace.
    exact Hspace.
Qed.

(** X6: what each operator means.  For a target without white space that
    does not start with an operator character, the expression made of one
    constraint holds exactly when [compareVersions(version, target)] is
    [>= 0], [> 0], [<= 0], [< 0] or [= 0] as the operator says; [=] and [==]
    mean the same. *)
Theorem isInRange_operators (version t : string) :
  target_ok t = true ->
  (isInRange version (">=" +:+ t) = true <-> compareVersions version t >= 0) /\
  (isInRange version (">" +:+ t) = true <-> compareVersions version t > 0) /\
  (isInRange version ("<=" +:+ t) = true <-> compareVersions version t <= 0) /\
  (isInRange version ("<" +:+ t) = true <-> compareVersions version t < 0) /\
  (isInRange version ("=" +:+ t) = true <-> compareVersions version t = 0) /\
  (isInRange version ("==" +:+ t) = true <-> compareVersions version t = 0).
Proof.
  intros Ht.
  rewrite !isInRange_single by (exact Ht || reflexivity).
  generalize (compareVersions version t) as cmp. intros cmp.
  unfold constraint_holds. simpl.
  destruct (Z.ltb_spec cmp 0), (Z.leb_spec cmp 0), (Z.gtb_spec cmp 0),
    (Z.geb_spec cmp 0), (Z.eqb_spec cmp 0); simpl;
    repeat split; intros; try lia; try discriminate; reflexivity.
Qed.

Lemma isInRange_operators_witness :
  isInRange "4.17.1" ("<" +:+ "4.19.2") = true <-> compareVersions "4.17.1" "4.19.2" < 0.
Proof.
  refine (proj1 (proj2 (proj2 (proj2 (isInRange_operators "4.17.1" "4.19.2" _))))).
  vm_compute. reflexivity.
Defined.

(** X7: an operator that the [switch] does not know constrains nothing.
    The regular expression accepts any run of the characters [>], [<], [=]
    and [!] as the operator, so ["!=1.0"], ["=>1.0"] or ["<>1.0"] parse, and
    the expression holds of every version. *)
Theorem isInRange_unrecognised_operator (version op t : string) :
  operator_text op = true ->
  recognised op = false ->
  target_ok t = true ->
  isInRange version (op +:+ t) = true.
Proof.
  intros Hop Hrec Ht. rewrite (isInRange_single version op t Hop Ht).
  unfold recognised in Hrec. unfold constraint_holds.
  repeat (apply orb_false_iff in Hrec as [Hrec ?]).
  repeat match goal with H : String.eqb _ _ = false |- _ => rewrite H; clear H end.
  reflexivity.
Qed.

Lemma isInRange_unrecognised_operator_witness :
  isInRange "1.0.0" ("!=" +:+ "1.0.0") = true.
Proof.
  apply (isInRange_unrecognised_operator "1.0.0" "!=" "1.0.0");
    vm_compute; reflexivity.
Defined.

(** *** Joining two expressions *)

Lemma nonempty_parts_flag s :
  nonempty_parts (Str.split_spaces_from true s)
  = nonempty_parts (Str.split_spaces_from false s).
Proof.
  destruct s as [|c s]; simpl; [reflexivity|].
  destruct (Str.is_space c); reflexivity.
Qed.

(** The pieces of [r1] followed by a space and [r2]: the first piece is
    that of [r1], and the pieces that are not empty are those of [r1]
    followed by those of [r2]. *)
Lemma split_spaces_join r2 r1 :
  (exists piece pieces pieces1,
     Str.split_spaces_from false (r1 +:+ " " +:+ r2) = piece :: pieces /\
     Str.split_spaces_from false r1 = piece :: pieces1 /\
     nonempty_parts pieces
     = nonempty_parts pieces1 ++ nonempty_parts (Str.split_spaces r2)) /\
  nonempty_parts (Str.split_spaces_from true (r1 +:+ " " +:+ r2))
  = nonempty_parts (Str.split_spaces_from true r1)
    ++ nonempty_parts (Str.split_spaces r2).
Proof.
  induction r1 as [|c r1 [(piece & pieces & pieces1 & Hjoin & Hr1 & Hparts) Htrue]].
  - split.
    + exists "", (Str.split_spaces_from true r2), [].
      split; [reflexivity|]. split; [reflexivity|]. apply nonempty_parts_flag.
    + change (nonempty_parts (Str.split_spaces_from true r2)
              = nonempty_parts (Str.split_spaces r2)).
      apply nonempty_parts_flag.
  - change (String c r1 +:+ " " +:+ r2) with (String c (r1 +:+ " " +:+ r2)).
    cbn [Str.split_spaces_from]. destruct (Str.is_space c).
    + split; [|exact Htrue]. eauto 10.
    + rewrite Hjoin, Hr1. split.
      * exists (String c piece), pieces, pieces1. auto.
      * unfold nonempty_parts in *. cbn [List.filter String.eqb negb].
        now rewrite Hparts.
Qed.

Lemma forallb_nonempty_parts version parts :
  forallb (part_allows version) parts
  = forallb (part_allows version) (nonempty_parts parts).
Proof.
  induction parts as [|part parts IH]; [reflexivity|].
  unfold nonempty_parts in *. cbn [List.filter forallb].
  destruct part as [|c part]; cbn [String.eqb negb forallb]; [exact IH|].
  now rewrite IH.
Qed.

(** X8: joining two range expressions with a space gives their conjunction:
    a version is in the joined range exactly when it is in both. *)
Theorem isInRange_join (version r1 r2 : string) :
  isInRange version (r1 +:+ " " +:+ r2)
  = isInRange version r1 && isInRange version r2.
Proof.
  unfold isInRange. rewrite !isInRange_loop_forallb.
  destruct (split_spaces_join r2 r1)
    as [(piece & pieces & pieces1 & Hjoin & Hr1 & Hparts) _].
  unfold Str.split_spaces at 1 2. rewrite Hjoin, Hr1. cbn [forallb].
  rewrite (forallb_nonempty_parts version pieces), Hparts, forallb_app.
  rewrite <- !forallb_nonempty_parts. now rewrite andb_assoc.
Qed.

End RangeFacts.

(** ** The catalog *)

Module CatalogFacts.
Import Cve CveSpec RangeSpec.

(** An upper bound among the tokens excludes every version at or above it. *)
Lemma isInRange_upper_bound version range t :
  existsb (String.eqb ("<" +:+ t)) (Str.split_spaces range) = true ->
  target_ok t = true ->
  compareVersions version t >= 0 ->
  isInRange version range = false.
Proof.
  intros Hin Ht Hcmp. unfold isInRange. rewrite isInRange_loop_forallb.
  apply existsb_exists in Hin as (part & Hpart & Heq).
  apply String.eqb_eq in Heq. subst part.
  destruct (forallb (part_allows version) (Str.split_spaces range)) eqn:Hall;
    [|reflexivity].
  rewrite forallb_forall in Hall. specialize (Hall _ Hpart).
  unfold part_allows in Hall.
  rewrite (RangeFacts.match_constraint_splits "<" t eq_refl Ht) in Hall.
  unfold constraint_holds in Hall. simpl in Hall.
  destruct (Z.geb_spec (compareVersions version t) 0); [discriminate|lia].
Qed.

(** Every range of the catalog ends below the patched version. *)
Lemma catalog_upper_bounds :
  forallb (fun adv =>
             existsb (String.eqb ("<" +:+ patchedVersion adv))
                     (Str.split_spaces (affectedVersions adv))
             && target_ok (patchedVersion adv))
          CVE_DATABASE = true.
Proof. vm_compute. reflexivity. Qed.

Lemma match_of_advisory installed adv m :
  match_of installed adv = Some m ->
  advisory m = adv /\ isAffected m = true /\
  installed !! package adv = Some (installedVersion m) /\
  installedVersion m <> "" /\
  isInRange (installedVersion m) (affectedVersions adv) = true.
Proof.
  unfold match_of. intros H.
  destruct (installed !! package adv) as [version|]; [|discriminate].
  destruct (String.eqb_spec version ""); [discriminate|].
  destruct (isInRange version (affectedVersions adv)) eqn:Hrange; [|discriminate].
  injection H as <-. auto.
Qed.

Lemma affected_omap (getInstalledVersions : string -> gmap string string)
    (projectPath projectName : string) :
  affected (checkProjectCves getInstalledVersions projectPath projectName)
  = omap (match_of (getInstalledVersions projectPath)) CVE_DATABASE.
Proof.
  exact (CveFacts.checkProjectCves_loop_omap
           (getInstalledVersions projectPath) CVE_DATABASE []).
Qed.

(** X9: an installed version at or above the patched version of an advisory
    is never reported for that advisory: the range of every advisory of the
    catalog excludes it, so [checkProjectCves] emits no match for it. *)
Theorem patched_version_not_reported
    (getInstalledVersions : string -> gmap string string)
    (projectPath projectName : string) (adv : CveAdvisory) (version : string) :
  In adv CVE_DATABASE ->
  compareVersions version (patchedVersion adv) >= 0 ->
  isInRange version (affectedVersions adv) = false /\
  (getInstalledVersions projectPath !! package adv = Some version ->
   forall m, In m (affected (checkProjectCves getInstalledVersions projectPath projectName)) ->
             advisory m <> adv).
Proof.
  intros Hadv Hcmp.
  assert (Hout : isInRange version (affectedVersions adv) = false).
  { pose proof catalog_upper_bounds as Hall. rewrite forallb_forall in Hall.
    specialize (Hall adv Hadv). apply andb_true_iff in Hall as [Hbound Htarget].
    now apply (isInRange_upper_bound version _ (patchedVersion adv)). }
  split; [exact Hout|].
  intros Hlook m Hm Heq.
  rewrite affected_omap in Hm.
  apply list_elem_of_In, list_elem_of_omap in Hm as (adv' & _ & Hmatch).
  apply match_of_advisory in Hmatch as (Hadv' & _ & Hlook' & _ & Hrange).
  rewrite Heq in Hadv'. subst adv'.
  rewrite Hlook in Hlook'. injection Hlook' as Hversion.
  rewrite <- Hversion in Hrange. congruence.
Qed.

Lemma patched_version_not_reported_witness :
  isInRange "4.19.2" (affectedVersions express_advisory) = false.
Proof.
  refine (proj1 (patched_version_not_reported (fun _ => ∅) "/srv/app" "app"
                   express_advisory "4.19.2" _ _)).
  - unfold CVE_DATABASE. do 8 right. left. reflexivity.
  - vm_compute. discriminate.
Defined.

Lemma omap_ext_in {A B} (f g : A -> option B) l :
  (forall x, In x l -> f x = g x) -> omap f l = omap g l.
Proof.
  induction l as [|x l IH]; intros Hfg; [reflexivity|].
  cbn [omap list_omap]. rewrite (Hfg x (or_introl eq_refl)), IH; [reflexivity|].
  intros y Hy. apply Hfg. now right.
Qed.

(** X10: the lookup only reads the versions of the catalog's packages: two
    projects whose installed versions agree on them get the same matches,
    whatever else they install. *)
Theorem checkProjectCves_frame
    (installed1 installed2 : string -> gmap string string)
    (path1 path2 name1 name2 : string) :
  (forall adv, In adv CVE_DATABASE ->
               installed1 path1 !! package adv = installed2 path2 !! package adv) ->
  affected (checkProjectCves installed1 path1 name1)
  = affected (checkProjectCves installed2 path2 name2).
Proof.
  intros Hagree.
  rewrite !affected_omap.
  apply omap_ext_in. intros adv Hadv. unfold match_of.
  now rewrite (Hagree adv Hadv).
Qed.

Lemma checkProjectCves_frame_witness :
  affected (checkProjectCves (fun _ => {[ "express" := "4.17.1" ]}) "/srv/a" "a")
  = affected (checkProjectCves
                (fun _ => <[ "lodash" := "4.17.20" ]> {[ "express" := "4.17.1" ]})
                "/srv/b" "b").
Proof.
  apply checkProjectCves_frame.
  intros adv Hadv. unfold CVE_DATABASE in Hadv.
  repeat (destruct Hadv as [<-|Hadv]; [vm_compute; reflexivity|]).
  destruct Hadv.
Defined.

(** X11: [checkAllProjectCves] lists a project exactly when an advisory of
    the catalog affects it, that is when one of the catalog's packages is
    installed with a non-empty version inside the advisory's range; the
    projects come in input order. *)
Theorem checkAllProjectCves_listed
    (getInstalledVersions : string -> gmap string string)
    (projects : list (string * string)) :
  sublist (checkAllProjectCves getInstalledVersions projects)
          (map (fun p => checkProjectCves getInstalledVersions (snd p) (fst p)) projects) /\
  forall r, In r (checkAllProjectCves getInstalledVersions projects) <->
    exists p, In p projects /\
      r = checkProjectCves getInstalledVersions (snd p) (fst p) /\
      exists adv version,
        In adv CVE_DATABASE /\
        getInstalledVersions (snd p) !! package adv = Some version /\
        version <> "" /\
        isInRange version (affectedVersions adv) = true.
Proof.
  split.
  - unfold checkAllProjectCves.
    generalize (map (fun p => checkProjectCves getInstalledVersions (snd p) (fst p))
                    projects) as rs.
    induction rs as [|r rs IH]; cbn [List.filter]; [constructor|].
    destruct (0 <? length (affected r))%nat; constructor; exact IH.
  - intros r. rewrite CveFacts.checkAllProjectCves_affected, in_map_iff. split.
    + intros [(p & <- & Hp) Hne]. exists p. split; [exact Hp|]. split; [reflexivity|].
      rewrite affected_omap in Hne.
      destruct (omap (match_of (getInstalledVersions (snd p))) CVE_DATABASE)
        as [|m ms] eqn:Hm; [contradiction|].
      assert (Hin : m ∈ omap (match_of (getInstalledVersions (snd p))) CVE_DATABASE)
        by (rewrite Hm; left).
      apply list_elem_of_omap in Hin as (adv & Hadv & Hmatch).
      apply match_of_advisory in Hmatch as (_ & _ & Hlook & Hver & Hrange).
      exists adv, (installedVersion m). rewrite <- list_elem_of_In. auto.
    + intros (p & Hp & -> & adv & version & Hadv & Hlook & Hver & Hrange).
      split; [eauto|].
      rewrite affected_omap.
      intros Hnil.
      assert (Hin : {| advisory := adv; installedVersion := version; isAffected := true |}
                    ∈ omap (match_of (getInstalledVersions (snd p))) CVE_DATABASE).
      { apply list_elem_of_omap. exists adv. split; [now apply list_elem_of_In|].
        unfold match_of. rewrite Hlook, Hrange.
        destruct (String.eqb_spec version ""); [contradiction|reflexivity]. }
      rewrite Hnil in Hin. inversion Hin.
Qed.

End CatalogFacts.

(** ** The adapters, further *)

Module AdapterFacts.
Import Js Audit AuditSpec AdapterSpec.
Import AuditFacts.

(** *** What every result carries *)

Section Shape.

Variable rt : Runtime.

Lemma shaped_emptyResult projectName language auditCommand error :
  shaped projectName language (emptyResult projectName language auditCommand error).
Proof. split; [reflexivity|]. split; [reflexivity|]. left. eauto. Qed.

Lemma shaped_parsed projectName language r :
  project r = projectName -> Audit.language r = language -> error r = None ->
  shaped projectName language r.
Proof. intros Hp Hl He. split; [exact Hp|]. split; [exact Hl|]. now right. Qed.

Lemma auditRust_parse_fields projectName raw r :
  auditRust_parse rt projectName raw = Some r ->
  project r = projectName /\ Audit.language r = "rust" /\ error r = None /\
  exists data_vulnerabilities list,
    as_array (or_else (opt_get data_vulnerabilities "list") (VArray [])) = Some list /\
    mapM (rust_vulnerability rt) list = Some (vulnerabilities r).
Proof.
  intros H. unfold auditRust_parse in H. open_binds H.
  injection H as <-. cbn [project Audit.language error vulnerabilities]. eauto 10.
Qed.

Lemma auditPython_parse_fields projectName auditCmd raw r :
  auditPython_parse rt projectName auditCmd raw = Some r ->
  project r = projectName /\ Audit.language r = "python" /\ error r = None /\
  exists kept, flatMapM (python_entry rt) kept = Some (vulnerabilities r).
Proof.
  intros H. unfold auditPython_parse in H. open_binds H.
  injection H as <-. cbn [project Audit.language error vulnerabilities]. eauto 10.
Qed.

Lemma auditPhp_parse_fields projectName raw r :
  auditPhp_parse rt projectName raw = Some r ->
  project r = projectName /\ Audit.language r = "php" /\ error r = None.
Proof.
  intros H. unfold auditPhp_parse in H. open_binds H.
  injection H as <-. auto.
Qed.

Lemma auditNode_shaped projectPath projectName :
  shaped projectName "node" (auditNode rt projectPath projectName).
Proof.
  destruct (auditNode_cases rt projectPath projectName)
    as [_|(raw & data & vulns & _ & _ & ->)];
    [|apply shaped_parsed; reflexivity].
  unfold auditNode.
  destruct (cmd rt _ projectPath 60000) as [[|c raw]|];
    [apply shaped_emptyResult| |apply shaped_emptyResult].
  destruct (String.eqb _ "npm" || String.eqb _ "pnpm"); [|apply shaped_emptyResult].
  destruct (auditNode_parse rt projectName _ (String c raw)) as [r|] eqn:Hparse;
    [|apply shaped_emptyResult].
  apply auditNode_parse_Some in Hparse as (data & vulns & _ & ->).
  apply shaped_parsed; reflexivity.
Qed.

Lemma auditRust_shaped projectPath projectName :
  shaped projectName "rust" (auditRust rt projectPath projectName).
Proof.
  unfold auditRust.
  destruct (negb (cmdExists rt "cargo-audit") && negb (cmdExists rt "cargo"));
    [apply shaped_emptyResult|].
  destruct (cmd rt "cargo audit --json" projectPath 60000) as [[|c raw]|];
    [apply shaped_emptyResult| |apply shaped_emptyResult].
  destruct (auditRust_parse rt projectName (String c raw)) as [r|] eqn:Hparse;
    [|apply shaped_emptyResult].
  apply auditRust_parse_fields in Hparse as (Hp & Hl & He & _).
  now apply shaped_parsed.
Qed.

Lemma auditPython_shaped projectPath projectName :
  shaped projectName "python" (auditPython rt projectPath projectName).
Proof.
  unfold auditPython.
  destruct (negb (cmdExists rt "pip-audit") && negb (cmdExists rt "pip3"));
    [apply shaped_emptyResult|].
  set (auditCmd := if String.eqb _ _ then _ else _).
  destruct (cmd rt auditCmd projectPath 60000) as [[|c raw]|];
    [apply shaped_emptyResult| |apply shaped_emptyResult].
  destruct (auditPython_parse rt projectName auditCmd (String c raw)) as [r|] eqn:Hparse;
    [|apply shaped_emptyResult].
  apply auditPython_parse_fields in Hparse as (Hp & Hl & He & _).
  now apply shaped_parsed.
Qed.

Lemma auditPhp_shaped projectPath projectName :
  shaped projectName "php" (auditPhp rt projectPath projectName).
Proof.
  unfold auditPhp.
  destruct (negb (cmdExists rt "composer")); [apply shaped_emptyResult|].
  destruct (cmd rt "composer audit --format=json" projectPath 60000) as [[|c raw]|];
    [apply shaped_emptyResult| |apply shaped_emptyResult].
  destruct (auditPhp_parse rt projectName (String c raw)) as [r|] eqn:Hparse;
    [|apply shaped_emptyResult].
  apply auditPhp_parse_fields in Hparse as (Hp & Hl & He).
  now apply shaped_parsed.
Qed.

Lemma auditGo_shaped projectPath projectName :
  shaped projectName "go" (auditGo rt projectPath projectName).
Proof.
  unfold auditGo.
  destruct (negb (cmdExists rt "govulncheck")); [apply shaped_emptyResult|].
  destruct (cmd rt "govulncheck -json ./..." projectPath 60000) as [[|c raw]|];
    [apply shaped_emptyResult| |apply shaped_emptyResult].
  apply shaped_parsed; reflexivity.
Qed.

Lemma auditProject_shaped projectPath projectName language :
  shaped projectName language (auditProject rt projectPath projectName language).
Proof.
  unfold auditProject.
  destruct (String.eqb_spec language "node") as [->|_]; [apply auditNode_shaped|].
  destruct (String.eqb_spec language "rust") as [->|_]; [apply auditRust_shaped|].
  destruct (String.eqb_spec language "python") as [->|_]; [apply auditPython_shaped|].
  destruct (String.eqb_spec language "php") as [->|_]; [apply auditPhp_shaped|].
  destruct (String.eqb_spec language "go") as [->|_]; [apply auditGo_shaped|].
  apply shaped_emptyResult.
Qed.

End Shape.

(** X12: every result names the project and the ecosystem it was asked
    for, whatever the tool did: also an error result and the result for an
    unsupported ecosystem. *)
Theorem auditProject_attribution
    (rt : Runtime) (projectPath projectName language : string) :
  project (auditProject rt projectPath projectName language) = projectName /\
  Audit.language (auditProject rt projectPath projectName language) = language.
Proof.
  destruct (auditProject_shaped rt projectPath projectName language) as (Hp & Hl & _).
  auto.
Qed.

(** X13: a result never carries both an error and findings: when the error
    is not null the list is empty and the total and the four counts are
    zero. *)
Theorem auditProject_error_no_findings
    (rt : Runtime) (projectPath projectName language : string) :
  error (auditProject rt projectPath projectName language) <> None ->
  vulnerabilities (auditProject rt projectPath projectName language) = [] /\
  totalVulnerabilities (auditProject rt projectPath projectName language) = zero /\
  forall l, level_count l (auditProject rt projectPath projectName language) = zero.
Proof.
  intros Herr.
  destruct (auditProject_shaped rt projectPath projectName language)
    as (_ & _ & [(auditCommand & e & ->)|Hnone]); [|contradiction].
  split; [reflexivity|]. split; [reflexivity|]. intros []; reflexivity.
Qed.

Lemma auditProject_error_no_findings_witness :
  vulnerabilities (auditProject rt_no_tools "/srv/app" "app" "node") = [].
Proof.
  refine (proj1 (auditProject_error_no_findings rt_no_tools "/srv/app" "app" "node" _)).
  vm_compute. discriminate.
Defined.

(** *** Severities and counts *)

Lemma mapRustSeverity_level rt cvss :
  exists l : Level, mapRustSeverity rt cvss = level_name l.
Proof.
  unfold mapRustSeverity.
  destruct (negb (truthy cvss)); [exists Moderate; reflexivity|].
  destruct (number_ge _ 9); [exists Critical; reflexivity|].
  destruct (number_ge _ 7); [exists High; reflexivity|].
  destruct (number_ge _ 4); [exists Moderate; reflexivity|].
  exists Low; reflexivity.
Qed.

Lemma rust_vulnerability_level rt v x :
  rust_vulnerability rt v = Some x -> level_severity x.
Proof.
  intros H. unfold rust_vulnerability in H. open_binds H.
  injection H as <-. unfold level_severity. cbn [severity].
  match goal with
  | |- context [mapRustSeverity rt ?cvss] =>
      destruct (mapRustSeverity_level rt cvss) as [l ->]
  end. eauto.
Qed.

Lemma python_vulnerability_level rt d v x :
  python_vulnerability rt d v = Some x -> level_severity x.
Proof.
  intros H. unfold python_vulnerability in H. open_binds H.
  injection H as <-. unfold level_severity. cbn [severity].
  destruct (truthy _); [exists High|exists Moderate]; reflexivity.
Qed.

Lemma high_level v : severity v = VString "high" -> level_severity v.
Proof. intros H. exists High. exact H. Qed.

Lemma Forall_level_emptyResult projectName language auditCommand error :
  Forall level_severity
    (vulnerabilities (emptyResult projectName language auditCommand error)).
Proof. constructor. Qed.

Lemma auditProject_levels rt projectPath projectName language :
  language <> "node" ->
  Forall level_severity
    (vulnerabilities (auditProject rt projectPath projectName language)).
Proof.
  intros Hlang. unfold auditProject.
  destruct (String.eqb_spec language "node") as [|_]; [contradiction|].
  destruct (String.eqb language "rust").
  { unfold auditRust.
    destruct (negb (cmdExists rt "cargo-audit") && negb (cmdExists rt "cargo"));
      [constructor|].
    destruct (cmd rt "cargo audit --json" projectPath 60000) as [[|c raw]|];
      [constructor| |constructor].
    destruct (auditRust_parse rt projectName (String c raw)) as [r|] eqn:Hparse;
      [|constructor].
    apply auditRust_parse_fields in Hparse as (_ & _ & _ & dv & list & _ & Hmap).
    eapply mapM_Forall; [|exact Hmap]. apply rust_vulnerability_level. }
  destruct (String.eqb language "python").
  { unfold auditPython.
    destruct (negb (cmdExists rt "pip-audit") && negb (cmdExists rt "pip3"));
      [constructor|].
    set (auditCmd := if String.eqb _ _ then _ else _).
    destruct (cmd rt auditCmd projectPath 60000) as [[|c raw]|];
      [constructor| |constructor].
    destruct (auditPython_parse rt projectName auditCmd (String c raw)) as [r|] eqn:Hparse;
      [|constructor].
    apply auditPython_parse_fields in Hparse as (_ & _ & _ & kept & Hflat).
    eapply flatMapM_Forall; [|exact Hflat].
    intros d ys Hys. unfold python_entry in Hys. open_binds Hys.
    eapply mapM_Forall; [|exact Hys]. apply python_vulnerability_level. }
  destruct (String.eqb language "php").
  { unfold auditPhp.
    destruct (negb (cmdExists rt "composer")); [constructor|].
    destruct (cmd rt "composer audit --format=json" projectPath 60000) as [[|c raw]|];
      [constructor| |constructor].
    destruct (auditPhp_parse rt projectName (String c raw)) as [r|] eqn:Hparse;
      [|constructor].
    unfold auditPhp_parse in Hparse. open_binds Hparse. injection Hparse as <-.
    cbn [vulnerabilities].
    eapply Forall_impl; [|intros v; apply high_level].
    eapply flatMapM_Forall; [|eassumption].
    intros [pkg advisories] ys Hys. unfold php_entry in Hys.
    eapply mapM_Forall; [|exact Hys].
    intros adv v. apply php_vulnerability_high. }
  destruct (String.eqb language "go").
  { unfold auditGo.
    destruct (negb (cmdExists rt "govulncheck")); [constructor|].
    destruct (cmd rt "govulncheck -json ./..." projectPath 60000) as [[|c raw]|];
      [constructor| |constructor].
    cbn [vulnerabilities].
    eapply Forall_impl; [|intros v; apply high_level]. apply go_lines_high. }
  constructor.
Qed.

(** Each entry with a level is counted by exactly one of the four filters. *)
Lemma level_partition vulns :
  Forall level_severity vulns ->
  (length (List.filter (has_severity "critical") vulns)
   + length (List.filter (has_severity "high") vulns)
   + length (List.filter (has_severity "moderate") vulns)
   + length (List.filter (has_severity "low") vulns))%nat
  = length vulns.
Proof.
  induction 1 as [|v vulns [l Hl] _ IH]; [reflexivity|].
  cbn [List.filter].
  assert (Hsev : forall s, has_severity s v = String.eqb (level_name l) s)
    by (intros s; unfold has_severity; now rewrite Hl).
  rewrite !Hsev. destruct l; simpl; lia.
Qed.

(** X14: outside the node adapter every entry has one of the four levels
    as its severity (never "info" or anything else), so the four counts add up
    to [totalVulnerabilities]. *)
Theorem counts_add_up (rt : Runtime) (projectPath projectName language : string) :
  language <> "node" ->
  let r := auditProject rt projectPath projectName language in
  Forall level_severity (vulnerabilities r) /\
  exists c h m l : nat,
    critical r = VNumber (of_nat c) /\ high r = VNumber (of_nat h) /\
    moderate r = VNumber (of_nat m) /\ low r = VNumber (of_nat l) /\
    totalVulnerabilities r = VNumber (of_nat (c + h + m + l)).
Proof.
  intros Hlang r.
  pose proof (auditProject_levels rt projectPath projectName language Hlang) as Hlevels.
  fold r in Hlevels. split; [exact Hlevels|].
  destruct (auditProject_cases rt projectPath projectName language)
    as [(Hcounts & _ & Htotal)|[Hnode _]]; [|contradiction].
  fold r in Hcounts, Htotal.
  exists (length (List.filter (has_severity "critical") (vulnerabilities r))),
         (length (List.filter (has_severity "high") (vulnerabilities r))),
         (length (List.filter (has_severity "moderate") (vulnerabilities r))),
         (length (List.filter (has_severity "low") (vulnerabilities r))).
  split; [exact (Hcounts Critical)|]. split; [exact (Hcounts High)|].
  split; [exact (Hcounts Moderate)|]. split; [exact (Hcounts Low)|].
  rewrite Htotal, (level_partition _ Hlevels). reflexivity.
Qed.

Lemma counts_add_up_witness :
  Forall level_severity
    (vulnerabilities
       (auditProject (rt_printing "<report>" (fun _ => Some pip_report))
                     "/srv/app" "app" "python")).
Proof.
  refine (proj1 (counts_add_up (rt_printing "<report>" (fun _ => Some pip_report))
                   "/srv/app" "app" "python" _)).
  discriminate.
Defined.

(** X15: a score that is not a number and that [parseFloat] cannot read, as
    the CVSS vector that [cargo audit] prints, gives "low": every comparison
    with [NaN] fails. *)
Theorem mapRustSeverity_unreadable_score (rt : Runtime) (cvss : value) :
  truthy cvss = true ->
  (forall n, cvss <> VNumber n) ->
  parseFloat rt (to_string rt cvss) = NaN ->
  mapRustSeverity rt cvss = "low".
Proof.
  intros Htruthy Hnumber Hparse. unfold mapRustSeverity. rewrite Htruthy. cbn [negb].
  destruct cvss as [| |b|n|s|items|props|name];
    try (rewrite Hparse; reflexivity).
  exfalso. now apply (Hnumber n).
Qed.

Lemma mapRustSeverity_unreadable_score_witness :
  mapRustSeverity rt_silent cvss_vector = "low".
Proof.
  apply mapRustSeverity_unreadable_score.
  - vm_compute. reflexivity.
  - intros n. discriminate.
  - vm_compute. reflexivity.
Defined.

(** *** The go adapter *)

Lemma go_line_length rt line : (length (go_line rt line) <= 1)%nat.
Proof.
  unfold go_line.
  destruct (JSON_parse rt line) as [entry|]; simpl; [|lia].
  destruct (get entry "vulnerability") as [v|]; simpl; [|lia].
  destruct (truthy v); simpl; lia.
Qed.

Lemma go_lines_length rt lines :
  (length (concat (map (go_line rt) lines)) <= length lines)%nat.
Proof.
  induction lines as [|line lines IH]; simpl; [lia|].
  rewrite length_app. pose proof (go_line_length rt line). lia.
Qed.

(** X16: the go adapter never reports a parse failure.  When the tool is
    installed and prints something, the result has a null error whatever the
    output is: a line that is not JSON is skipped, every finding is of
    severity "high", and there is at most one finding per line that is not
    empty. *)
Theorem auditGo_output_always_accepted
    (rt : Runtime) (projectPath projectName raw : string) :
  cmdExists rt "govulncheck" = true ->
  cmd rt "govulncheck -json ./..." projectPath 60000 = Some raw ->
  raw <> "" ->
  let r := auditGo rt projectPath projectName in
  error r = None /\
  Forall (fun v => severity v = VString "high") (vulnerabilities r) /\
  (length (vulnerabilities r) <= length (go_lines raw))%nat.
Proof.
  intros Htool Hcmd Hraw r. subst r. unfold auditGo. rewrite Htool, Hcmd.
  cbn [negb]. destruct raw as [|c raw]; [contradiction|].
  cbn [error vulnerabilities]. split; [reflexivity|].
  split; [apply go_lines_high|apply go_lines_length].
Qed.

Lemma auditGo_output_always_accepted_witness :
  error (auditGo (rt_printing govulncheck_output govulncheck_parse) "/srv/app" "app")
  = None.
Proof.
  refine (proj1 (auditGo_output_always_accepted
                   (rt_printing govulncheck_output govulncheck_parse)
                   "/srv/app" "app" govulncheck_output _ _ _)).
  - vm_compute. reflexivity.
  - vm_compute. reflexivity.
  - vm_compute. discriminate.
Defined.

(** *** The node adapter *)

(** X17: for a node project whose only lockfile is [bun.lockb] the adapter
    runs [npm audit --json] and does not read what it prints: whenever the
    command produces output the result is empty with a null error. *)
Theorem auditNode_bun_output_unread
    (rt : Runtime) (projectPath projectName raw : string) :
  existsSync rt (join rt projectPath "pnpm-lock.yaml") = false ->
  existsSync rt (join rt projectPath "yarn.lock") = false ->
  existsSync rt (join rt projectPath "bun.lockb") = true ->
  cmd rt "npm audit --json" projectPath 60000 = Some raw ->
  raw <> "" ->
  auditNode rt projectPath projectName
  = emptyResult projectName "node" "npm audit --json" None.
Proof.
  intros Hpnpm Hyarn Hbun Hcmd Hraw.
  unfold auditNode, detect_pm. rewrite Hpnpm, Hyarn, Hbun.
  change (node_auditCmd "bun") with "npm audit --json".
  rewrite Hcmd. destruct raw as [|c raw']; [contradiction|reflexivity].
Qed.

Lemma auditNode_bun_output_unread_witness :
  auditNode (rt_reporting ["/srv/app/bun.lockb"]) "/srv/app" "app"
  = emptyResult "app" "node" "npm audit --json" None.
Proof.
  refine (auditNode_bun_output_unread
            (rt_reporting ["/srv/app/bun.lockb"]) "/srv/app" "app"
            "<audit report>" _ _ _ _ _).
  - vm_compute. reflexivity.
  - vm_compute. reflexivity.
  - vm_compute. reflexivity.
  - vm_compute. reflexivity.
  - discriminate.
Defined.

Lemma or_else_truthy a b : truthy b = true -> truthy (or_else a b) = true.
Proof. intros Hb. unfold or_else. destruct (truthy a) eqn:Ha; assumption. Qed.

Lemma node_vulnerability_fields entry v :
  node_vulnerability entry = Some v ->
  package v = VString (fst entry) /\
  truthy (severity v) = true /\ truthy (title v) = true.
Proof.
  destruct entry as [pkg info]. intros H. unfold node_vulnerability in H.
  open_binds H. injection H as <-. cbn [package severity title fst].
  split; [reflexivity|]. split; apply or_else_truthy; reflexivity.
Qed.

Lemma mapM_node_vulnerability es vulns :
  mapM node_vulnerability es = Some vulns ->
  map package vulns = map (fun entry => VString (fst entry)) es /\
  Forall (fun v => truthy (severity v) = true /\ truthy (title v) = true) vulns.
Proof.
  intros H. apply mapM_Some_1 in H.
  induction H as [|entry v es vulns Hv _ [IHp IHf]]; [split; [reflexivity|constructor]|].
  apply node_vulnerability_fields in Hv as (Hp & Hs & Ht).
  cbn [map]. rewrite Hp, IHp. split; [reflexivity|]. constructor; auto.
Qed.

(** X18: when the node adapter parses a report whose [vulnerabilities]
    field is an object, it returns one finding per key of that object, in the
    order of the keys and with the key as the package; every finding has a
    severity and a title that are not empty or missing (the defaults are
    "moderate" and "Vulnerability in <package>"). *)
Theorem auditNode_one_finding_per_key
    (rt : Runtime) (projectPath projectName raw : string)
    (data : value) (props : list (string * value)) :
  String.eqb (detect_pm rt projectPath) "npm"
  || String.eqb (detect_pm rt projectPath) "pnpm" = true ->
  cmd rt (node_auditCmd (detect_pm rt projectPath)) projectPath 60000 = Some raw ->
  raw <> "" ->
  JSON_parse rt raw = Some data ->
  get data "vulnerabilities" = Some (VObject props) ->
  let r := auditNode rt projectPath projectName in
  error r = None ->
  map package (vulnerabilities r) = map (fun entry => VString (fst entry)) props /\
  Forall (fun v => truthy (severity v) = true /\ truthy (title v) = true)
         (vulnerabilities r).
Proof.
  intros Hpm Hcmd Hraw Hdata Hvulns r. subst r. unfold auditNode.
  rewrite Hcmd, Hpm. destruct raw as [|c raw]; [contradiction|].
  destruct (auditNode_parse rt projectName _ (String c raw)) as [r|] eqn:Hparse;
    [|discriminate].
  intros _. unfold auditNode_parse in Hparse.
  rewrite Hdata in Hparse. cbn [mbind option_bind] in Hparse.
  rewrite Hvulns in Hparse. cbn [mbind option_bind truthy entries] in Hparse.
  destruct (mapM node_vulnerability props) as [vulns|] eqn:Hmap;
    cbn [mbind option_bind] in Hparse; [|discriminate].
  injection Hparse as <-. cbn [vulnerabilities].
  now apply mapM_node_vulnerability.
Qed.

Lemma auditNode_one_finding_per_key_witness :
  map package (vulnerabilities (auditNode (rt_reporting []) "/srv/app" "app"))
  = [VString "lodash"].
Proof.
  refine (proj1 (auditNode_one_finding_per_key (rt_reporting []) "/srv/app" "app"
                   "<audit report>" lodash_report
                   [ ("lodash",
                      VObject [ ("severity", VString "high");
                                ("via", VArray [ VObject [ ("title", VString "Prototype Pollution");
                                                           ("url", VString "https://github.com/advisories/GHSA-p6mc-m468-83gw") ] ]);
                                ("range", VString "<4.17.19");
                                ("fixAvailable", VBool true) ]) ]
                   _ _ _ _ _ _)).
  - vm_compute. reflexivity.
  - vm_compute. reflexivity.
  - discriminate.
  - vm_compute. reflexivity.
  - vm_compute. reflexivity.
  - vm_compute. reflexivity.
Defined.

End AdapterFacts.

(** ** The statistics of the catalog *)

Module StatsFacts.
Import Cve CveStats StatsSpec.

Lemma Set_add_all_In items : forall elements x,
  In x (Set_add_all elements items) <-> In x elements \/ In x items.
Proof.
  induction items as [|item items IH]; intros elements x; cbn [Set_add_all].
  - cbn [In]. tauto.
  - rewrite IH. cbn [In].
    destruct (existsb (String.eqb item) elements) eqn:Hseen.
    + apply existsb_exists in Hseen as (y & Hy & Heq).
      apply String.eqb_eq in Heq. subst y.
      split; [tauto|]. intros [H|[<-|H]]; auto.
    + rewrite in_app_iff. cbn [In]. tauto.
Qed.

Lemma Set_add_all_NoDup items : forall elements,
  NoDup elements -> NoDup (Set_add_all elements items).
Proof.
  induction items as [|item items IH]; intros elements Hnodup; cbn [Set_add_all];
    [exact Hnodup|].
  apply IH. destruct (existsb (String.eqb item) elements) eqn:Hseen; [exact Hnodup|].
  apply NoDup_app. split; [exact Hnodup|].
  split; [|apply NoDup_singleton].
  intros x Hx Hitem. apply list_elem_of_singleton in Hitem. subst x.
  rename item into x.
  assert (Hex : existsb (String.eqb x) elements = true).
  { apply existsb_exists. exists x. split; [now apply list_elem_of_In|apply String.eqb_refl]. }
  congruence.
Qed.

(** The order of strings is transitive. *)
Lemma compare_le_trans s1 : forall s2 s3,
  String.compare s1 s2 <> Gt -> String.compare s2 s3 <> Gt ->
  String.compare s1 s3 <> Gt.
Proof.
  induction s1 as [|c1 s1 IH]; intros [|c2 s2] [|c3 s3]; simpl; try congruence.
  unfold Ascii.compare.
  destruct (N.compare_spec (N_of_ascii c1) (N_of_ascii c2)),
           (N.compare_spec (N_of_ascii c2) (N_of_ascii c3)),
           (N.compare_spec (N_of_ascii c1) (N_of_ascii c3));
    try congruence; try lia.
  apply IH.
Qed.

Lemma leb_le s1 s2 : String.leb s1 s2 = true <-> String.compare s1 s2 <> Gt.
Proof. unfold String.leb. destruct (String.compare s1 s2); split; congruence. Qed.

Lemma leb_trans s1 s2 s3 :
  String.leb s1 s2 = true -> String.leb s2 s3 = true -> String.leb s1 s3 = true.
Proof. rewrite !leb_le. apply compare_le_trans. Qed.

Lemma leb_refl s : String.leb s s = true.
Proof.
  destruct (String.leb_total s s); assumption.
Qed.

Lemma sort_insert_In item sorted x :
  In x (sort_insert item sorted) <-> x = item \/ In x sorted.
Proof.
  induction sorted as [|item' sorted IH]; cbn [sort_insert In]; [intuition|].
  destruct (String.leb item item'); cbn [In]; [intuition|]. rewrite IH. intuition.
Qed.

Lemma sort_In items x : In x (sort items) <-> In x items.
Proof.
  induction items as [|item items IH]; cbn [sort In]; [tauto|].
  rewrite sort_insert_In, IH. intuition.
Qed.

Lemma sort_insert_ascending item sorted :
  ascending sorted -> ascending (sort_insert item sorted).
Proof.
  induction sorted as [|item' sorted IH]; cbn [sort_insert ascending].
  - intros _. split; [intros x []|exact I].
  - intros [Hbelow Hsorted]. destruct (String.leb item item') eqn:Hle.
    + cbn [ascending]. split; [|split; assumption].
      intros x [<-|Hx]; [exact Hle|]. eapply leb_trans; [exact Hle|auto].
    + cbn [ascending]. split; [|auto].
      intros x Hx. apply sort_insert_In in Hx as [->|Hx]; [|auto].
      destruct (String.leb_total item item'); congruence.
Qed.

Lemma sort_ascending items : ascending (sort items).
Proof.
  induction items as [|item items IH]; cbn [sort]; [exact I|].
  now apply sort_insert_ascending.
Qed.

Lemma last_ascending items latest :
  ascending items -> last items = Some latest ->
  In latest items /\ forall x, In x items -> String.leb x latest = true.
Proof.
  induction items as [|item [|item' items] IH]; [discriminate| |].
  - intros _ H. injection H as <-. split; [now left|].
    intros x [<-|[]]. apply leb_refl.
  - intros [Hbelow Hsorted] H. change (last (item' :: items) = Some latest) in H.
    destruct (IH Hsorted H) as [Hin Hmax]. split; [now right|].
    intros x [<-|Hx]; [apply Hbelow; exact Hin|apply Hmax; exact Hx].
Qed.

Lemma Set_add_all_order items : forall elements,
  exists added, Set_add_all elements items = elements ++ added /\ sublist added items.
Proof.
  induction items as [|item items IH]; intros elements; cbn [Set_add_all].
  - exists []. split; [now rewrite app_nil_r|constructor].
  - destruct (existsb (String.eqb item) elements).
    + destruct (IH elements) as (added & -> & Hsub).
      exists added. split; [reflexivity|now apply sublist_cons].
    + destruct (IH (elements ++ [item])) as (added & -> & Hsub).
      exists (item :: added). split; [now rewrite <- app_assoc|now apply sublist_skip].
Qed.

Lemma Set_add_all_app items1 : forall elements items2,
  Set_add_all elements (items1 ++ items2)
  = Set_add_all (Set_add_all elements items1) items2.
Proof.
  induction items1 as [|item items1 IH]; intros elements items2; [reflexivity|].
  cbn [app Set_add_all]. apply IH.
Qed.

Lemma filter_absorb {A} (f g : A -> bool) l :
  (forall x, f x = true -> g x = true) ->
  List.filter f (List.filter g l) = List.filter f l.
Proof.
  intros Hfg. induction l as [|x l IH]; [reflexivity|]. cbn [List.filter].
  destruct (g x) eqn:Hg; cbn [List.filter]; [now rewrite IH|].
  destruct (f x) eqn:Hf; [|exact IH]. apply Hfg in Hf. congruence.
Qed.

Lemma filter_both {A} (f g : A -> bool) l :
  List.filter f (List.filter g l) = List.filter (fun x => f x && g x) l.
Proof.
  induction l as [|x l IH]; [reflexivity|]. cbn [List.filter].
  destruct (g x); cbn [List.filter]; rewrite ?andb_true_r, ?andb_false_r;
    [destruct (f x); now rewrite IH|exact IH].
Qed.

Lemma filter_all {A} (l : list A) : List.filter (fun _ => true) l = l.
Proof. induction l as [|x l IH]; [reflexivity|]. cbn [List.filter]. now rewrite IH. Qed.

(** The set keeps what it holds and appends the first occurrences of the
    items that it does not hold. *)
Lemma Set_add_all_first_occurrences items : forall elements,
  Set_add_all elements items
  = elements ++ List.filter (fun x => negb (existsb (String.eqb x) elements))
                            (first_occurrences items).
Proof.
  induction items as [|item items IH]; intros elements;
    cbn [Set_add_all first_occurrences List.filter]; [now rewrite app_nil_r|].
  destruct (existsb (String.eqb item) elements) eqn:Hseen; cbn [negb].
  - rewrite IH. f_equal. symmetry. apply filter_absorb.
    intros x Hx. apply negb_true_iff. apply negb_true_iff in Hx.
    destruct (String.eqb_spec x item) as [->|_]; [congruence|reflexivity].
  - rewrite IH, <- app_assoc. cbn [app]. do 2 f_equal.
    rewrite filter_both. apply List.filter_ext. intros x.
    rewrite existsb_app. cbn [existsb]. now rewrite orb_false_r, negb_orb.
Qed.

(** X19: the statistics of a catalog.  [total] is the number of advisories;
    [packages] holds each package of the catalog once, in the order of first
    appearance: it is the list of the first occurrences, and the package of
    an advisory that brings a new one comes right after the packages of the
    advisories before it; [lastUpdate] is "unknown" for an empty catalog and
    otherwise (dates not being empty) the greatest of the dates in the order
    of strings, which for ISO dates is the most recent one. *)
Theorem stats_of_summary (catalog : list CveAdvisory) :
  let st := stats_of catalog in
  total st = length catalog /\
  NoDup (packages st) /\
  sublist (packages st) (map package catalog) /\
  (forall p, In p (packages st) <-> exists adv, In adv catalog /\ package adv = p) /\
  packages st = first_occurrences (map package catalog) /\
  (forall before adv after,
     catalog = before ++ adv :: after ->
     (forall adv', In adv' before -> package adv' <> package adv) ->
     exists rest,
       packages st = packages (stats_of before) ++ package adv :: rest) /\
  (catalog = [] -> lastUpdate st = "unknown") /\
  ((forall adv, In adv catalog -> date adv <> "") ->
   catalog <> [] ->
   (exists adv, In adv catalog /\ date adv = lastUpdate st) /\
   forall adv, In adv catalog -> String.leb (date adv) (lastUpdate st) = true).
Proof.
  intros st. subst st. unfold stats_of. cbn [total packages lastUpdate].
  split; [reflexivity|]. split; [apply Set_add_all_NoDup; constructor|].
  split.
  { unfold new_Set. destruct (Set_add_all_order (map package catalog) [])
      as (added & -> & Hsub). exact Hsub. }
  split.
  { intros p. unfold new_Set. rewrite Set_add_all_In, in_map_iff. cbn [In].
    split; [intros [[]|(adv & <- & Hadv)]; eauto|intros (adv & Hadv & <-); eauto]. }
  split.
  { unfold new_Set. rewrite Set_add_all_first_occurrences. cbn [app existsb negb].
    apply filter_all. }
  split.
  { intros before adv after -> Hnew. unfold new_Set.
    rewrite map_app, Set_add_all_app. cbn [map Set_add_all].
    assert (Hseen : existsb (String.eqb (package adv))
                      (Set_add_all [] (map package before)) = false).
    { destruct (existsb _ _) eqn:Hex; [|reflexivity].
      apply existsb_exists in Hex as (p & Hp & Heq). apply String.eqb_eq in Heq.
      apply Set_add_all_In in Hp as [[]|Hp].
      apply in_map_iff in Hp as (adv' & Hpackage & Hadv').
      exfalso. apply (Hnew adv' Hadv'). congruence. }
    rewrite Hseen.
    destruct (Set_add_all_order (map package after)
                (Set_add_all [] (map package before) ++ [package adv]))
      as (rest & -> & _).
    exists rest. now rewrite <- app_assoc. }
  split; [intros ->; reflexivity|].
  intros Hdates Hcatalog.
  destruct (last (sort (map date catalog))) as [latest|] eqn:Hlast.
  - destruct (last_ascending _ _ (sort_ascending _) Hlast) as [Hin Hmax].
    apply sort_In, in_map_iff in Hin as (adv & <- & Hadv).
    destruct (date adv) as [|c d] eqn:Hdate; [now apply Hdates in Hadv|].
    split; [exists adv; rewrite Hdate; auto|].
    intros adv' Hadv'. apply Hmax, sort_In, in_map_iff. eauto.
  - apply last_None in Hlast. destruct catalog as [|adv catalog]; [contradiction|].
    assert (Hin : In (date adv) (sort (map date (adv :: catalog))))
      by (apply sort_In; now left).
    rewrite Hlast in Hin. destruct Hin.
Qed.

Lemma stats_of_summary_witness :
  exists adv, In adv CVE_DATABASE /\ date adv = lastUpdate getCveDatabaseStats.
Proof.
  pose proof (stats_of_summary CVE_DATABASE) as Hstats. cbv zeta in Hstats.
  destruct Hstats as (_ & _ & _ & _ & _ & _ & _ & Hdates).
  refine (proj1 (Hdates _ _)).
  - intros adv Hadv. unfold CVE_DATABASE in Hadv.
    repeat (destruct Hadv as [<-|Hadv]; [discriminate|]). destruct Hadv.
  - discriminate.
Defined.

(** The statistics of the catalog in the source. *)
Example getCveDatabaseStats_value :
  getCveDatabaseStats
  = {| total := 11;
       packages := ["devalue"; "@sveltejs/kit"; "@sveltejs/adapter-node"; "svelte";
                    "next"; "express"; "vite"; "axios"];
       lastUpdate := "2026-01-15" |}.
Proof. vm_compute. reflexivity. Qed.

End StatsFacts.

(** ** Reading the installed versions *)

Module FsFacts.
Import Js Cve CveFs CveSpec FsSpec.








Section Reading.

Variable rt : Runtime.
Variable fs : FileSystem.


Lemma strip_specifier_head specifier :
  match strip_specifier rt specifier with
  | EmptyString => True
  | String c _ => is_range_char c = false
  end.
Proof.
  unfold strip_specifier. generalize (to_string rt specifier) as text.
  induction text as [|c text IH]; cbn [Str.drop_while]; [exact I|].
  destruct (is_range_char c) eqn:Hc; [exact IH|exact Hc].
Qed.

End Reading.

(** X20: [getInstalledVersions] gives the empty map, and does not throw,
    when the project has no [package.json], when that file cannot be read,
    when it is not JSON, and when it holds [null]. *)
Theorem getInstalledVersions_no_manifest
    (rt : Runtime) (fs : FileSystem) (projectPath : string) :
  let pkgPath := join rt projectPath "package.json" in
  existsSync rt pkgPath = false \/
  readFileSync fs pkgPath = None \/
  (exists text, readFileSync fs pkgPath = Some text /\
                (JSON_parse rt text = None \/ JSON_parse rt text = Some VNull)) ->
  getInstalledVersions rt fs projectPath = ∅.
Proof.
  intros pkgPath H. unfold getInstalledVersions, read_allDeps. fold pkgPath.
  destruct (existsSync rt pkgPath); [|reflexivity].
  destruct H as [H|[H|(text & Hread & [H|H])]]; [discriminate| | |].
  - now rewrite H.
  - rewrite Hread. cbn [mbind option_bind]. now rewrite H.
  - rewrite Hread. cbn [mbind option_bind]. now rewrite H.
Qed.

Lemma getInstalledVersions_no_manifest_witness :
  getInstalledVersions rt_manifest fs_manifest "/srv/other" = ∅.
Proof.
  apply getInstalledVersions_no_manifest. left. vm_compute. reflexivity.
Defined.



(** X22: how a version is resolved.  The [version] field of the manifest
    under [node_modules] is taken as it is whenever that manifest can be
    read; when it is missing, unreadable, not JSON or [null], the version is
    the declared specifier without its leading [^], [~], [>], [=] and [<], so
    that it never starts with one of these characters. *)
Theorem resolve_version_cases
    (rt : Runtime) (fs : FileSystem) (projectPath name : string) (specifier : value) :
  let nmPkgPath := join4 fs projectPath "node_modules" name "package.json" in
  (forall text nmPkg version,
     existsSync rt nmPkgPath = true ->
     readFileSync fs nmPkgPath = Some text ->
     JSON_parse rt text = Some nmPkg ->
     get nmPkg "version" = Some version ->
     resolve_version rt fs projectPath name specifier = version) /\
  (existsSync rt nmPkgPath = false \/
   readFileSync fs nmPkgPath = None \/
   (exists text, readFileSync fs nmPkgPath = Some text /\
                 (JSON_parse rt text = None \/ JSON_parse rt text = Some VNull)) ->
   resolve_version rt fs projectPath name specifier
   = VString (strip_specifier rt specifier)) /\
  match strip_specifier rt specifier with
  | EmptyString => True
  | String c _ => is_range_char c = false
  end.
Proof.
  intros nmPkgPath. split; [|split; [|apply strip_specifier_head]].
  - intros text nmPkg version Hexists Hread Hparse Hversion.
    unfold resolve_version. fold nmPkgPath. rewrite Hexists, Hread.
    cbn [mbind option_bind]. rewrite Hparse. cbn [mbind option_bind].
    now rewrite Hversion.
  - intros H. unfold resolve_version. fold nmPkgPath.
    destruct (existsSync rt nmPkgPath); [|reflexivity].
    destruct H as [H|[H|(text & Hread & [H|H])]]; [discriminate| | |].
    + now rewrite H.
    + rewrite Hread. cbn [mbind option_bind]. now rewrite H.
    + rewrite Hread. cbn [mbind option_bind]. now rewrite H.
Qed.

Lemma resolve_version_cases_witness :
  resolve_version rt_manifest fs_manifest "/srv/app" "vite" (VString ">=6.0.5")
  = VString "6.0.5".
Proof.
  rewrite (proj1 (proj2 (resolve_version_cases rt_manifest fs_manifest "/srv/app"
                           "vite" (VString ">=6.0.5")))).
  - vm_compute. reflexivity.
  - left. vm_compute. reflexivity.
Defined.




End FsFacts.

(** ** What [formatAudit] shows *)

Module FormatterFacts.
Import Js Audit AuditSpec Formatter FormatterSpec.

Lemma insert_by_In {A} (key : A -> Z) x sorted y :
  In y (insert_by key x sorted) <-> y = x \/ In y sorted.
Proof.
  induction sorted as [|z sorted IH]; cbn [insert_by In]; [intuition|].
  destruct (key x <=? key z); cbn [In]; [intuition|]. rewrite IH. intuition.
Qed.

Lemma insert_by_nondecreasing {A} (key : A -> Z) x sorted :
  nondecreasing key sorted -> nondecreasing key (insert_by key x sorted).
Proof.
  induction sorted as [|z sorted IH]; cbn [insert_by nondecreasing].
  - intros _. split; [intros y []|exact I].
  - intros [Hbelow Hsorted]. destruct (Z.leb_spec (key x) (key z)) as [Hle|Hgt].
    + cbn [nondecreasing]. split; [|split; assumption].
      intros y [<-|Hy]; [exact Hle|]. specialize (Hbelow y Hy). lia.
    + cbn [nondecreasing]. split; [|auto].
      intros y Hy. apply insert_by_In in Hy as [->|Hy]; [lia|auto].
Qed.

Lemma sort_by_nondecreasing {A} (key : A -> Z) items :
  nondecreasing key (sort_by key items).
Proof.
  induction items as [|x items IH]; cbn [sort_by]; [exact I|].
  now apply insert_by_nondecreasing.
Qed.

Lemma insert_by_Permutation {A} (key : A -> Z) x sorted :
  insert_by key x sorted ≡ₚ x :: sorted.
Proof.
  induction sorted as [|z sorted IH]; cbn [insert_by]; [reflexivity|].
  destruct (key x <=? key z); [reflexivity|].
  rewrite IH. apply Permutation_swap.
Qed.

Lemma sort_by_Permutation {A} (key : A -> Z) items : sort_by key items ≡ₚ items.
Proof.
  induction items as [|x items IH]; cbn [sort_by]; [reflexivity|].
  now rewrite insert_by_Permutation, IH.
Qed.

Lemma filter_insert_by_length {A} (key : A -> Z) (p : A -> bool) x sorted :
  length (List.filter p (insert_by key x sorted))
  = length (List.filter p (x :: sorted)).
Proof.
  induction sorted as [|z sorted IH]; cbn [insert_by]; [reflexivity|].
  destruct (key x <=? key z); [reflexivity|].
  cbn [List.filter] in *. destruct (p z), (p x); cbn [length] in *; lia.
Qed.

Lemma filter_sort_by_length {A} (key : A -> Z) (p : A -> bool) items :
  length (List.filter p (sort_by key items)) = length (List.filter p items).
Proof.
  induction items as [|x items IH]; cbn [sort_by]; [reflexivity|].
  rewrite filter_insert_by_length. cbn [List.filter].
  destruct (p x); cbn [length]; now rewrite IH.
Qed.

Lemma nondecreasing_after {A} (key : A -> Z) before x after :
  nondecreasing key (before ++ x :: after) ->
  forall y, In y after -> key x <= key y.
Proof.
  induction before as [|z before IH]; cbn [app nondecreasing].
  - intros [Hbelow _]. exact Hbelow.
  - intros [_ Hsorted]. exact (IH Hsorted).
Qed.

Section Order.

Variable rt : Runtime.

Lemma rank_critical v :
  severity v = VString "critical" -> default 4 (severity_rank rt v) = 4.
Proof. intros H. unfold severity_rank. rewrite H. reflexivity. Qed.

Lemma rank_lesser v : lesser v = true -> default 4 (severity_rank rt v) <= 3.
Proof.
  unfold lesser, severity_rank. destruct (severity v) as [| | | |s| | |]; try discriminate.
  cbn [to_string]. intros H.
  destruct (String.eqb_spec s "critical") as [->|_]; [discriminate|].
  destruct (String.eqb s "high"); [cbn; lia|].
  destruct (String.eqb s "moderate"); [cbn; lia|].
  destruct (String.eqb s "low"); [cbn; lia|discriminate].
Qed.

Lemma sorted_critical_then vulns out before c after :
  sorted rt vulns = Some out ->
  out = before ++ c :: after ->
  severity c = VString "critical" ->
  Forall (fun v => lesser v = false) after.
Proof.
  intros Hsorted Hout Hc. unfold sorted in Hsorted.
  destruct (_ || _); [|discriminate]. injection Hsorted as <-.
  apply Forall_forall. intros y Hy. apply list_elem_of_In in Hy.
  pose proof (sort_by_nondecreasing (fun v => default 4 (severity_rank rt v)) vulns)
    as Hnd.
  rewrite Hout in Hnd.
  pose proof (nondecreasing_after _ _ _ _ Hnd y Hy) as Hle. cbn beta in Hle.
  rewrite (rank_critical c Hc) in Hle.
  destruct (lesser y) eqn:Hy'; [|reflexivity].
  pose proof (rank_lesser y Hy'). lia.
Qed.

End Order.

(** X24: the order of the findings in the report.  The comparator ranks
    "critical" with [order.critical || 4], and [0 || 4] is [4]: critical
    findings rank with "info" and unknown severities, after "high",
    "moderate" and "low".  So the sorted list is a permutation of the
    findings in which no finding of one of those three severities comes
    after a critical one; and when a project has twenty or more such
    findings, none of the twenty rows shown is a critical one. *)
Theorem formatAudit_critical_last
    (rt : Runtime) (vulns out : list VulnerabilityInfo) :
  sorted rt vulns = Some out ->
  out ≡ₚ vulns /\
  (forall before c after,
     out = before ++ c :: after ->
     severity c = VString "critical" ->
     Forall (fun v => lesser v = false) after) /\
  ((20 <= length (List.filter lesser vulns))%nat ->
   Forall (fun v => severity v <> VString "critical") (take 20 out)).
Proof.
  intros Hsorted.
  assert (Hout : out = sort_by (fun v => default 4 (severity_rank rt v)) vulns).
  { unfold sorted in Hsorted. destruct (_ || _); [|discriminate].
    now injection Hsorted as <-. }
  split; [rewrite Hout; apply sort_by_Permutation|].
  split; [intros before c after Hsplit Hc;
          exact (sorted_critical_then rt vulns out before c after Hsorted Hsplit Hc)|].
  intros Hmany. apply Forall_forall. intros c Hc Hcritical.
  apply list_elem_of_lookup in Hc as [i Hi].
  apply lookup_take_Some in Hi as [Hi Hlt].
  pose proof (take_drop_middle out i c Hi) as Hsplit. symmetry in Hsplit.
  pose proof (sorted_critical_then rt vulns out _ c _ Hsorted Hsplit Hcritical) as Hafter.
  assert (Hcount : length (List.filter lesser out) = length (List.filter lesser vulns))
    by (rewrite Hout; apply filter_sort_by_length).
  rewrite Hsplit, List.filter_app in Hcount. cbn [List.filter] in Hcount.
  assert (Hc' : lesser c = false) by (unfold lesser; now rewrite Hcritical).
  rewrite Hc' in Hcount.
  assert (Hnone : List.filter lesser (drop (S i) out) = []).
  { clear -Hafter. induction Hafter as [|y ys Hy _ IH]; [reflexivity|].
    cbn [List.filter]. now rewrite Hy. }
  rewrite Hnone, app_nil_r in Hcount.
  pose proof (List.filter_length_le lesser (take i out)) as Hle.
  rewrite length_take in Hle. lia.
Qed.

Lemma formatAudit_critical_last_witness :
  rows rt_silent crowded = Some (replicate 20 (finding "lodash" "high")) /\
  Forall (fun v => severity v <> VString "critical")
         (take 20 (replicate 20 (finding "lodash" "high") ++ [finding "openssl" "critical"])).
Proof.
  assert (Hsorted : sorted rt_silent crowded
                    = Some (replicate 20 (finding "lodash" "high")
                            ++ [finding "openssl" "critical"]))
    by (vm_compute; reflexivity).
  split; [vm_compute; reflexivity|].
  apply (proj2 (proj2 (formatAudit_critical_last rt_silent crowded _ Hsorted))).
  vm_compute. lia.
Defined.

(** *** The report on the results of the aggregator *)

Lemma gt_zero_not_strict_zero rt v :
  gt_zero rt v = true -> strict_zero v = false.
Proof.
  unfold gt_zero, strict_zero. destruct v as [| | |[| | |q]| | | |]; try reflexivity.
  cbn [to_number number_gt]. intros H. apply andb_true_iff in H as [_ H].
  apply negb_true_iff in H. destruct (Qeq_bool q 0) eqn:Hq; [|reflexivity].
  apply Qeq_bool_iff in Hq. apply Qeq_sym in Hq. apply Qeq_bool_iff in Hq. congruence.
Qed.

Lemma kept_result_shown rt projects r :
  In r (auditAllProjects rt projects) ->
  (gt_zero rt (totalVulnerabilities r) = true /\
   strict_zero (totalVulnerabilities r) = false) \/
  (gt_zero rt (totalVulnerabilities r) = false /\
   (exists e, error r = Some e /\ e <> "") /\
   strict_zero (totalVulnerabilities r) = true).
Proof.
  unfold auditAllProjects. rewrite filter_In, in_map_iff.
  intros [(p & <- & _) Hkeeps]. unfold keeps in Hkeeps.
  destruct (gt_zero rt (totalVulnerabilities _)) eqn:Hgt;
    [left; split; [reflexivity|now apply gt_zero_not_strict_zero with (rt := rt)]|].
  right. split; [reflexivity|]. cbn [orb] in Hkeeps.
  destruct (AdapterFacts.auditProject_shaped rt (Project.path p) (Project.name p)
              (Project.language p)) as (_ & _ & [(c & e & Hempty)|Hnone]).
  - rewrite Hempty in *. cbn [error totalVulnerabilities] in *.
    destruct e as [e|]; [|discriminate]. split; [|reflexivity].
    exists e. split; [reflexivity|].
    apply negb_true_iff in Hkeeps. now apply String.eqb_neq in Hkeeps.
  - rewrite Hnone in Hkeeps. discriminate.
Qed.

(** X25: the report drops no result of the aggregator.  Every result that
    [auditAllProjects] returns is in exactly one of the two selections of
    [formatAudit], the projects with findings or the projects with errors,
    so [formatAudit] gives the all-clear message for the results of
    [auditAllProjects] only when there are none. *)
Theorem formatAudit_shows_every_result (rt : Runtime) (projects : list Project.t) :
  let results := auditAllProjects rt projects in
  (forall r, In r results ->
     (In r (withVulns rt results) /\ ~ In r (withErrors results)) \/
     (~ In r (withVulns rt results) /\ In r (withErrors results))) /\
  (all_clear rt results = true <-> results = []).
Proof.
  intros results.
  assert (Hshown : forall r, In r results ->
            (In r (withVulns rt results) /\ ~ In r (withErrors results)) \/
            (~ In r (withVulns rt results) /\ In r (withErrors results))).
  { intros r Hr. unfold withVulns, withErrors. rewrite !filter_In.
    destruct (kept_result_shown rt projects r Hr)
      as [[Hgt Hzero]|(Hgt & (e & He & Hne) & Hzero)].
    - left. split; [auto|]. intros [_ H]. rewrite Hzero, andb_false_r in H.
      discriminate.
    - right. split; [intros [_ H]; congruence|]. split; [exact Hr|].
      rewrite He, Hzero. apply String.eqb_neq in Hne. now rewrite Hne. }
  split; [exact Hshown|]. split.
  - intros Hclear. unfold all_clear in Hclear.
    apply andb_true_iff in Hclear as [Hv He].
    apply Nat.eqb_eq, length_zero_iff_nil in Hv.
    apply Nat.eqb_eq, length_zero_iff_nil in He.
    destruct results as [|r results'] eqn:Hresults; [reflexivity|].
    destruct (Hshown r (or_introl eq_refl)) as [[H _]|[_ H]].
    + rewrite Hv in H. destruct H.
    + rewrite He in H. destruct H.
  - intros ->. reflexivity.
Qed.

End FormatterFacts.

(** ** The shapes of the reports *)

Module ReportFacts.
Import Js Audit AuditSpec ReportSpec.

(** X26: a report of the node adapter that only has a summary.  When the
    parsed report has no [vulnerabilities] field (or a falsy one) and its
    summary has no [total], as in the layout that [pnpm audit] prints, the
    result has an empty list and a total of zero, while its severity counts
    are those of the summary; [auditAllProjects] then leaves the project out
    like a clean one, whatever the summary counts. *)
Theorem auditNode_summary_only
    (rt : Runtime) (projectPath projectName raw : string) (data field : value)
    (projects : list Project.t) :
  String.eqb (detect_pm rt projectPath) "npm"
  || String.eqb (detect_pm rt projectPath) "pnpm" = true ->
  cmd rt (node_auditCmd (detect_pm rt projectPath)) projectPath 60000 = Some raw ->
  raw <> "" ->
  JSON_parse rt raw = Some data ->
  get data "vulnerabilities" = Some field ->
  truthy field = false ->
  truthy (opt_get (node_meta data) "total") = false ->
  let r := auditNode rt projectPath projectName in
  vulnerabilities r = [] /\
  totalVulnerabilities r = zero /\
  error r = None /\
  (forall l, level_count l r
             = or_else (opt_get (node_meta data) (level_name l)) zero) /\
  ~ In r (auditAllProjects rt projects).
Proof.
  intros Hpm Hcmd Hraw Hdata Hfield Hfalsy Htotal r.
  assert (Hr : r = {| project := projectName;
                      language := "node";
                      vulnerabilities := [];
                      totalVulnerabilities := zero;
                      critical := or_else (opt_get (node_meta data) "critical") zero;
                      high := or_else (opt_get (node_meta data) "high") zero;
                      moderate := or_else (opt_get (node_meta data) "moderate") zero;
                      low := or_else (opt_get (node_meta data) "low") zero;
                      auditCommand := node_auditCmd (detect_pm rt projectPath);
                      error := None |}).
  { subst r. unfold auditNode. rewrite Hcmd, Hpm.
    destruct raw as [|c raw]; [contradiction|].
    unfold auditNode_parse. rewrite Hdata. cbn [mbind option_bind].
    rewrite Hfield. cbn [mbind option_bind]. rewrite Hfalsy.
    cbn [mbind option_bind]. unfold or_else at 1. rewrite Htotal. reflexivity. }
  rewrite Hr. cbn [vulnerabilities totalVulnerabilities error].
  split; [reflexivity|]. split; [reflexivity|]. split; [reflexivity|].
  split; [intros []; reflexivity|].
  unfold auditAllProjects. rewrite filter_In. intros [_ Hkeeps].
  unfold keeps in Hkeeps. cbn [totalVulnerabilities error] in Hkeeps.
  discriminate.
Qed.

Lemma auditNode_summary_only_witness :
  critical (auditNode rt_pnpm "/srv/app" "app") = VNumber (of_nat 1) /\
  ~ In (auditNode rt_pnpm "/srv/app" "app") (auditAllProjects rt_pnpm [project_pnpm]).
Proof.
  destruct (auditNode_summary_only rt_pnpm "/srv/app" "app" "<audit report>"
              pnpm_report VUndefined [project_pnpm]
              ltac:(vm_compute; reflexivity) ltac:(vm_compute; reflexivity)
              ltac:(discriminate) ltac:(vm_compute; reflexivity)
              ltac:(vm_compute; reflexivity) ltac:(vm_compute; reflexivity)
              ltac:(vm_compute; reflexivity))
    as (_ & _ & _ & Hcounts & Hout).
  split; [|exact Hout].
  pose proof (Hcounts Critical) as Hcritical.
  cbn [level_count level_name] in Hcritical.
  rewrite Hcritical. vm_compute. reflexivity.
Defined.

(** The python adapter accepts both layouts of the report: a list of
    dependencies, and an object that holds that list under [dependencies].
    The two give the same result. *)
Theorem auditPython_both_shapes
    (rt : Runtime) (projectName auditCmd raw1 raw2 : string)
    (ds : list value) (props : list (string * value)) :
  JSON_parse rt raw1 = Some (VArray ds) ->
  JSON_parse rt raw2 = Some (VObject props) ->
  lookup_prop "dependencies" props = VArray ds ->
  auditPython_parse rt projectName auditCmd raw1
  = auditPython_parse rt projectName auditCmd raw2.
Proof.
  intros H1 H2 Hdeps. unfold auditPython_parse. rewrite H1, H2.
  cbn [mbind option_bind get]. rewrite Hdeps. reflexivity.
Qed.

Lemma auditPython_both_shapes_witness :
  auditPython_parse rt_pip_shapes "app" "pip-audit" "<array>"
  = auditPython_parse rt_pip_shapes "app" "pip-audit" "<object>".
Proof.
  apply (auditPython_both_shapes rt_pip_shapes "app" "pip-audit" "<array>" "<object>"
           [ VObject [ ("name", VString "flask");
                       ("version", VString "0.5");
                       ("vulns",
                        VArray [ VObject [ ("id", VString "PYSEC-2019-179");
                                           ("fix_versions", VArray [VString "1.0"]);
                                           ("aliases", VArray [VString "CVE-2019-1010083"]) ];
                                 VObject [ ("id", VString "PYSEC-2018-66");
                                           ("fix_versions", VArray []);
                                           ("aliases", VArray []) ] ]) ];
             VObject [ ("name", VString "jinja2");
                       ("version", VString "3.1.2");
                       ("vulns", VArray []) ] ]
           [ ("dependencies", pip_report) ]);
    vm_compute; reflexivity.
Defined.

End ReportFacts.
